(** * wp-mcp: authentication manager, rate limiter and HTTP client wrapper

    A shallow embedding of

      - [src/types.ts]                       (error taxonomy, configuration records),
      - [src/auth/authentication-manager.ts] (class WordPressAuthenticationManager),
      - [src/auth/http-client.ts]            (classes RateLimiter and WordPressHttpClient),

    followed by the properties of the specification that concern them.

    Conventions.
      - A JavaScript string is a [string]; each [ascii] stands for one UTF-16
        code unit below 256 (the Latin-1 range).
      - A JavaScript number that holds a time in milliseconds, an HTTP status
        or a counter is a [Z].
      - [Date.now()] is an explicit argument [now], or the clock of the
        [World] for the HTTP client.
      - A method that throws returns a [result]; a method that throws after
        having mutated [this] returns the mutated object next to the error.
      - [new RegExp(pattern, 'gi')], for a pattern taken from the
        configuration, belongs to the platform: [RegExp.Engine] fixes what it
        does with plain-text patterns and leaves the rest open, and the
        theorems hold for every engine.
      - [HttpClient.request] is a call of the client that runs alone;
        [Concurrent] interleaves calls that overlap at their [await]s. *)

From Stdlib Require Import ZArith List String Ascii Bool Lia DecimalString DecimalPos Sorted.
Import ListNotations.
Open Scope string_scope.
Open Scope Z_scope.

(* ================================================================= *)
(** * Part I: the program *)
(* ================================================================= *)

(** ** JavaScript primitives used by the source *)

Module Js.

(** Template-literal rendering [`${n}`] of an integral number. *)
Definition show (n : Z) : string := NilZero.string_of_int (Z.to_int n).

(** [Math.ceil(a / b)] for integers [a] and a positive integer [b]. *)
Definition ceil_div (a b : Z) : Z := - ((- a) / b).

(** [x || dflt] on an optional string: [undefined] and [''] are falsy. *)
Definition or_else (x : option string) (dflt : string) : string :=
  match x with
  | Some (String c s) => String c s
  | _ => dflt
  end.

(** [Array.prototype.join]. *)
Definition join (sep : string) (l : list string) : string := String.concat sep l.

(** [String.prototype.includes]. *)
Fixpoint includes (needle hay : string) : bool :=
  String.prefix needle hay ||
  match hay with
  | EmptyString => false
  | String _ rest => includes needle rest
  end.

(** The line feed, written [\n] in the source. *)
Definition nl : string := String (ascii_of_nat 10) EmptyString.

(** A text given line by line: the lines joined by line feeds. *)
Definition text (lines : list string) : string := String.concat nl lines.

End Js.

(** ** [src/types.ts] *)

Inductive AuthErrorType : Type :=
| INVALID_CREDENTIALS
| UNAUTHORIZED
| FORBIDDEN
| NETWORK_ERROR
| TIMEOUT
| INVALID_URL
| SSL_ERROR
| RATE_LIMITED
| UNKNOWN_ERROR.

Definition AuthErrorType_eqb (a b : AuthErrorType) : bool :=
  match a, b with
  | INVALID_CREDENTIALS, INVALID_CREDENTIALS
  | UNAUTHORIZED, UNAUTHORIZED
  | FORBIDDEN, FORBIDDEN
  | NETWORK_ERROR, NETWORK_ERROR
  | TIMEOUT, TIMEOUT
  | INVALID_URL, INVALID_URL
  | SSL_ERROR, SSL_ERROR
  | RATE_LIMITED, RATE_LIMITED
  | UNKNOWN_ERROR, UNKNOWN_ERROR => true
  | _, _ => false
  end.

(** [class WordPressAuthError extends Error]: the [originalError] field only
    keeps a reference for debugging and is left out. *)
Record WordPressAuthError : Type := mkAuthError {
  type : AuthErrorType;
  message : string;
  httpStatus : option Z
}.

(** Outcome of a method that either returns a value or throws. *)
Inductive result (A : Type) : Type :=
| Ok (a : A)
| Throw (e : WordPressAuthError).
Arguments Ok {A} a.
Arguments Throw {A} e.

Definition bind {A B : Type} (r : result A) (k : A -> result B) : result B :=
  match r with
  | Ok a => k a
  | Throw e => Throw e
  end.

Notation "x <- r ;; k" := (bind r (fun x => k))
  (at level 61, r at next level, right associativity).

Record RateLimitConfig : Type := mkRateLimitConfig {
  requests_per_minute : Z;
  burst_limit : Z;
  window_ms : Z
}.

(** ** [class RateLimiter] of [src/auth/http-client.ts] *)

Module RateLimiter.

Record t : Type := mk {
  requests : list Z;
  config : RateLimitConfig
}.

(** [constructor(config)] *)
Definition new (cfg : RateLimitConfig) : t :=
  {| requests := []; config := cfg |}.

(** The message of the error thrown by [checkLimit]; [requests[0]] is
    [undefined] on an empty array, and the arithmetic then yields [NaN]. *)
Definition waitMessage (cfg : RateLimitConfig) (now : Z) (pruned : list Z) : string :=
  match pruned with
  | oldestRequest :: _ =>
      let waitTime := window_ms cfg - (now - oldestRequest) in
      "Rate limit exceeded. Please wait " ++ Js.show (Js.ceil_div waitTime 1000) ++ " seconds."
  | [] => "Rate limit exceeded. Please wait NaN seconds."
  end.

(** [async checkLimit()], with [now = Date.now()].  The assignment to
    [this.requests] precedes the [throw], so the pruned array is kept in
    both outcomes. *)
Definition checkLimit (now : Z) (rl : t) : result unit * t :=
  let windowStart := now - window_ms (config rl) in
  let pruned := filter (fun time => windowStart <? time) (requests rl) in
  if requests_per_minute (config rl) <=? Z.of_nat (List.length pruned) then
    (Throw (mkAuthError RATE_LIMITED (waitMessage (config rl) now pruned) None),
     {| requests := pruned; config := config rl |})
  else
    (Ok tt, {| requests := (pruned ++ [now])%list; config := config rl |}).

(** Successive calls of [checkLimit], one per reading of the clock. *)
Fixpoint checkAll (times : list Z) (rl : t) : list (result unit) * t :=
  match times with
  | [] => ([], rl)
  | now :: later =>
      let '(r, rl1) := checkLimit now rl in
      let '(rs, rl2) := checkAll later rl1 in
      (r :: rs, rl2)
  end.

(** The times of the checks that were let through, in the order of the
    calls. *)
Fixpoint passed (times : list Z) (results : list (result unit)) : list Z :=
  match times, results with
  | now :: times', Ok _ :: results' => now :: passed times' results'
  | _ :: times', Throw _ :: results' => passed times' results'
  | _, _ => []
  end.

End RateLimiter.

(** ** Character classes and string operations of the authentication manager *)

Module Chars.

Definition code (c : ascii) : N := N_of_ascii c.

Definition between (lo hi : N) (c : ascii) : bool :=
  ((lo <=? code c) && (code c <=? hi))%N.

Definition isDigit (c : ascii) : bool := between 48 57 c.
Definition isUpper (c : ascii) : bool := between 65 90 c.
Definition isLower (c : ascii) : bool := between 97 122 c.

(** The class [[a-zA-Z0-9]]. *)
Definition isAlnum (c : ascii) : bool := isLower c || isUpper c || isDigit c.

(** The class [\s] below code 256: TAB, LF, VT, FF, CR, space, NBSP. *)
Definition isSpace (c : ascii) : bool :=
  between 9 13 c || (code c =? 32)%N || (code c =? 160)%N.

(** The class [[A-Za-z0-9+\/=]]; it is closed under case, so the [i] flag
    leaves it as it is. *)
Definition isBase64 (c : ascii) : bool :=
  isAlnum c || (code c =? 43)%N || (code c =? 47)%N || (code c =? 61)%N.

(** Canonicalisation of a code unit under the [i] flag (upper-casing):
    a-z, and the accented lower-case letters of Latin-1 except the
    division sign, move down by 32; the code units whose upper-case form
    lies outside Latin-1 or has several letters stay as they are. *)
Definition canonicalize (c : ascii) : ascii :=
  if isLower c || (between 224 254 c && negb (code c =? 247)%N)
  then ascii_of_N (code c - 32)
  else c.

Definition eqbCI (a b : ascii) : bool :=
  Ascii.eqb (canonicalize a) (canonicalize b).

(** The characters that have a meaning of their own in a pattern. *)
Definition isRegexMeta (c : ascii) : bool :=
  existsb (Ascii.eqb c)
    (list_ascii_of_string "\^$.|?*+()[]{}").

End Chars.

Module Str.

Fixpoint forallb (p : ascii -> bool) (s : string) : bool :=
  match s with
  | EmptyString => true
  | String c rest => p c && forallb p rest
  end.

Fixpoint filter (p : ascii -> bool) (s : string) : string :=
  match s with
  | EmptyString => EmptyString
  | String c rest => if p c then String c (filter p rest) else filter p rest
  end.

Fixpoint drop (n : nat) (s : string) : string :=
  match n, s with
  | O, _ => s
  | S k, EmptyString => EmptyString
  | S k, String _ rest => drop k rest
  end.

(** Length of the longest prefix made of characters of the class [p]. *)
Fixpoint span (p : ascii -> bool) (s : string) : nat :=
  match s with
  | EmptyString => O
  | String c rest => if p c then S (span p rest) else O
  end.

(** Whether [pat] is a prefix of [s] up to case. *)
Fixpoint prefixCI (pat s : string) : bool :=
  match pat, s with
  | EmptyString, _ => true
  | String _ _, EmptyString => false
  | String a pat', String b s' => Chars.eqbCI a b && prefixCI pat' s'
  end.

(** A pattern that is plain text: the [RegExp] built from it matches the
    text itself. *)
Definition regexLiteral (pat : string) : bool :=
  forallb (fun c => negb (Chars.isRegexMeta c)) pat.

(** [s.replace(re, repl)] for a regular expression with the [g] flag and a
    replacement text without [$].  The expression is given by [matchAt],
    the length of its match at the head of the argument, if any.  [skip]
    counts the characters of the current match still to be dropped.  After
    an empty match the scan moves on by one character, as [lastIndex]
    does. *)
Fixpoint replaceAll (matchAt : string -> option nat) (repl : string)
                    (skip : nat) (s : string) : string :=
  match skip with
  | S k =>
      match s with
      | EmptyString => EmptyString
      | String _ rest => replaceAll matchAt repl k rest
      end
  | O =>
      match matchAt s with
      | Some n =>
          repl ++
          match s with
          | EmptyString => EmptyString
          | String c rest =>
              match n with
              | O => String c (replaceAll matchAt repl O rest)
              | S k => replaceAll matchAt repl k rest
              end
          end
      | None =>
          match s with
          | EmptyString => EmptyString
          | String c rest => String c (replaceAll matchAt repl O rest)
          end
      end
  end.

(** [re.test(s)] for an expression without anchors: a match somewhere. *)
Fixpoint test (matchAt : string -> option nat) (s : string) : bool :=
  match matchAt s with
  | Some _ => true
  | None =>
      match s with
      | EmptyString => false
      | String _ rest => test matchAt rest
      end
  end.

(** [new RegExp(pat, 'gi')] for a pattern that is plain text. *)
Definition matchLiteralCI (pat : string) (s : string) : option nat :=
  if prefixCI pat s then Some (String.length pat) else None.

(** [/Basic\s+[A-Za-z0-9+\/=]+/gi]: both repetitions are greedy and the
    two classes are disjoint, so there is no backtracking. *)
Definition matchBasicToken (s : string) : option nat :=
  if prefixCI "Basic" s then
    let afterWord := drop 5 s in
    let spaces := span Chars.isSpace afterWord in
    let token := span Chars.isBase64 (drop spaces afterWord) in
    if (Nat.ltb 0 spaces && Nat.ltb 0 token)%bool
    then Some (5 + spaces + token)%nat
    else None
  else None.

(** [s.replace(pat, repl)] with a string pattern: the first occurrence. *)
Fixpoint replaceFirst (pat repl s : string) : string :=
  if String.prefix pat s then repl ++ drop (String.length pat) s
  else match s with
       | EmptyString => EmptyString
       | String c rest => String c (replaceFirst pat repl rest)
       end.

(** [Buffer.from(s)]: the UTF-8 bytes of a string of Latin-1 code units. *)
Fixpoint utf8 (s : string) : list N :=
  match s with
  | EmptyString => []
  | String c rest =>
      let n := Chars.code c in
      if (n <? 128)%N then n :: utf8 rest
      else (192 + n / 64)%N :: (128 + n mod 64)%N :: utf8 rest
  end.

Definition base64Digit (n : N) : ascii :=
  match String.get (N.to_nat n)
          "ABCDEFGHIJKLMNOPQRSTUVWXYZabcdefghijklmnopqrstuvwxyz0123456789+/" with
  | Some c => c
  | None => "="%char
  end.

(** [buffer.toString('base64')]. *)
Fixpoint base64 (bytes : list N) : string :=
  match bytes with
  | [] => EmptyString
  | [a] =>
      String (base64Digit (a / 4))
        (String (base64Digit ((a mod 4) * 16)) "==")
  | [a; b] =>
      String (base64Digit (a / 4))
        (String (base64Digit ((a mod 4) * 16 + b / 16))
           (String (base64Digit ((b mod 16) * 4)) "="))
  | a :: b :: c :: rest =>
      String (base64Digit (a / 4))
        (String (base64Digit ((a mod 4) * 16 + b / 16))
           (String (base64Digit ((b mod 16) * 4 + c / 64))
              (String (base64Digit (c mod 64)) (base64 rest))))
  end%N.

(** [s.replace(/\/$/, '')]: a slash at the very end of the text is removed
    (the expression has neither the [g] nor the [m] flag). *)
Fixpoint dropTrailingSlash (s : string) : string :=
  match s with
  | EmptyString => EmptyString
  | String c rest =>
      match rest with
      | EmptyString => if Ascii.eqb c "/" then EmptyString else s
      | String _ _ => String c (dropTrailingSlash rest)
      end
  end.

(** Whether the text ends with a slash. *)
Fixpoint endsWithSlash (s : string) : bool :=
  match s with
  | EmptyString => false
  | String c EmptyString => Ascii.eqb c "/"
  | String _ rest => endsWithSlash rest
  end.

(** [c.toLowerCase()] on a code unit below 256: A-Z and the accented
    upper-case letters of Latin-1, the multiplication sign apart, move up by
    32. *)
Definition lowerChar (c : ascii) : ascii :=
  if Chars.isUpper c || (Chars.between 192 222 c && negb (Chars.code c =? 215)%N)
  then ascii_of_N (Chars.code c + 32)
  else c.

(** [s.toLowerCase()] *)
Fixpoint toLowerCase (s : string) : string :=
  match s with
  | EmptyString => EmptyString
  | String c rest => String (lowerChar c) (toLowerCase rest)
  end.

(** [s.trimStart()] *)
Fixpoint trimStart (s : string) : string :=
  match s with
  | EmptyString => EmptyString
  | String c rest => if Chars.isSpace c then trimStart rest else s
  end.

(** [s.trimEnd()] *)
Fixpoint trimEnd (s : string) : string :=
  match s with
  | EmptyString => EmptyString
  | String c rest =>
      match trimEnd rest with
      | EmptyString => if Chars.isSpace c then EmptyString else String c EmptyString
      | kept => String c kept
      end
  end.

(** [s.trim()] *)
Definition trim (s : string) : string := trimEnd (trimStart s).

(** The longest prefix made of characters of the class [p]. *)
Fixpoint takeWhile (p : ascii -> bool) (s : string) : string :=
  match s with
  | EmptyString => EmptyString
  | String c rest => if p c then String c (takeWhile p rest) else EmptyString
  end.

End Str.

(** ** [new RegExp(pattern, 'gi')] of the platform *)

Module RegExp.

(** What a statement that builds a regular expression and uses it comes to:
    the text it yields, or the [SyntaxError] that the constructor throws for
    a pattern that is not well formed. *)
Inductive result : Type :=
| Returned (text : string)
| SyntaxError (message : string).

(** The regular expressions of the platform, as far as the source uses
    them with a pattern that is not fixed.  [compiles pattern] says whether
    [new RegExp(pattern, 'gi')] returns, [syntaxError pattern] is the message
    of the error it throws otherwise, and [replace pattern replacement
    subject] is [subject.replace(new RegExp(pattern, 'gi'), replacement)].
    Of the platform the model knows this much: a pattern none of whose
    characters has a meaning of its own in a pattern is well formed and
    stands for its own text, matched without regard to case, and a
    replacement without [$] is inserted as it is. *)
Class Engine : Type := {
  compiles : string -> bool;
  syntaxError : string -> string;
  replace : string -> string -> string -> string;
  literal_compiles :
    forall pattern, Str.regexLiteral pattern = true -> compiles pattern = true;
  literal_replace :
    forall pattern replacement subject,
      Str.regexLiteral pattern = true ->
      Js.includes "$" replacement = false ->
      replace pattern replacement subject
      = Str.replaceAll (Str.matchLiteralCI pattern) replacement O subject
}.

(** [subject.replace(new RegExp(pattern, 'gi'), replacement)] *)
Definition replaceAll {engine : Engine} (pattern replacement subject : string) : result :=
  if compiles pattern then Returned (replace pattern replacement subject)
  else SyntaxError (syntaxError pattern).

(** An engine that knows plain-text patterns only and refuses every other
    pattern.  It agrees with the platform on plain-text patterns and on the
    patterns that the platform refuses; the examples use it on such
    patterns only. *)
Definition plainText : Engine :=
  {| compiles := Str.regexLiteral;
     syntaxError := fun pattern => "Invalid regular expression: /" ++ pattern ++ "/gi";
     replace := fun pattern replacement subject =>
                  Str.replaceAll (Str.matchLiteralCI pattern) replacement O subject;
     literal_compiles := fun _ H => H;
     literal_replace := fun _ _ _ _ _ => eq_refl |}.

End RegExp.

(** ** [new URL(s)] of the platform *)

Module Url.

(** The two getters the source reads. *)
Record t : Type := mk {
  protocol : string;
  hostname : string
}.

(** [new URL(s)] returns a URL or throws a [TypeError] with a message. *)
Inductive parsed : Type :=
| Parsed (url : t)
| TypeError (msg : string).

Definition toLower (c : ascii) : ascii :=
  if Chars.isUpper c then ascii_of_N (Chars.code c + 32) else c.

Fixpoint lower (s : string) : string :=
  match s with
  | EmptyString => EmptyString
  | String c rest => String (toLower c) (lower rest)
  end.

Definition isSchemeChar (c : ascii) : bool :=
  Chars.isAlnum c || existsb (Ascii.eqb c) (list_ascii_of_string "+-.").

Definition isHostEnd (c : ascii) : bool :=
  existsb (Ascii.eqb c) (list_ascii_of_string "/\?#:").

Definition isSlash (c : ascii) : bool :=
  existsb (Ascii.eqb c) (list_ascii_of_string "/\").

Definition isSpecial (scheme : string) : bool :=
  existsb (String.eqb scheme) ["http"; "https"; "ws"; "wss"; "ftp"].

(** A reference parser used to run the examples: the URL standard's
    algorithm on inputs of the shape [scheme ":" ["//"] host rest], without
    credentials, bracketed addresses or escapes.  The general results take
    the parser as a parameter and hold for every parser. *)
Definition parse (s : string) : parsed :=
  let n := Str.span isSchemeChar s in
  match s, String.get n s with
  | String first _, Some ":"%char =>
      if Chars.isLower first || Chars.isUpper first then
        let scheme := lower (String.substring 0 n s) in
        let rest := Str.drop (S n) s in
        if isSpecial scheme then
          let authority := Str.drop (Str.span isSlash rest) rest in
          let host := String.substring 0 (Str.span (fun c => negb (isHostEnd c)) authority) authority in
          match host with
          | EmptyString => TypeError "Invalid URL"
          | _ => Parsed (mk (scheme ++ ":") (lower host))
          end
        else if String.prefix "//" rest then
          let authority := Str.drop 2 rest in
          let host := String.substring 0 (Str.span (fun c => negb (isHostEnd c)) authority) authority in
          Parsed (mk (scheme ++ ":") (lower host))
        else Parsed (mk (scheme ++ ":") EmptyString)
      else TypeError "Invalid URL"
  | _, _ => TypeError "Invalid URL"
  end.

End Url.

(** ** [src/types.ts], continued: configuration and authentication state *)

Module Policy.
(** The [rate_limit] entry of the configuration. *)
Record t : Type := mk {
  requests_per_minute : Z;
  burst_limit : Z
}.
End Policy.

Record WordPressConfig : Type := mkConfig {
  site_url : string;
  username : string;
  app_password : string;
  verify_ssl : bool;
  timeout : Z;
  rate_limit : option Policy.t
}.

Module Credentials.
Record t : Type := mk {
  username : string;
  password : string   (* Base64 encoded for HTTP Basic Auth *)
}.
End Credentials.

Module AuthState.
Record t : Type := mk {
  isAuthenticated : bool;
  lastVerified : option Z;
  credentials : option Credentials.t
}.

Definition empty : t :=
  {| isAuthenticated := false; lastVerified := None; credentials := None |}.
End AuthState.

Record SecurityValidationResult : Type := mkValidation {
  isSecure : bool;
  issues : list string;
  warnings : list string
}.

(** ** [class WordPressAuthenticationManager] *)

Module AuthManager.

Record t : Type := mk {
  authState : AuthState.t;
  config : WordPressConfig;
  lastAuthCheck : option Z
}.

Definition AUTH_CACHE_DURATION : Z := 5 * 60 * 1000.

(** [isValidApplicationPassword(password)] *)
Definition isValidApplicationPassword (password : string) : bool :=
  let cleanPassword := Str.filter (fun c => negb (Chars.isSpace c)) password in
  (String.length cleanPassword =? 24)%nat
  && (Nat.ltb 0 (String.length cleanPassword) && Str.forallb Chars.isAlnum cleanPassword).

Section WithUrlParser.

(** The platform's [new URL(_)]. *)
Variable parseURL : string -> Url.parsed.

(** [validateSecurity()]: an exception of [new URL] leaves both lists
    empty before the [catch] adds its issue. *)
Definition validateSecurity (cfg : WordPressConfig) : SecurityValidationResult :=
  match parseURL (site_url cfg) with
  | Url.Parsed url =>
      let issues :=
        if negb (Url.protocol url =? "https:")%string then ["Site URL must use HTTPS"] else [] in
      let warnings :=
        ((if (Url.hostname url =? "localhost")%string || (Url.hostname url =? "127.0.0.1")%string
          then ["Using localhost - ensure this is for development only"] else [])
         ++ (if negb (verify_ssl cfg)
             then ["SSL verification is disabled - this reduces security"] else [])
         ++ (if 60000 <? timeout cfg
             then ["Timeout is set very high - consider reducing for better user experience"]
             else []))%list in
      {| isSecure := (List.length issues =? 0)%nat; issues := issues; warnings := warnings |}
  | Url.TypeError _ =>
      let issues := ["Invalid site URL format"] in
      {| isSecure := (List.length issues =? 0)%nat; issues := issues; warnings := [] |}
  end.

(** [validateConfiguration()].  The [throw] inside the [try] block is
    caught by the [catch] of the same block, which wraps its message. *)
Definition validateConfiguration (cfg : WordPressConfig) : result unit :=
  let validation := validateSecurity cfg in
  if negb (isSecure validation) then
    Throw (mkAuthError INVALID_URL
             ("Security validation failed: " ++ Js.join ", " (issues validation)) None)
  else
    _ <- match parseURL (site_url cfg) with
         | Url.Parsed url =>
             if negb (Url.protocol url =? "https:")%string then
               Throw (mkAuthError INVALID_URL
                        ("Invalid WordPress site URL: "
                           ++ "WordPress site URL must use HTTPS for security") None)
             else Ok tt
         | Url.TypeError msg =>
             Throw (mkAuthError INVALID_URL ("Invalid WordPress site URL: " ++ msg) None)
         end ;;
    if negb (isValidApplicationPassword (app_password cfg)) then
      Throw (mkAuthError INVALID_CREDENTIALS
               "Application password format is invalid. Should be in format: xxxx xxxx xxxx xxxx xxxx xxxx"
               None)
    else Ok tt.

(** [constructor(config)] *)
Definition new (cfg : WordPressConfig) : result t :=
  let this := {| authState := AuthState.empty; config := cfg; lastAuthCheck := None |} in
  _ <- validateConfiguration cfg ;;
  Ok this.

End WithUrlParser.

(** [generateAuthHeader()] *)
Definition generateAuthHeader (m : t) : string :=
  let credentials := username (config m) ++ ":" ++ app_password (config m) in
  let encoded := Str.base64 (Str.utf8 credentials) in
  "Basic " ++ encoded.

(** [authenticate()], with [now] the reading of [new Date()].  Nothing in
    the [try] block throws, so the [catch] branch is never taken. *)
Definition authenticate (now : Z) (m : t) : result unit * t :=
  let authHeader := generateAuthHeader m in
  (Ok tt,
   {| authState :=
        {| AuthState.isAuthenticated := true;
           AuthState.lastVerified := Some now;
           AuthState.credentials :=
             Some {| Credentials.username := username (config m);
                     Credentials.password := Str.replaceFirst "Basic " "" authHeader |} |};
      config := config m;
      lastAuthCheck := Some now |}).

(** [isAuthenticated()], with [now = Date.now()]. *)
Definition isAuthenticated (now : Z) (m : t) : bool :=
  if negb (AuthState.isAuthenticated (authState m)) then false
  else if match lastAuthCheck m with
          | Some checked => now - checked <? AUTH_CACHE_DURATION
          | None => false
          end
  then true
  else AuthState.isAuthenticated (authState m).

(** [getAuthorizationHeader()] *)
Definition getAuthorizationHeader (m : t) : result string :=
  match AuthState.credentials (authState m) with
  | None => Throw (mkAuthError UNAUTHORIZED "No authentication credentials available" None)
  | Some credentials => Ok ("Basic " ++ Credentials.password credentials)
  end.

(** [invalidateAuth()] *)
Definition invalidateAuth (m : t) : t :=
  {| authState := AuthState.empty; config := config m; lastAuthCheck := None |}.

(** [needsReAuth()] *)
Definition needsReAuth (now : Z) (m : t) : bool :=
  if negb (AuthState.isAuthenticated (authState m)) then true
  else match lastAuthCheck m with
       | None => true
       | Some checked => AUTH_CACHE_DURATION <? now - checked
       end.

(** [updateConfig(newConfig)]: the configuration is replaced before it is
    validated. *)
Definition updateConfig (parseURL : string -> Url.parsed) (now : Z)
                        (newConfig : WordPressConfig) (m : t) : result unit * t :=
  let m1 := {| authState := authState m; config := newConfig; lastAuthCheck := lastAuthCheck m |} in
  match validateConfiguration parseURL newConfig with
  | Throw e => (Throw e, m1)
  | Ok _ => authenticate now m1
  end.

(** [sanitizeErrorMessage(error)], on [error.message].  The user name and
    the password are given to [new RegExp(_, 'gi')] as patterns: a pattern
    that is not well formed makes the statement throw a [SyntaxError], and
    the statements after it are not run. *)
Definition sanitizeErrorMessage {engine : RegExp.Engine} (m : t) (message : string)
  : RegExp.result :=
  match RegExp.replaceAll (username (config m)) "[USERNAME]" message with
  | RegExp.SyntaxError text => RegExp.SyntaxError text
  | RegExp.Returned message =>
      match RegExp.replaceAll (app_password (config m)) "[PASSWORD]" message with
      | RegExp.SyntaxError text => RegExp.SyntaxError text
      | RegExp.Returned message =>
          RegExp.Returned
            (Str.replaceAll Str.matchBasicToken "Basic [CREDENTIALS]" O message)
      end
  end.

(** What [sanitizeErrorMessage] returns when the user name and the password
    are plain-text patterns ([sanitizeErrorMessage_plain] below). *)
Definition redacted (m : t) (message : string) : string :=
  let message := Str.replaceAll (Str.matchLiteralCI (username (config m))) "[USERNAME]" O message in
  let message := Str.replaceAll (Str.matchLiteralCI (app_password (config m))) "[PASSWORD]" O message in
  let message := Str.replaceAll Str.matchBasicToken "Basic [CREDENTIALS]" O message in
  message.

(** The user name and the password are plain-text patterns. *)
Definition plainCredentials (m : t) : bool :=
  Str.regexLiteral (username (config m)) && Str.regexLiteral (app_password (config m)).

(** The platform accepts the user name and the password as patterns. *)
Definition wellFormedCredentials {engine : RegExp.Engine} (m : t) : bool :=
  RegExp.compiles (username (config m)) && RegExp.compiles (app_password (config m)).

(** Credentials are held whenever the flag of the state is set. *)
Definition consistent (m : t) : Prop :=
  AuthState.isAuthenticated (authState m) = true ->
  AuthState.credentials (authState m) <> None.

(** The calls that write to the manager, [invalidateAuth] apart. *)
Inductive Call : Type :=
| CallAuthenticate (now : Z)
| CallUpdateConfig (now : Z) (newConfig : WordPressConfig).

Definition perform (parseURL : string -> Url.parsed) (m : t) (call : Call) : t :=
  match call with
  | CallAuthenticate now => snd (authenticate now m)
  | CallUpdateConfig now newConfig => snd (updateConfig parseURL now newConfig m)
  end.

Definition performAll (parseURL : string -> Url.parsed) (calls : list Call) (m : t) : t :=
  fold_left (perform parseURL) calls m.

(** The password once its whitespace is removed. *)
Definition stripped (password : string) : string :=
  Str.filter (fun c => negb (Chars.isSpace c)) password.

(** The passwords of the specification that must be refused: stripped
    length other than 24, or a character that is not a letter or digit. *)
Definition malformed (password : string) : Prop :=
  String.length (stripped password) <> 24%nat
  \/ exists c, In c (list_ascii_of_string (stripped password)) /\ Chars.isAlnum c = false.

(** An absolute URL with the scheme https. *)
Definition isAbsoluteHttps (parseURL : string -> Url.parsed) (s : string) : bool :=
  match parseURL s with
  | Url.Parsed url => (Url.protocol url =? "https:")%string
  | Url.TypeError _ => false
  end.

(** [getApiBaseUrl()] *)
Definition getApiBaseUrl (m : t) : string :=
  let baseUrl := Str.dropTrailingSlash (site_url (config m)) in
  baseUrl ++ "/wp-json/wp/v2".

(** [getSiteUrl()] *)
Definition getSiteUrl (m : t) : string := site_url (config m).

End AuthManager.

(** ** The network and the HTTP library *)

Module AxiosResponse.
(** The fields of a response that the source reads: [status] and
    [data.message]. *)
Record t : Type := mk {
  status : Z;
  dataMessage : option string
}.
End AxiosResponse.

Module AxiosError.
Definition thrownMessage (e : WordPressAuthError) : string := message e.

(** What a rejected promise of the client carries, as far as
    [handleResponseError] reads it: [error.response], [error.code],
    [error.message]. *)
Record t : Type := mk {
  response : option AxiosResponse.t;
  code : option string;
  message : string
}.

(** A [WordPressAuthError] thrown inside the chain has neither [response]
    nor [code]. *)
Definition ofThrown (e : WordPressAuthError) : t :=
  {| response := None; code := None; message := thrownMessage e |}.
End AxiosError.

Module Net.

(** What the network does with one request put on the wire. *)
Inductive Reply : Type :=
| Response (status : Z) (dataMessage : option string)
| Failure (code : string) (message : string).

Record Exchange : Type := mkExchange {
  latency : Z;
  reply : Reply
}.

(** What the client did, for the statements of Part II; the source keeps
    no such trace. *)
Inductive Event : Type :=
| Dispatched (authorization : string)  (* a request was put on the wire *)
| Retried                              (* the 401 branch resubmitted the request *)
| Succeeded.                           (* the success handler of the response interceptor ran *)

(** The environment of a client: the clock read by [Date.now()], the
    replies the network will give to the requests to come, in order, and the
    trace of events so far, the latest first. *)
Record World : Type := mkWorld {
  clock : Z;
  wire : list Exchange;
  trace : list Event
}.

Definition record (ev : Event) (w : World) : World :=
  {| clock := clock w; wire := wire w; trace := ev :: trace w |}.

Definition advance (ms : Z) (w : World) : World :=
  {| clock := clock w + ms; wire := wire w; trace := trace w |}.

(** The library settles a reply: a status from 200 to 299 fulfils the
    promise, any other rejects it with an error that carries the
    response and the code ERR_BAD_REQUEST (4xx) or ERR_BAD_RESPONSE (5xx); a
    transport failure rejects it with an error without response. *)
Definition settle (r : Reply) : AxiosResponse.t + AxiosError.t :=
  match r with
  | Response status data =>
      let response := AxiosResponse.mk status data in
      if (200 <=? status) && (status <? 300) then inl response
      else inr {| AxiosError.response := Some response;
                  AxiosError.code :=
                    if (400 <=? status) && (status <? 500) then Some "ERR_BAD_REQUEST"
                    else if (500 <=? status) && (status <? 600) then Some "ERR_BAD_RESPONSE"
                    else None;
                  AxiosError.message := "Request failed with status code " ++ Js.show status |}
  | Failure code message =>
      inr {| AxiosError.response := None;
             AxiosError.code := Some code;
             AxiosError.message := message |}
  end.

(** The error the library builds for a response with status 401. *)
Definition error401 (d : option string) : AxiosError.t :=
  {| AxiosError.response := Some (AxiosResponse.mk 401 d);
     AxiosError.code := Some "ERR_BAD_REQUEST";
     AxiosError.message := "Request failed with status code 401" |}.

End Net.

(** ** [class WordPressHttpClient] *)

Module HttpClient.
Import Net.

Record t : Type := mk {
  authManager : AuthManager.t;
  rateLimiter : option RateLimiter.t;
  retryCount : Z
}.

Definition withAuthManager (am : AuthManager.t) (c : t) : t :=
  {| authManager := am; rateLimiter := rateLimiter c; retryCount := retryCount c |}.

Definition withRateLimiter (rl : RateLimiter.t) (c : t) : t :=
  {| authManager := authManager c; rateLimiter := Some rl; retryCount := retryCount c |}.

Definition withRetryCount (n : Z) (c : t) : t :=
  {| authManager := authManager c; rateLimiter := rateLimiter c; retryCount := n |}.

(** [constructor(authManager)] *)
Definition new (authManager : AuthManager.t) : t :=
  {| authManager := authManager;
     rateLimiter :=
       match rate_limit (AuthManager.config authManager) with
       | Some policy =>
           Some (RateLimiter.new
                   {| requests_per_minute := Policy.requests_per_minute policy;
                      burst_limit := Policy.burst_limit policy;
                      window_ms := 60000 |})
       | None => None
       end;
     retryCount := 0 |}.

(** How a call of the client ends. *)
Inductive Outcome : Type :=
| Fulfilled (response : AxiosResponse.t)
| Rejected (error : WordPressAuthError)
| Threw (syntaxError : string)
    (* rejected with the [SyntaxError] of [sanitizeErrorMessage] *)
| Pending      (* the network never answers: the wire is empty *)
| OutOfFuel.   (* the model ran out of fuel *)

(** The request interceptor of [setupInterceptors], first step: the
    admission check of the rate limiter, if one is configured. *)
Definition rateLimitStep (now : Z) (c : t) : result unit * t :=
  match rateLimiter c with
  | Some rl =>
      let '(r, rl') := RateLimiter.checkLimit now rl in (r, withRateLimiter rl' c)
  | None => (Ok tt, c)
  end.

(** Second and third step: authenticate if need be, then read the
    [Authorization] header to attach. *)
Definition authorize (now : Z) (c : t) : result string * t :=
  let '(authentication, am) :=
    if negb (AuthManager.isAuthenticated now (authManager c))
    then AuthManager.authenticate now (authManager c)
    else (Ok tt, authManager c) in
  let c := withAuthManager am c in
  match authentication with
  | Throw e => (Throw e, c)
  | Ok _ => (AuthManager.getAuthorizationHeader am, c)
  end.

(** The request interceptor; it returns the header it attaches. *)
Definition requestInterceptor (now : Z) (c : t) : result string * t :=
  match rateLimitStep now c with
  | (Throw e, c) => (Throw e, c)
  | (Ok _, c) => authorize now c
  end.

Definition statusIs (n : Z) (status : option Z) : bool :=
  match status with Some s => s =? n | None => false end.

Definition codeIs (name : string) (code : option string) : bool :=
  match code with Some c => String.eqb c name | None => false end.

Section WithEngine.

Context {engine : RegExp.Engine}.

(** The last statement of [handleResponseError]: the error it throws has
    the sanitized message, unless [sanitizeErrorMessage] throws first. *)
Definition fallback (c : t) (message : string) (status : option Z) : Outcome :=
  match AuthManager.sanitizeErrorMessage (authManager c) message with
  | RegExp.Returned text => Rejected (mkAuthError UNKNOWN_ERROR text status)
  | RegExp.SyntaxError text => Threw text
  end.

(** [handleResponseError(error)].  [resubmit] stands for
    [this.axiosInstance.request(error.config)]; its promise is returned
    without [await], so what it rejects with is not caught by the [catch]
    around it. *)
Definition handleResponseError
    (resubmit : t -> World -> Outcome * t * World)
    (error : AxiosError.t) (c : t) (w : World) : Outcome * t * World :=
  let status := option_map AxiosResponse.status (AxiosError.response error) in
  let data_message :=
    match AxiosError.response error with
    | Some response => AxiosResponse.dataMessage response
    | None => None
    end in
  if statusIs 401 status then
    let c := withAuthManager (AuthManager.invalidateAuth (authManager c)) c in
    if retryCount c <? 1 then
      let c := withRetryCount (retryCount c + 1) c in
      let w := record Retried w in
      match AuthManager.authenticate (clock w) (authManager c) with
      | (Ok _, am) => resubmit (withAuthManager am c) w
      | (Throw _, am) =>
          (Rejected (mkAuthError INVALID_CREDENTIALS
                       "Authentication failed. Please check your username and application password."
                       (Some 401)),
           withAuthManager am c, w)
      end
    else
      (Rejected (mkAuthError UNAUTHORIZED
                   "Invalid credentials or expired authentication" (Some 401)),
       c, w)
  else if statusIs 403 status then
    (Rejected (mkAuthError FORBIDDEN
                 (Js.or_else data_message "Access forbidden. Check user permissions.")
                 (Some 403)),
     c, w)
  else if statusIs 429 status then
    (Rejected (mkAuthError RATE_LIMITED "Rate limit exceeded by WordPress server" (Some 429)),
     c, w)
  else if codeIs "ECONNABORTED" (AxiosError.code error)
          || codeIs "ETIMEDOUT" (AxiosError.code error) then
    (Rejected (mkAuthError TIMEOUT "Request timed out" None), c, w)
  else if codeIs "CERT_HAS_EXPIRED" (AxiosError.code error)
          || codeIs "UNABLE_TO_VERIFY_LEAF_SIGNATURE" (AxiosError.code error) then
    (Rejected (mkAuthError SSL_ERROR
                 "SSL certificate error. Check your WordPress site's SSL configuration."
                 None),
     c, w)
  else
    match status with
    | Some st =>
        if 500 <=? st then
          (Rejected (mkAuthError NETWORK_ERROR
                       ("WordPress server error (" ++ Js.show st ++ "): "
                          ++ Js.or_else data_message "Internal server error")
                       (Some st)),
           c, w)
        else if 400 <=? st then
          (Rejected (mkAuthError UNKNOWN_ERROR
                       ("WordPress API error (" ++ Js.show st ++ "): "
                          ++ Js.or_else data_message "Bad request")
                       (Some st)),
           c, w)
        else (fallback c (AxiosError.message error) (Some st), c, w)
    | None => (fallback c (AxiosError.message error) None, c, w)
    end.

(** [this.axiosInstance.request(config)], which [get], [post], [put],
    [delete] and [patch] all go through.  The library chains
    request interceptor, dispatch and response interceptor as promises: what
    the request interceptor throws skips the dispatch and reaches the
    rejection handler of the response interceptor, [handleResponseError]. *)
Fixpoint request (fuel : nat) (c : t) (w : World) : Outcome * t * World :=
  match fuel with
  | O => (OutOfFuel, c, w)
  | S fuel' =>
      match requestInterceptor (clock w) c with
      | (Throw e, c) => handleResponseError (request fuel') (AxiosError.ofThrown e) c w
      | (Ok authorization, c) =>
          match wire w with
          | [] => (Pending, c, w)
          | exchange :: later =>
              let w := {| clock := clock w + latency exchange;
                          wire := later;
                          trace := Dispatched authorization :: trace w |} in
              match settle (reply exchange) with
              | inl response =>
                  (Fulfilled response, withRetryCount 0 c, record Succeeded w)
              | inr error => handleResponseError (request fuel') error c w
              end
          end
      end
  end.

(** Calls made one after the other, each awaited; [idle] gives the time
    that passes before each call. *)
Fixpoint session (fuel : nat) (idle : list Z) (c : t) (w : World)
  : list Outcome * t * World :=
  match idle with
  | [] => ([], c, w)
  | ms :: later =>
      let '(o, c1, w1) := request fuel c (advance ms w) in
      let '(os, c2, w2) := session fuel later c1 w1 in
      (o :: os, c2, w2)
  end.

End WithEngine.

(** The client with which the 401 branch resubmits the request: access
    invalidated, counter incremented, credentials set up again. *)
Definition retrying (now : Z) (c : t) : t :=
  let c := withAuthManager (AuthManager.invalidateAuth (authManager c)) c in
  let c := withRetryCount (retryCount c + 1) c in
  withAuthManager (snd (AuthManager.authenticate now (authManager c))) c.

(** The categories of the errors that a call of the client can end with. *)
Definition surfaced : list AuthErrorType :=
  [INVALID_CREDENTIALS; UNAUTHORIZED; FORBIDDEN; TIMEOUT; NETWORK_ERROR;
   SSL_ERROR; RATE_LIMITED; UNKNOWN_ERROR].

Definition isRetried (ev : Event) : bool :=
  match ev with Retried => true | _ => false end.

(** Number of retries in a trace. *)
Definition retries (tr : list Event) : nat :=
  List.length (List.filter isRetried tr).

(** Number of retries since the latest success (the trace has the latest
    event first). *)
Fixpoint retriesSinceSuccess (tr : list Event) : Z :=
  match tr with
  | [] => 0
  | Succeeded :: _ => 0
  | Retried :: older => 1 + retriesSinceSuccess older
  | Dispatched _ :: older => retriesSinceSuccess older
  end.

(** At every point of the trace there had been at most one retry since the
    latest success. *)
Fixpoint atMostOneRetryPerSuccess (tr : list Event) : bool :=
  match tr with
  | [] => true
  | _ :: older => (retriesSinceSuccess tr <=? 1) && atMostOneRetryPerSuccess older
  end.

(** The counter of the client equals the number of retries since the latest
    success, and that number never exceeded one. *)
Definition counterInvariant (c : t) (w : World) : Prop :=
  retryCount c = retriesSinceSuccess (trace w)
  /\ atMostOneRetryPerSuccess (trace w) = true.

Definition isOutOfFuel (o : Outcome) : bool :=
  match o with OutOfFuel => true | _ => false end.

(** The request interceptor lets a request made at time [now] through:
    the rate limiter, if there is one, admits it, and a header is found. *)
Definition letsThrough (now : Z) (c : t) : bool :=
  match fst (requestInterceptor now c) with
  | Ok _ => true
  | Throw _ => false
  end.

Definition isDispatched (ev : Event) : bool :=
  match ev with Dispatched _ => true | _ => false end.

(** Number of requests put on the wire in a trace. *)
Definition dispatches (tr : list Event) : nat :=
  List.length (List.filter isDispatched tr).

Definition isSucceeded (ev : Event) : bool :=
  match ev with Succeeded => true | _ => false end.

(** Number of successes in a trace. *)
Definition successes (tr : list Event) : nat :=
  List.length (List.filter isSucceeded tr).

(** The client works for the configuration [cfg] and whatever credentials
    its manager holds spell the header of that configuration. *)
Definition holdsHeaderOf (cfg : WordPressConfig) (c : t) : Prop :=
  AuthManager.config (authManager c) = cfg
  /\ AuthManager.consistent (authManager c)
  /\ forall credentials,
       AuthState.credentials (AuthManager.authState (authManager c)) = Some credentials ->
       "Basic " ++ Credentials.password credentials
       = AuthManager.generateAuthHeader (authManager c).

End HttpClient.

(** ** Calls of one client that overlap *)

(** The source runs calls of one client side by side ([Promise.all] in
    [testConnection] and [getConnectionInfo]).  A call is suspended at each
    [await] and while its request is on the wire; between two such points it
    runs without interruption.  A schedule says which call runs next and how
    much time has passed; [HttpClient.request] is the call that runs alone
    ([request_runs_alone] below).  What the request interceptor throws
    reaches [handleResponseError] some turns of the event loop later; the
    model runs the handler at once, which changes nothing: for an error
    without response the handler reads the configuration only, which no call
    writes. *)
Module Concurrent.
Import Net HttpClient.

(** Where a call stands. *)
Inductive Phase : Type :=
| Queued                        (* the request interceptor has not run yet *)
| Checked                       (* at [await this.rateLimiter.checkLimit()] *)
| Authenticating                (* at [await this.authManager.authenticate()], interceptor *)
| Ready (authorization : string)  (* the interceptor has returned the request *)
| OnWire (reply : Reply)        (* sent; [reply] is what the network will answer *)
| Reauthenticating              (* at [await this.authManager.authenticate()], 401 branch *)
| Settled (outcome : Outcome).

(** The client, its environment, and the calls made so far. *)
Record System : Type := mkSystem {
  client : HttpClient.t;
  world : World;
  calls : list Phase
}.

(** One step of a schedule: a new call is made, or the call with the given
    index runs up to its next suspension, [ms] milliseconds after the step
    before. *)
Inductive Choice : Type :=
| Call
| Run (call : nat) (ms : N).

Fixpoint update {A : Type} (i : nat) (x : A) (l : list A) : list A :=
  match l, i with
  | [], _ => []
  | _ :: rest, O => x :: rest
  | y :: rest, S j => y :: update j x rest
  end.

(** The continuation that stops [handleResponseError] where the source
    suspends it, before the request is resubmitted; no other branch of
    [handleResponseError] gives [Pending]. *)
Definition suspended (c : HttpClient.t) (w : World) : Outcome * HttpClient.t * World :=
  (Pending, c, w).

Section WithEngine.

Context {engine : RegExp.Engine}.

(** The rejection handler of the response interceptor, up to its [await]. *)
Definition rejected (error : AxiosError.t) (c : HttpClient.t) (w : World)
  : Phase * HttpClient.t * World :=
  match handleResponseError suspended error c w with
  | (Pending, c, w) => (Reauthenticating, c, w)
  | (outcome, c, w) => (Settled outcome, c, w)
  end.

(** The request interceptor from [getAuthorizationHeader()] on. *)
Definition attachHeader (c : HttpClient.t) (w : World) : Phase * HttpClient.t * World :=
  match AuthManager.getAuthorizationHeader (authManager c) with
  | Ok authorization => (Ready authorization, c, w)
  | Throw e => rejected (AxiosError.ofThrown e) c w
  end.

(** The request interceptor from [isAuthenticated()] on: without a call of
    [authenticate()] there is no [await] before the header is read. *)
Definition authenticateIfNeeded (c : HttpClient.t) (w : World)
  : Phase * HttpClient.t * World :=
  if negb (AuthManager.isAuthenticated (clock w) (authManager c)) then
    match AuthManager.authenticate (clock w) (authManager c) with
    | (Ok _, am) => (Authenticating, withAuthManager am c, w)
    | (Throw e, am) => rejected (AxiosError.ofThrown e) (withAuthManager am c) w
    end
  else attachHeader c w.

(** The request interceptor from its start: without a rate limiter there is
    no [await] before [isAuthenticated()]. *)
Definition intercept (c : HttpClient.t) (w : World) : Phase * HttpClient.t * World :=
  match rateLimiter c with
  | Some _ =>
      match rateLimitStep (clock w) c with
      | (Ok _, c) => (Checked, c, w)
      | (Throw e, c) => rejected (AxiosError.ofThrown e) c w
      end
  | None => authenticateIfNeeded c w
  end.

(** The request is put on the wire. *)
Definition dispatch (authorization : string) (c : HttpClient.t) (w : World)
  : Phase * HttpClient.t * World :=
  match wire w with
  | [] => (Settled Pending, c, w)
  | exchange :: later =>
      (OnWire (reply exchange), c,
       {| clock := clock w; wire := later;
          trace := Dispatched authorization :: trace w |})
  end.

(** The reply arrives and the response interceptor runs. *)
Definition receive (reply : Reply) (c : HttpClient.t) (w : World)
  : Phase * HttpClient.t * World :=
  match settle reply with
  | inl response => (Settled (Fulfilled response), withRetryCount 0 c, record Succeeded w)
  | inr error => rejected error c w
  end.

(** What a call does when it runs next. *)
Definition resume (phase : Phase) (c : HttpClient.t) (w : World)
  : Phase * HttpClient.t * World :=
  match phase with
  | Queued => intercept c w
  | Checked => authenticateIfNeeded c w
  | Authenticating => attachHeader c w
  | Ready authorization => dispatch authorization c w
  | OnWire reply => receive reply c w
  | Reauthenticating => (Queued, c, w)   (* [this.axiosInstance.request(error.config)] *)
  | Settled outcome => (Settled outcome, c, w)
  end.

Definition step (choice : Choice) (s : System) : System :=
  match choice with
  | Call => {| client := client s; world := world s; calls := (calls s ++ [Queued])%list |}
  | Run i ms =>
      match nth_error (calls s) i with
      | None => s
      | Some phase =>
          let '(phase, c, w) := resume phase (client s) (advance (Z.of_N ms) (world s)) in
          {| client := c; world := w; calls := update i phase (calls s) |}
      end
  end.

Definition run (schedule : list Choice) (s : System) : System :=
  fold_left (fun s choice => step choice s) schedule s.

End WithEngine.

(** What one run of a call does to the counter and to the trace: nothing,
    or it records a request sent, or a success, which resets the counter, or
    a retry, which is made with the counter below 1 and increments it. *)
Inductive Moved (c : HttpClient.t) (w : World) (c' : HttpClient.t) (w' : World) : Prop :=
| MovedQuietly : retryCount c' = retryCount c -> trace w' = trace w -> Moved c w c' w'
| MovedDispatched h :
    retryCount c' = retryCount c -> trace w' = Dispatched h :: trace w -> Moved c w c' w'
| MovedSucceeded :
    retryCount c' = 0 -> trace w' = Succeeded :: trace w -> Moved c w c' w'
| MovedRetried :
    retryCount c < 1 -> retryCount c' = retryCount c + 1 ->
    trace w' = Retried :: trace w -> Moved c w c' w'.

(** A client on which no call has been made. *)
Definition start (c : HttpClient.t) (clock0 : Z) (wire0 : list Exchange) : System :=
  {| client := c; world := mkWorld clock0 wire0 []; calls := [] |}.

(** The call [i] runs [n] times in a row, without time passing. *)
Definition runs (i n : nat) : list Choice := repeat (Run i 0) n.

(** The state in which one call stands alone. *)
Definition alone (phase : Phase) (c : HttpClient.t) (w : World) : System :=
  {| client := c; world := w; calls := [phase] |}.

(** The step runs the first call. *)
Definition runsFirst (choice : Choice) : bool :=
  match choice with
  | Run O _ => true
  | _ => false
  end.

End Concurrent.

(** ** A configuration, a manager and a network for the examples *)

Module Example.
Import Net.

Definition config : WordPressConfig :=
  {| site_url := "https://example.com";
     username := "admin";
     app_password := "abcd efgh ijkl mnop qrst uvwx";
     verify_ssl := true;
     timeout := 30000;
     rate_limit := Some (Policy.mk 60 10) |}.

(** The manager that [new WordPressAuthenticationManager(config)] returns. *)
Definition manager : AuthManager.t :=
  {| AuthManager.authState := AuthState.empty;
     AuthManager.config := config;
     AuthManager.lastAuthCheck := None |}.

(** A world in which the clock reads 0 and the network will give the
    replies [replies], each after 100 ms. *)
Definition world (replies : list Reply) : World :=
  {| clock := 0; wire := map (mkExchange 100) replies; trace := [] |}.

Definition outcome (r : HttpClient.Outcome * HttpClient.t * World) : HttpClient.Outcome :=
  fst (fst r).

(** A message that quotes the user name, the password and a Basic token. *)
Definition leak : string :=
  "Sorry admin, the password abcd efgh ijkl mnop qrst uvwx sent as Basic YWRtaW46YWJjZA== was refused".

End Example.

(** The examples run on the plain-text engine. *)
#[global] Existing Instance RegExp.plainText.

(** ** [src/utils/error-handler.ts] *)

Module ErrorContext.
Record t : Type := mk {
  operation : string;
  endpoint : option string;
  httpMethod : option string;
  httpStatus : option Z;
  timestamp : Z;
  userAgent : option string
}.
End ErrorContext.

Inductive LogLevel : Type := LevelError | LevelWarn | LevelInfo | LevelDebug.

Module ErrorHandler.

(** [getBaseErrorMessage(errorType)] *)
Definition getBaseErrorMessage (errorType : AuthErrorType) : string :=
  match errorType with
  | INVALID_CREDENTIALS => "Authentication failed - invalid credentials."
  | UNAUTHORIZED => "Access denied - authentication required."
  | FORBIDDEN => "Access forbidden - insufficient permissions."
  | TIMEOUT => "Request timed out."
  | NETWORK_ERROR => "Network connection failed."
  | SSL_ERROR => "SSL/TLS connection error."
  | RATE_LIMITED => "Rate limit exceeded."
  | INVALID_URL => "Invalid WordPress site URL."
  | UNKNOWN_ERROR => "An unexpected error occurred."
  end.

(** [formatContextInfo(context)]: an empty operation or endpoint and a
    status of 0 are falsy and add no part. *)
Definition formatContextInfo (context : ErrorContext.t) : string :=
  let operationPart :=
    match ErrorContext.operation context with
    | EmptyString => []
    | operation => ["Operation: " ++ operation]
    end in
  let endpointPart :=
    match ErrorContext.endpoint context with
    | Some (String c s) => ["Endpoint: " ++ String c s]
    | _ => []
    end in
  let statusPart :=
    match ErrorContext.httpStatus context with
    | Some status => if status =? 0 then [] else ["HTTP Status: " ++ Js.show status]
    | None => []
    end in
  let parts := (operationPart ++ endpointPart ++ statusPart)%list in
  match parts with
  | [] => EmptyString
  | _ => Js.nl ++ Js.nl ++ "Technical details:" ++ Js.nl ++ Js.join Js.nl parts
  end.

(** [createUserFriendlyMessage(error, context?)] *)
Definition createUserFriendlyMessage (error : WordPressAuthError)
                                     (context : option ErrorContext.t) : string :=
  let baseMessage := getBaseErrorMessage (type error) in
  let contextInfo :=
    match context with
    | Some context => formatContextInfo context
    | None => EmptyString
    end in
  match type error with
  | INVALID_CREDENTIALS =>
      baseMessage ++ Js.text ["";
               "";
               "Please check:";
               "- Your WordPress username is correct";
               "- Your Application Password is valid and properly formatted";
               "- The Application Password hasn't been revoked"] ++ contextInfo
  | UNAUTHORIZED =>
      baseMessage ++ Js.text ["";
               "";
               "This usually means:";
               "- Your Application Password has expired or been revoked";
               "- Your user account has been deactivated";
               "- The WordPress site has changed authentication requirements"] ++ contextInfo
  | FORBIDDEN =>
      baseMessage ++ Js.text ["";
               "";
               "Your account doesn't have sufficient permissions. You may need:";
               "- Administrator or Editor role";
               "- Specific capabilities for the requested operation";
               "- Site owner to grant additional permissions"] ++ contextInfo
  | TIMEOUT =>
      baseMessage ++ Js.text ["";
               "";
               "This could be due to:";
               "- Slow internet connection";
               "- WordPress site performance issues";
               "- Server overload";
               "";
               "Try again in a few moments"] ++ contextInfo
  | NETWORK_ERROR =>
      baseMessage ++ Js.text ["";
               "";
               "Possible causes:";
               "- WordPress site is down";
               "- DNS resolution issues";
               "- Firewall blocking the connection";
               "- Internet connection problems"] ++ contextInfo
  | SSL_ERROR =>
      baseMessage ++ Js.text ["";
               "";
               "SSL certificate issues detected:";
               "- Certificate may be expired or invalid";
               "- Self-signed certificate not trusted";
               "- SSL configuration problems on the WordPress site";
               "";
               "Contact your site administrator"] ++ contextInfo
  | RATE_LIMITED =>
      baseMessage ++ Js.text ["";
               "";
               "You're making requests too quickly. Please:";
               "- Wait a few moments before trying again";
               "- Reduce the frequency of your requests";
               "- Check if your site has rate limiting enabled"] ++ contextInfo
  | INVALID_URL =>
      baseMessage ++ Js.text ["";
               "";
               "Please verify:";
               "- Your WordPress site URL is correct";
               "- The URL uses HTTPS (required for security)";
               "- The site is accessible from this location"] ++ contextInfo
  | UNKNOWN_ERROR => baseMessage ++ contextInfo
  end.

(** [isRecoverableError(error)] *)
Definition isRecoverableError (error : WordPressAuthError) : bool :=
  match type error with
  | TIMEOUT | NETWORK_ERROR | RATE_LIMITED => true
  | UNAUTHORIZED => true
  | INVALID_CREDENTIALS | FORBIDDEN | INVALID_URL | SSL_ERROR => false
  | UNKNOWN_ERROR => false
  end.

(** [getRecoveryActions(error)] *)
Definition getRecoveryActions (error : WordPressAuthError) : list string :=
  match type error with
  | INVALID_CREDENTIALS =>
      ["Verify your WordPress username";
       "Check your Application Password";
       "Ensure the Application Password hasn't been revoked";
       "Try generating a new Application Password"]
  | UNAUTHORIZED =>
      ["Try refreshing your authentication";
       "Check if your Application Password is still valid";
       "Verify your user account is still active"]
  | FORBIDDEN =>
      ["Contact your site administrator for proper permissions";
       "Ensure your user has Administrator or Editor role";
       "Check if specific capabilities are required"]
  | TIMEOUT =>
      ["Try again in a few moments";
       "Check your internet connection";
       "Verify the WordPress site is responding"]
  | NETWORK_ERROR =>
      ["Check your internet connection";
       "Verify the WordPress site URL is correct";
       "Ensure the site is accessible from your location"]
  | SSL_ERROR =>
      ["Contact your site administrator about SSL certificate issues";
       "Verify the SSL certificate is valid and not expired";
       "Check if the site uses a self-signed certificate"]
  | RATE_LIMITED =>
      ["Wait before making additional requests";
       "Reduce request frequency";
       "Check site rate limiting configuration"]
  | INVALID_URL =>
      ["Verify the WordPress site URL is correct";
       "Ensure the URL uses HTTPS";
       "Check that the site is accessible"]
  | UNKNOWN_ERROR => []
  end.

(** [getLogLevel(errorType)] *)
Definition getLogLevel (errorType : AuthErrorType) : LogLevel :=
  match errorType with
  | INVALID_CREDENTIALS | FORBIDDEN | SSL_ERROR => LevelError
  | UNAUTHORIZED | INVALID_URL => LevelWarn
  | TIMEOUT | NETWORK_ERROR | RATE_LIMITED => LevelInfo
  | UNKNOWN_ERROR => LevelDebug
  end.

End ErrorHandler.

(** ** [class WordPressClient] of [src/wordpress-client.ts] *)

Module WordPressClient.

(** [interface RateLimitState] of [src/types.ts] *)
Record RateLimitState : Type := mkState {
  requests : Z;
  resetTime : Z;
  isBlocked : bool
}.

Record t : Type := mk {
  config : WordPressConfig;
  rateLimitState : RateLimitState
}.

(** The part of [constructor(config)] that sets up the state, with
    [now = Date.now()]. *)
Definition new (now : Z) (config : WordPressConfig) : t :=
  {| config := config;
     rateLimitState := {| requests := 0; resetTime := now + 60000; isBlocked := false |} |}.

(** [checkRateLimit()] throws a plain [Error]; [Some message] stands for the
    throw.  The reset of the window is kept when the call throws. *)
Definition checkRateLimit (now : Z) (c : t) : option string * t :=
  let state :=
    if resetTime (rateLimitState c) <=? now
    then {| requests := 0; resetTime := now + 60000;
            isBlocked := isBlocked (rateLimitState c) |}
    else rateLimitState c in
  if match rate_limit (config c) with
     | Some rateLimit => Policy.requests_per_minute rateLimit <=? requests state
     | None => false
     end
  then
    let waitTime := resetTime state - now in
    (Some ("Rate limit exceeded. Please wait " ++ Js.show (Js.ceil_div waitTime 1000)
             ++ " seconds."),
     {| config := config c; rateLimitState := state |})
  else
    (None,
     {| config := config c;
        rateLimitState := {| requests := requests state + 1;
                             resetTime := resetTime state;
                             isBlocked := isBlocked state |} |}).

(** Successive calls of [checkRateLimit], one per reading of the clock. *)
Fixpoint checkAll (times : list Z) (c : t) : list (option string) * t :=
  match times with
  | [] => ([], c)
  | now :: later =>
      let '(r, c1) := checkRateLimit now c in
      let '(rs, c2) := checkAll later c1 in
      (r :: rs, c2)
  end.

Definition allowed (r : option string) : bool :=
  match r with None => true | Some _ => false end.

(** The body of an error response, as far as [handleApiError] reads it. *)
Record ErrorData : Type := mkData {
  dataMessage : option string;
  dataCode : option string
}.

(** The error given to [handleApiError]: [error.response] (status and data),
    whether [error.request] is set, and [error.message]. *)
Record ApiError : Type := mkApiError {
  response : option (Z * ErrorData);
  request : bool;
  message : string
}.

(** [interface WordPressError] of [src/types.ts]; [data.params] is always
    empty. *)
Record WordPressError : Type := mkError {
  code : string;
  errorMessage : string;
  dataStatus : Z
}.

(** [handleApiError(error)]: the object it throws. *)
Definition handleApiError (error : ApiError) : WordPressError :=
  let '(message, code) :=
    match response error with
    | Some (status, data) =>
        if status =? 401 then
          ("Authentication failed. Please check your username and application password.",
           "authentication_failed")
        else if status =? 403 then
          ("Access forbidden. You may not have permission to perform this action.",
           "forbidden")
        else if status =? 404 then
          ("Resource not found. The requested post, page, or endpoint does not exist.",
           "not_found")
        else if status =? 400 then
          match dataMessage data with
          | Some (String c s) => (String c s, Js.or_else (dataCode data) "bad_request")
          | _ => ("Bad request. Please check your input parameters.", "bad_request")
          end
        else if status =? 429 then
          ("Too many requests. Please slow down your API calls.", "too_many_requests")
        else if status =? 500 then
          ("WordPress server error. Please try again later.", "server_error")
        else
          (Js.or_else (dataMessage data)
             ("HTTP " ++ Js.show status ++ ": " ++ message error),
           Js.or_else (dataCode data) "http_error")
    | None =>
        if request error then
          ("Network error. Please check your internet connection and WordPress site URL.",
           "network_error")
        else (message error, "request_error")
    end in
  {| code := code;
     errorMessage := message;
     dataStatus := match response error with
                   | Some (status, _) => status
                   | None => 0
                   end |}.

End WordPressClient.

(** ** [class WordPressConfigLoader] *)

Module ConfigLoader.

(** [process.env]: the value of a variable, if it is set. *)
Definition Env : Type := string -> option string.

(** [a || b] on two optional strings: the first when it is set and not
    empty, the second, whatever it is, otherwise. *)
Definition or (a b : option string) : option string :=
  match a with
  | Some (String _ _) => a
  | _ => b
  end.

(** [!a] on an optional string. *)
Definition missing (a : option string) : bool :=
  match a with
  | Some (String _ _) => false
  | _ => true
  end.

(** [parseInt(value, 10)]; [None] stands for [NaN].  Leading whitespace is
    skipped, one sign is read, then the decimal digits up to the first other
    character.  The result is the integer that the digits denote.  The
    number that the source gets is that integer as long as it is at most 2^53
    in absolute value; beyond, the source gets it rounded to a number (to
    [Infinity] for very long texts), with the same sign.  What is stated
    below of values read by [parseInt] is stated within that bound, or
    depends on the sign only. *)
Definition parseInt (value : string) : option Z :=
  let text := Str.trimStart value in
  let '(negative, unsigned) :=
    match text with
    | String "-" rest => (true, rest)
    | String "+" rest => (false, rest)
    | _ => (false, text)
    end in
  match Str.takeWhile Chars.isDigit unsigned with
  | EmptyString => None
  | digits =>
      match NilEmpty.uint_of_string digits with
      | Some d => Some (if negative then - Z.of_uint d else Z.of_uint d)
      | None => None
      end
  end.

(** [parseBoolean(value, defaultValue)] *)
Definition parseBoolean (value : option string) (defaultValue : bool) : bool :=
  match value with
  | None => defaultValue
  | Some value =>
      let lowercaseValue := Str.toLowerCase value in
      String.eqb lowercaseValue "true" || String.eqb lowercaseValue "1"
      || String.eqb lowercaseValue "yes"
  end.

(** [parseNumber(value, defaultValue)] *)
Definition parseNumber (value : option string) (defaultValue : option Z) : option Z :=
  match value with
  | None => defaultValue
  | Some value =>
      match parseInt value with
      | None => defaultValue
      | Some parsed => Some parsed
      end
  end.

(** [n || dflt] on an optional number: [undefined] and 0 are falsy. *)
Definition orNumber (n : option Z) (dflt : Z) : Z :=
  match n with
  | Some v => if v =? 0 then dflt else v
  | None => dflt
  end.

(** The object that [loadFromEnvironment()] builds before it validates it;
    [None] stands for the [null] it returns when a required variable is
    missing. *)
Definition environmentConfig (env : Env) : option WordPressConfig :=
  let site_url := or (env "WORDPRESS_SITE_URL") (env "WP_SITE_URL") in
  let username := or (env "WORDPRESS_USERNAME") (env "WP_USERNAME") in
  let app_password := or (env "WORDPRESS_APP_PASSWORD") (env "WP_APP_PASSWORD") in
  match site_url, username, app_password with
  | Some (String c1 s1), Some (String c2 s2), Some (String c3 s3) =>
      let rateLimitRpm := parseNumber (env "WORDPRESS_RATE_LIMIT_RPM") None in
      let rateLimitBurst := parseNumber (env "WORDPRESS_RATE_LIMIT_BURST") None in
      Some {| site_url := String c1 s1;
              username := String c2 s2;
              app_password := String c3 s3;
              verify_ssl :=
                parseBoolean (or (env "WORDPRESS_VERIFY_SSL") (env "WP_VERIFY_SSL")) true;
              timeout :=
                orNumber (parseNumber (or (env "WORDPRESS_TIMEOUT") (env "WP_TIMEOUT"))
                            (Some 30000)) 30000;
              rate_limit :=
                match rateLimitRpm, rateLimitBurst with
                | None, None => None
                | _, _ =>
                    Some {| Policy.requests_per_minute := orNumber rateLimitRpm 60;
                            Policy.burst_limit := orNumber rateLimitBurst 10 |}
                end |}
  | _, _, _ => None
  end.

Section WithSchema.

(** The platform's [new URL(_)], which the schema uses for its URL check. *)
Variable parseURL : string -> Url.parsed.

(** The message of the error that [WordPressConfigSchema.parse] throws. *)
Variable zodMessage : WordPressConfig -> string.

(** Whether [WordPressConfigSchema.parse] accepts the object: the site URL
    parses, the user name and the password are not empty, the timeout and
    the fields of the rate limit are positive. *)
Definition schemaAccepts (config : WordPressConfig) : bool :=
  match parseURL (site_url config) with Url.Parsed _ => true | Url.TypeError _ => false end
  && negb (String.eqb (username config) EmptyString)
  && negb (String.eqb (app_password config) EmptyString)
  && (0 <? timeout config)
  && match rate_limit config with
     | Some policy =>
         (0 <? Policy.requests_per_minute policy) && (0 <? Policy.burst_limit policy)
     | None => true
     end.

(** [validateAndSanitizeConfig(config)] *)
Definition validateAndSanitizeConfig (config : WordPressConfig) : result WordPressConfig :=
  if schemaAccepts config then
    Ok {| site_url := Str.dropTrailingSlash (site_url config);
          username := Str.trim (username config);
          app_password := Str.trim (app_password config);
          verify_ssl := verify_ssl config;
          timeout := timeout config;
          rate_limit := rate_limit config |}
  else
    Throw (mkAuthError INVALID_CREDENTIALS
             ("Configuration validation failed: " ++ zodMessage config) None).

(** [loadFromEnvironment()]: [Ok None] stands for [null]. *)
Definition loadFromEnvironment (env : Env) : result (option WordPressConfig) :=
  match environmentConfig env with
  | None => Ok None
  | Some config =>
      validated <- validateAndSanitizeConfig config ;;
      Ok (Some validated)
  end.

(** [loadConfig()] *)
Definition loadConfig (env : Env) : result WordPressConfig :=
  envConfig <- loadFromEnvironment env ;;
  match envConfig with
  | Some envConfig => Ok envConfig
  | None =>
      Throw (mkAuthError INVALID_CREDENTIALS
               "No WordPress configuration found. Please set environment variables or create a config file."
               None)
  end.

End WithSchema.

(** The error of [loadConfig()] when the environment gives no configuration. *)
Definition noConfiguration : WordPressAuthError :=
  mkAuthError INVALID_CREDENTIALS
    "No WordPress configuration found. Please set environment variables or create a config file."
    None.

(** An environment given by the list of its variables. *)
Fixpoint envOf (vars : list (string * string)) : Env :=
  fun name =>
    match vars with
    | [] => None
    | (key, value) :: rest => if String.eqb key name then Some value else envOf rest name
    end.

End ConfigLoader.

(** ** Connection test results (authentication-manager.ts, connection-tester.ts) *)

(** A value given as [error: any], as far as [createConnectionTestResult]
    and [handleConnectionError] look at it. *)
Module ErrorObject.

Inductive t : Type :=
| AuthError (e : WordPressAuthError)
    (* an instance of [WordPressAuthError] *)
| Other (code : option string) (message : option string) (responseStatus : option Z).
    (* any other object, with its [code], [message] and [response?.status];
       [None] stands for [undefined] *)

(** [error.code]: a [WordPressAuthError] has no such property. *)
Definition code (error : t) : option string :=
  match error with
  | AuthError _ => None
  | Other code _ _ => code
  end.

(** [error.message] *)
Definition message (error : t) : option string :=
  match error with
  | AuthError e => Some (message e)
  | Other _ message _ => message
  end.

(** [error.response?.status]: a [WordPressAuthError] has no [response]. *)
Definition responseStatus (error : t) : option Z :=
  match error with
  | AuthError _ => None
  | Other _ _ status => status
  end.

(** The literal [{ code, response }]: it has no [message]. *)
Definition ofResponse (code : string) (response : AxiosResponse.t) : t :=
  Other (Some code) None (Some (AxiosResponse.status response)).

(** The [TypeError] that the engine throws when a method is called on
    [undefined], and the [SyntaxError] of a pattern that is not well formed;
    [text] is the engine's message.  Neither has a [code] or a
    [response]. *)
Definition typeError (text : string) : t := Other None (Some text) None.
Definition syntaxError (text : string) : t := Other None (Some text) None.

End ErrorObject.

(** The [error] field of a [ConnectionTestResult]. *)
Module ResultError.
Record t : Type := mk {
  code : string;
  message : string;
  http_status : option Z
}.
End ResultError.

(** A [ConnectionTestResult] as these functions build it: the details hold
    the site URL only. *)
Module ConnectionTestResult.
Record t : Type := mk {
  success : bool;
  message : string;
  details_site_url : string;
  error : option ResultError.t
}.
End ConnectionTestResult.

Module ConnectionTester.
Import Net.

Section WithPlatform.

Context {engine : RegExp.Engine}.

(** The message of the [TypeError] for [undefined.replace(...)]. *)
Variable typeErrorText : string.

(** [authManager.createConnectionTestResult(success, message, error?)].
    [sanitizeErrorMessage(error)] calls [replace] on [error.message]: when
    the object has no message, this throws a [TypeError], and when the user
    name or the password is not a well-formed pattern, a [SyntaxError]
    ([inr]). *)
Definition createConnectionTestResult
    (m : AuthManager.t) (success : bool) (message : string) (error : option ErrorObject.t)
  : ConnectionTestResult.t + ErrorObject.t :=
  match error with
  | None =>
      inl {| ConnectionTestResult.success := success;
             ConnectionTestResult.message := message;
             ConnectionTestResult.details_site_url := site_url (AuthManager.config m);
             ConnectionTestResult.error := None |}
  | Some error =>
      match ErrorObject.message error with
      | Some text =>
          match AuthManager.sanitizeErrorMessage m text with
          | RegExp.Returned sanitized =>
              inl {| ConnectionTestResult.success := success;
                     ConnectionTestResult.message := message;
                     ConnectionTestResult.details_site_url :=
                       site_url (AuthManager.config m);
                     ConnectionTestResult.error :=
                       Some {| ResultError.code :=
                                 Js.or_else (ErrorObject.code error) "UNKNOWN_ERROR";
                               ResultError.message := sanitized;
                               ResultError.http_status :=
                                 ErrorObject.responseStatus error |} |}
          | RegExp.SyntaxError thrown => inr (ErrorObject.syntaxError thrown)
          end
      | None => inr (ErrorObject.typeError typeErrorText)
      end
  end.

(** [handleConnectionError(error)] *)
Definition handleConnectionError (m : AuthManager.t) (error : ErrorObject.t)
  : ConnectionTestResult.t + ErrorObject.t :=
  match error with
  | ErrorObject.AuthError e =>
      createConnectionTestResult m false (message e) (Some error)
  | ErrorObject.Other _ _ _ =>
      createConnectionTestResult m false "Unexpected error during connection test" (Some error)
  end.

(** [new WordPressConnectionTester(authManager)]: the tester and its HTTP
    client work on the same manager, so that the tester is given by its
    client, and [this.authManager] is the manager of that client. *)
Definition new (authManager : AuthManager.t) : HttpClient.t := HttpClient.new authManager.

(** How a test ends. *)
Inductive Outcome : Type :=
| Returned (result : ConnectionTestResult.t)
| Threw (error : ErrorObject.t)
| Pending      (* the network never answers *)
| OutOfFuel.   (* the model of the client ran out of fuel *)

Definition ofAttempt (attempt : ConnectionTestResult.t + ErrorObject.t) : Outcome :=
  match attempt with
  | inl result => Returned result
  | inr error => Threw error
  end.

(** [testBasicConnectivity()]: what the [try] block returns or throws goes
    through [handler], the [catch] block. *)
Definition testBasicConnectivity (fuel : nat) (c : HttpClient.t) (w : World)
  : Outcome * HttpClient.t * World :=
  let handler (c : HttpClient.t) (error : ErrorObject.t) : Outcome :=
    ofAttempt (createConnectionTestResult (HttpClient.authManager c) false
                 "Failed to connect to WordPress site" (Some error)) in
  match HttpClient.request fuel c w with
  | (HttpClient.Fulfilled response, c, w) =>
      let attempt :=
        if negb (AxiosResponse.status response =? 200) then
          createConnectionTestResult (HttpClient.authManager c) false
            "WordPress site is not responding correctly"
            (Some (ErrorObject.ofResponse "SITE_UNREACHABLE" response))
        else
          createConnectionTestResult (HttpClient.authManager c) true
            "Basic connectivity test passed" None in
      match attempt with
      | inl result => (Returned result, c, w)
      | inr error => (handler c error, c, w)
      end
  | (HttpClient.Rejected e, c, w) => (handler c (ErrorObject.AuthError e), c, w)
  | (HttpClient.Threw thrown, c, w) => (handler c (ErrorObject.syntaxError thrown), c, w)
  | (HttpClient.Pending, c, w) => (Pending, c, w)
  | (HttpClient.OutOfFuel, c, w) => (OutOfFuel, c, w)
  end.

End WithPlatform.

End ConnectionTester.

(* ================================================================= *)
(** * Part II: properties *)
(* ================================================================= *)

(** ** Rate limiter *)

Section RateLimiterFacts.
Import RateLimiter.

Lemma checkLimit_config now rl : config (snd (checkLimit now rl)) = config rl.
Proof. unfold checkLimit. destruct (_ <=? _); reflexivity. Qed.

Lemma filter_all {A} (p : A -> bool) (l : list A) :
  Forall (fun x => p x = true) l -> filter p l = l.
Proof.
  induction 1 as [|x l Hx _ IH]; simpl; [reflexivity|].
  rewrite Hx, IH. reflexivity.
Qed.

Lemma filter_none {A} (p : A -> bool) (l : list A) :
  Forall (fun x => p x = false) l -> filter p l = [].
Proof.
  induction 1 as [|x l Hx _ IH]; simpl; [reflexivity|].
  rewrite Hx. exact IH.
Qed.

(** Below the limit and with nothing to prune, a check records [now]. *)
Lemma checkLimit_records now rl :
  Forall (fun t => now - window_ms (config rl) < t) (requests rl) ->
  Z.of_nat (List.length (requests rl)) < requests_per_minute (config rl) ->
  checkLimit now rl = (Ok tt, mk (requests rl ++ [now])%list (config rl)).
Proof.
  intros Hin Hlt. unfold checkLimit.
  rewrite filter_all.
  - destruct (Z.leb_spec (requests_per_minute (config rl))
                (Z.of_nat (List.length (requests rl)))); [lia|reflexivity].
  - eapply Forall_impl; [|exact Hin]. intros t Ht. apply Z.ltb_lt. exact Ht.
Qed.

(** Checks at times that all lie in the window ending at [now], fewer than
    the limit allows in total, are all admitted and recorded in order. *)
Lemma checkAll_within_window cfg now : forall ts done,
  Forall (fun t => now - window_ms cfg < t <= now) (done ++ ts)%list ->
  Z.of_nat (List.length (done ++ ts)%list) <= requests_per_minute cfg ->
  checkAll ts (mk done cfg) = (map (fun _ => Ok tt) ts, mk (done ++ ts)%list cfg).
Proof.
  induction ts as [|t ts IH]; intros done Hin Hlen; simpl.
  - rewrite app_nil_r. reflexivity.
  - assert (Ht : now - window_ms cfg < t <= now).
    { rewrite Forall_forall in Hin. apply Hin. apply in_or_app. right. left. reflexivity. }
    rewrite checkLimit_records; simpl.
    + replace (done ++ t :: ts)%list with ((done ++ [t]) ++ ts)%list in *
        by (rewrite <- app_assoc; reflexivity).
      rewrite (IH (done ++ [t])%list Hin Hlen). reflexivity.
    + rewrite Forall_forall in *. intros x Hx.
      specialize (Hin x (in_or_app _ _ _ (or_introl Hx))). lia.
    + rewrite length_app in Hlen. simpl in Hlen. lia.
Qed.

End RateLimiterFacts.

Section RateLimiterClaims.
Import RateLimiter.

(** [Js.ceil_div a b] is the least integer [q] with [a <= b * q]. *)
Lemma ceil_div_spec a b : 0 < b ->
  b * (Js.ceil_div a b - 1) < a <= b * Js.ceil_div a b.
Proof.
  intros Hb. unfold Js.ceil_div.
  pose proof (Z.div_mod (- a) b ltac:(lia)) as Hdm.
  pose proof (Z.mod_pos_bound (- a) b Hb) as Hm.
  nia.
Qed.

Lemma filter_window_idem now later w (l : list Z) :
  now <= later ->
  filter (fun t => later - w <? t) (filter (fun t => now - w <? t) l)
  = filter (fun t => later - w <? t) l.
Proof.
  intros Hle. induction l as [|x l IH]; simpl; [reflexivity|].
  destruct (Z.ltb_spec (now - w) x) as [Hx|Hx]; simpl.
  - rewrite IH. reflexivity.
  - destruct (Z.ltb_spec (later - w) x); [lia|exact IH].
Qed.

(** C4.  Take a limiter with a limit of N per window whose earlier entries,
    if any, have expired.  N checks made inside one window (the one that
    ends at [now]) are all admitted; the next check, at [now], throws
    RATE_LIMITED and its message gives ceil((window_end - now) / 1000)
    seconds, where window_end = oldest + window_ms and [oldest] is the oldest
    recorded entry; any check made once the window has elapsed since all N
    entries is admitted again. *)
Theorem C4_limit_then_wait_then_pass :
  forall (cfg : RateLimitConfig) (stale : list Z)
         (oldest : Z) (others : list Z) (now : Z),
    let ts := oldest :: others in
    Z.of_nat (List.length ts) = requests_per_minute cfg ->
    Forall (fun t => t + window_ms cfg <= oldest) stale ->
    Forall (fun t => now - window_ms cfg < t <= now) ts ->
    let rl := snd (checkAll ts (mk stale cfg)) in
    let window_end := oldest + window_ms cfg in
    fst (checkAll ts (mk stale cfg)) = map (fun _ => Ok tt) ts
    /\ requests rl = ts
    /\ fst (checkLimit now rl)
       = Throw (mkAuthError RATE_LIMITED
                  ("Rate limit exceeded. Please wait "
                     ++ Js.show (Js.ceil_div (window_end - now) 1000) ++ " seconds.")
                  None)
    /\ 1 <= Js.ceil_div (window_end - now) 1000
    /\ forall later,
         Forall (fun t => t + window_ms cfg <= later) ts ->
         fst (checkLimit later (snd (checkLimit now rl))) = Ok tt.
Proof.
  intros cfg stale oldest others now ts Hlen Hstale Hin rl window_end.
  assert (Hpos : 0 < requests_per_minute cfg).
  { rewrite <- Hlen. unfold ts. cbn [List.length]. lia. }
  assert (Hfirst : checkLimit oldest (mk stale cfg) = (Ok tt, mk [oldest] cfg)).
  { unfold checkLimit. cbn [requests config].
    rewrite filter_none.
    - cbn [List.length Z.of_nat app].
      destruct (Z.leb_spec (requests_per_minute cfg) 0); [lia|reflexivity].
    - eapply Forall_impl; [|exact Hstale].
      intros t Ht. apply Z.ltb_ge. cbv beta in Ht. lia. }
  assert (Hrun : checkAll ts (mk stale cfg) = (map (fun _ => Ok tt) ts, mk ts cfg)).
  { unfold ts. cbn [checkAll]. rewrite Hfirst.
    rewrite (checkAll_within_window cfg now others [oldest]);
      [reflexivity|exact Hin|unfold ts in Hlen; cbn [app]; lia]. }
  assert (Hrl : rl = mk ts cfg) by (unfold rl; rewrite Hrun; reflexivity).
  assert (Hkeep : filter (fun time => now - window_ms cfg <? time) ts = ts).
  { apply filter_all. eapply Forall_impl; [|exact Hin].
    intros t Ht. apply Z.ltb_lt. cbv beta in Ht. lia. }
  assert (Hrej : checkLimit now rl
                 = (Throw (mkAuthError RATE_LIMITED (waitMessage cfg now ts) None),
                    mk ts cfg)).
  { rewrite Hrl. unfold checkLimit. cbn [config requests].
    rewrite Hkeep.
    destruct (Z.leb_spec (requests_per_minute cfg) (Z.of_nat (List.length ts)));
      [reflexivity|lia]. }
  assert (Hold : now - window_ms cfg < oldest <= now).
  { inversion Hin; assumption. }
  repeat split.
  - rewrite Hrun. reflexivity.
  - rewrite Hrl. reflexivity.
  - rewrite Hrej. cbn [fst]. unfold ts, waitMessage, window_end.
    replace (window_ms cfg - (now - oldest)) with (oldest + window_ms cfg - now) by lia.
    reflexivity.
  - pose proof (ceil_div_spec (window_end - now) 1000 ltac:(lia)).
    unfold window_end in *. lia.
  - intros later Hlater. rewrite Hrej.
    assert (Hdrop : filter (fun time => later - window_ms cfg <? time) ts = []).
    { apply filter_none. eapply Forall_impl; [|exact Hlater].
      intros t Ht. apply Z.ltb_ge. cbv beta in Ht. lia. }
    unfold checkLimit. cbn [snd requests config]. rewrite Hdrop.
    cbn [List.length Z.of_nat].
    destruct (Z.leb_spec (requests_per_minute cfg) 0) as [Hle|Hgt]; [lia|reflexivity].
Qed.

Lemma C4_witness :
  fst (checkLimit 3000
         (snd (checkAll [1000; 2000] (new (mkRateLimitConfig 2 10 60000)))))
  = Throw (mkAuthError RATE_LIMITED "Rate limit exceeded. Please wait 58 seconds." None)
  /\ fst (checkLimit 62000
            (snd (checkLimit 3000
                    (snd (checkAll [1000; 2000] (new (mkRateLimitConfig 2 10 60000)))))))
     = Ok tt.
Proof.
  assert (Hlen : Z.of_nat (List.length [1000; 2000]) = 2) by reflexivity.
  assert (Hin : Forall (fun t => 3000 - 60000 < t <= 3000) [1000; 2000]).
  { repeat constructor; lia. }
  destruct (C4_limit_then_wait_then_pass (mkRateLimitConfig 2 10 60000) []
              1000 [2000] 3000 Hlen (Forall_nil _) Hin) as (_ & _ & Hrej & _ & Hlater).
  split.
  - exact Hrej.
  - apply Hlater. repeat constructor; simpl; lia.
Defined.

(** C8.  After a call of [checkLimit] at time [now], admitted or rejected,
    no stored timestamp is older than [now - window_ms]: what is stored is
    what survived the pruning, plus at most [now] itself. *)
Theorem C8_no_timestamp_older_than_window :
  forall (now : Z) (rl : t),
    0 <= window_ms (config rl) ->
    let after := snd (checkLimit now rl) in
    Forall (fun t => ~ t < now - window_ms (config rl)) (requests after)
    /\ (forall t, In t (requests after) ->
          t = now \/ (In t (requests rl) /\ now - window_ms (config rl) < t)).
Proof.
  intros now rl Hw after.
  assert (Hsrc : forall t, In t (requests after) ->
            t = now \/ (In t (requests rl) /\ now - window_ms (config rl) < t)).
  { intros t. unfold after, checkLimit.
    destruct (_ <=? _); simpl; intros Ht.
    - apply filter_In in Ht. destruct Ht as [Ht Hlt].
      apply Z.ltb_lt in Hlt. right. split; assumption.
    - apply in_app_or in Ht. destruct Ht as [Ht|[Ht|[]]].
      + apply filter_In in Ht. destruct Ht as [Ht Hlt].
        apply Z.ltb_lt in Hlt. right. split; assumption.
      + left. symmetry. exact Ht. }
  split; [|exact Hsrc].
  apply Forall_forall. intros t Ht.
  destruct (Hsrc t Ht) as [->|[_ Hlt]]; lia.
Qed.

Lemma C8_witness :
  0 <= window_ms (config (mk [1; 500; 70000] (mkRateLimitConfig 5 10 60000)))
  /\ Forall (fun t => ~ t < 70001 - 60000)
       (requests (snd (checkLimit 70001 (mk [1; 500; 70000] (mkRateLimitConfig 5 10 60000))))).
Proof.
  split.
  - simpl. lia.
  - apply (C8_no_timestamp_older_than_window 70001
             (mk [1; 500; 70000] (mkRateLimitConfig 5 10 60000))).
    simpl. lia.
Defined.

(** C10.  A rejected [checkLimit] does not record [now]: the timestamps it
    leaves are the old ones minus the expired ones, and every later check
    behaves exactly as if the rejected call had not been made. *)
Theorem C10_rejection_records_nothing :
  forall (now : Z) (rl rl' : t) (e : WordPressAuthError),
    checkLimit now rl = (Throw e, rl') ->
    requests rl' = filter (fun time => now - window_ms (config rl) <? time) (requests rl)
    /\ incl (requests rl') (requests rl)
    /\ (List.length (requests rl') <= List.length (requests rl))%nat
    /\ forall later, now <= later -> checkLimit later rl' = checkLimit later rl.
Proof.
  intros now rl rl' e H. unfold checkLimit in H.
  destruct (_ <=? _) in H; [|discriminate].
  injection H as _ <-. simpl.
  repeat split.
  - intros t Ht. apply filter_In in Ht. tauto.
  - apply filter_length_le.
  - intros later Hle. unfold checkLimit. simpl.
    rewrite filter_window_idem by exact Hle. reflexivity.
Qed.

Lemma C10_witness :
  checkLimit 3000 (mk [1000; 2000] (mkRateLimitConfig 2 10 60000))
  = (Throw (mkAuthError RATE_LIMITED "Rate limit exceeded. Please wait 58 seconds." None),
     mk [1000; 2000] (mkRateLimitConfig 2 10 60000))
  /\ incl [1000; 2000] [1000; 2000].
Proof.
  assert (H : checkLimit 3000 (mk [1000; 2000] (mkRateLimitConfig 2 10 60000))
              = (Throw (mkAuthError RATE_LIMITED
                          "Rate limit exceeded. Please wait 58 seconds." None),
                 mk [1000; 2000] (mkRateLimitConfig 2 10 60000)))
    by reflexivity.
  split; [exact H|].
  exact (proj1 (proj2 (C10_rejection_records_nothing _ _ _ _ H))).
Defined.

End RateLimiterClaims.

(** ** Authentication manager *)

Section AuthManagerClaims.
Import AuthManager.

Variable parseURL : string -> Url.parsed.

Lemma forallb_false_exists (p : ascii -> bool) (s : string) :
  Str.forallb p s = false <-> exists c, In c (list_ascii_of_string s) /\ p c = false.
Proof.
  induction s as [|a s IH]; simpl.
  - split; [discriminate|]. intros (c & [] & _).
  - rewrite andb_false_iff, IH. split.
    + intros [Ha|(c & Hc & Hp)]; [exists a|exists c]; auto.
    + intros (c & [<-|Hc] & Hp); [left|right; exists c]; auto.
Qed.

(** The format check refuses exactly the malformed passwords. *)
Lemma isValidApplicationPassword_false (password : string) :
  isValidApplicationPassword password = false <-> malformed password.
Proof.
  unfold isValidApplicationPassword, malformed. fold (stripped password).
  rewrite andb_false_iff, andb_false_iff, Nat.eqb_neq, Nat.ltb_ge.
  rewrite forallb_false_exists. split.
  - intros [H|[H|H]]; [left; exact H|left; lia|right; exact H].
  - intros [H|H]; [left|right; right]; exact H.
Qed.

Lemma isValidApplicationPassword_true (password : string) :
  isValidApplicationPassword password = true <-> ~ malformed password.
Proof.
  rewrite <- isValidApplicationPassword_false.
  destruct (isValidApplicationPassword password); split; congruence.
Qed.

Lemma validateSecurity_isSecure (cfg : WordPressConfig) :
  isSecure (validateSecurity parseURL cfg) = isAbsoluteHttps parseURL (site_url cfg).
Proof.
  unfold validateSecurity, isAbsoluteHttps.
  destruct (parseURL (site_url cfg)) as [url|msg]; [|reflexivity].
  destruct (Url.protocol url =? "https:")%string; reflexivity.
Qed.

(** The three ways [validateConfiguration] ends. *)
Lemma validateConfiguration_cases (cfg : WordPressConfig) :
  validateConfiguration parseURL cfg =
    if negb (isAbsoluteHttps parseURL (site_url cfg)) then
      Throw (mkAuthError INVALID_URL
               ("Security validation failed: "
                  ++ Js.join ", " (issues (validateSecurity parseURL cfg))) None)
    else if negb (isValidApplicationPassword (app_password cfg)) then
      Throw (mkAuthError INVALID_CREDENTIALS
               "Application password format is invalid. Should be in format: xxxx xxxx xxxx xxxx xxxx xxxx"
               None)
    else Ok tt.
Proof.
  unfold validateConfiguration. rewrite validateSecurity_isSecure.
  unfold isAbsoluteHttps.
  destruct (parseURL (site_url cfg)) as [url|msg]; [|reflexivity].
  destruct (Url.protocol url =? "https:")%string; reflexivity.
Qed.

Lemma isAuthenticated_flag now m :
  isAuthenticated now m = AuthState.isAuthenticated (authState m).
Proof.
  unfold isAuthenticated.
  destruct (AuthState.isAuthenticated (authState m)); simpl; [|reflexivity].
  destruct (lastAuthCheck m) as [checked|]; [|reflexivity].
  destruct (now - checked <? AUTH_CACHE_DURATION); reflexivity.
Qed.

Lemma perform_keeps_flag m call :
  AuthState.isAuthenticated (authState m) = true ->
  AuthState.isAuthenticated (authState (perform parseURL m call)) = true.
Proof.
  intros H. destruct call as [now|now newConfig]; simpl; [reflexivity|].
  unfold updateConfig.
  destruct (validateConfiguration parseURL newConfig); simpl; [reflexivity|exact H].
Qed.

Lemma performAll_keeps_flag calls : forall m,
  AuthState.isAuthenticated (authState m) = true ->
  AuthState.isAuthenticated (authState (performAll parseURL calls m)) = true.
Proof.
  induction calls as [|call calls IH]; intros m H; simpl; [exact H|].
  apply IH. apply perform_keeps_flag. exact H.
Qed.

(** A manager that the constructor returns is consistent, and holds the
    configuration it was given. *)
Lemma new_consistent cfg m :
  new parseURL cfg = Ok m -> consistent m /\ config m = cfg.
Proof.
  unfold new. destruct (validateConfiguration parseURL cfg); [|discriminate].
  intros [= <-]. split; [|reflexivity]. intros H. discriminate H.
Qed.

(** The window of the rate limiter of a client is one minute. *)
Lemma client_window am rl :
  HttpClient.rateLimiter (HttpClient.new am) = Some rl ->
  window_ms (RateLimiter.config rl) = 60000 /\ RateLimiter.requests rl = [].
Proof.
  unfold HttpClient.new. cbn [HttpClient.rateLimiter].
  destruct (rate_limit (config am)); [|discriminate].
  intros [= <-]. split; reflexivity.
Qed.

End AuthManagerClaims.

(** The manager of the examples is the one the constructor returns. *)
Lemma example_manager_constructed :
  AuthManager.new Url.parse Example.config = Ok Example.manager.
Proof. reflexivity. Qed.

(** The header for the user admin with the password abc123. *)
Lemma generateAuthHeader_admin :
  AuthManager.generateAuthHeader
    (AuthManager.mk AuthState.empty
       (mkConfig "https://example.com" "admin" "abc123" true 30000 None) None)
  = "Basic YWRtaW46YWJjMTIz".
Proof. reflexivity. Qed.

(** C5.  [authenticate()] always succeeds, and from then on, whatever other
    calls are made and whatever the clock [now] says (in particular when it
    is more than five minutes past the last verification),
    [isAuthenticated()] returns true; after [invalidateAuth()] it returns
    false. *)
Theorem C5_authenticated_until_invalidated :
  forall (parseURL : string -> Url.parsed) (m : AuthManager.t) (t0 : Z)
         (calls : list AuthManager.Call) (now : Z),
    let m1 := snd (AuthManager.authenticate t0 m) in
    let m2 := AuthManager.performAll parseURL calls m1 in
    fst (AuthManager.authenticate t0 m) = Ok tt
    /\ AuthManager.isAuthenticated now m2 = true
    /\ AuthManager.isAuthenticated now (AuthManager.invalidateAuth m2) = false.
Proof.
  intros parseURL m t0 calls now m1 m2.
  split; [reflexivity|]. split.
  - rewrite isAuthenticated_flag. apply performAll_keeps_flag. reflexivity.
  - reflexivity.
Qed.

(** C6 (as amended).  A malformed application password always makes the
    construction of the manager throw: INVALID_CREDENTIALS when the site URL
    is an absolute https URL, and INVALID_URL otherwise, the URL being checked
    first.  A password that is not malformed passes the format check, and the
    construction then succeeds for an absolute https URL. *)
Theorem C6_malformed_password_refused :
  forall (parseURL : string -> Url.parsed) (cfg : WordPressConfig),
    (AuthManager.malformed (app_password cfg) ->
       AuthManager.isValidApplicationPassword (app_password cfg) = false
       /\ exists e,
            AuthManager.new parseURL cfg = Throw e
            /\ type e = (if AuthManager.isAbsoluteHttps parseURL (site_url cfg)
                         then INVALID_CREDENTIALS else INVALID_URL))
    /\ (~ AuthManager.malformed (app_password cfg) ->
          AuthManager.isValidApplicationPassword (app_password cfg) = true
          /\ (AuthManager.isAbsoluteHttps parseURL (site_url cfg) = true ->
                exists m, AuthManager.new parseURL cfg = Ok m)).
Proof.
  intros parseURL cfg. unfold AuthManager.new.
  rewrite validateConfiguration_cases. split.
  - intros Hbad. apply isValidApplicationPassword_false in Hbad.
    split; [exact Hbad|]. rewrite Hbad.
    destruct (AuthManager.isAbsoluteHttps parseURL (site_url cfg)); simpl;
      eexists; split; reflexivity.
  - intros Hgood. apply isValidApplicationPassword_true in Hgood.
    split; [exact Hgood|]. intros Hurl. rewrite Hgood, Hurl. simpl.
    eexists. reflexivity.
Qed.

Lemma C6_witness :
  AuthManager.malformed "abcd efgh ijkl mnop qrst uvw!"
  /\ exists e,
       AuthManager.new Url.parse
         (mkConfig "https://example.com" "admin" "abcd efgh ijkl mnop qrst uvw!"
            true 30000 None) = Throw e
       /\ type e = INVALID_CREDENTIALS.
Proof.
  assert (Hbad : AuthManager.malformed "abcd efgh ijkl mnop qrst uvw!").
  { right. exists "!"%char. split; [|reflexivity].
    vm_compute. do 23 right. left. reflexivity. }
  split; [exact Hbad|].
  exact (proj2 (proj1 (C6_malformed_password_refused Url.parse
                         (mkConfig "https://example.com" "admin"
                            "abcd efgh ijkl mnop qrst uvw!" true 30000 None)) Hbad)).
Defined.

(** C6, as first stated, fails: with a site URL that is not https, a
    malformed password makes the construction throw INVALID_URL, not
    INVALID_CREDENTIALS. *)
Lemma C6_counterexample :
  AuthManager.malformed "short"
  /\ AuthManager.new Url.parse (mkConfig "http://example.com" "admin" "short" true 30000 None)
     = Throw (mkAuthError INVALID_URL
                "Security validation failed: Site URL must use HTTPS" None)
  /\ ~ (forall parseURL cfg,
          AuthManager.malformed (app_password cfg) ->
          exists e, AuthManager.new parseURL cfg = Throw e /\ type e = INVALID_CREDENTIALS).
Proof.
  assert (Hbad : AuthManager.malformed "short").
  { left. vm_compute. discriminate. }
  split; [exact Hbad|]. split; [reflexivity|].
  intros H.
  destruct (H Url.parse (mkConfig "http://example.com" "admin" "short" true 30000 None) Hbad)
    as (e & He & Ht).
  vm_compute in He. injection He as <-. discriminate Ht.
Qed.

(** C7.  When the site URL is not an absolute https URL, [validateSecurity()]
    reports [isSecure = false] with at least one issue, and the constructor
    throws INVALID_URL instead of returning a manager. *)
Theorem C7_non_https_url_refused :
  forall (parseURL : string -> Url.parsed) (cfg : WordPressConfig),
    AuthManager.isAbsoluteHttps parseURL (site_url cfg) = false ->
    isSecure (AuthManager.validateSecurity parseURL cfg) = false
    /\ (1 <= List.length (issues (AuthManager.validateSecurity parseURL cfg)))%nat
    /\ exists e, AuthManager.new parseURL cfg = Throw e /\ type e = INVALID_URL.
Proof.
  intros parseURL cfg Hurl. split; [|split].
  - rewrite validateSecurity_isSecure. exact Hurl.
  - unfold AuthManager.validateSecurity, AuthManager.isAbsoluteHttps in *.
    destruct (parseURL (site_url cfg)) as [url|msg]; [|simpl; lia].
    rewrite Hurl. simpl. lia.
  - unfold AuthManager.new. rewrite validateConfiguration_cases, Hurl. simpl.
    eexists. split; reflexivity.
Qed.

Lemma C7_witness :
  AuthManager.isAbsoluteHttps Url.parse "http://example.com" = false
  /\ isSecure (AuthManager.validateSecurity Url.parse
                 (mkConfig "http://example.com" "admin" "abcd efgh ijkl mnop qrst uvwx"
                    true 30000 None)) = false.
Proof.
  split; [reflexivity|].
  apply (C7_non_https_url_refused Url.parse
           (mkConfig "http://example.com" "admin" "abcd efgh ijkl mnop qrst uvwx"
              true 30000 None)).
  reflexivity.
Defined.

(** ** HTTP client *)

Section HttpClientFacts.
Import Net HttpClient.

Context {engine : RegExp.Engine}.

(** With plain-text patterns [sanitizeErrorMessage] returns, and what it
    returns is [redacted]. *)
Lemma sanitizeErrorMessage_plain m message :
  AuthManager.plainCredentials m = true ->
  AuthManager.sanitizeErrorMessage m message
  = RegExp.Returned (AuthManager.redacted m message).
Proof.
  unfold AuthManager.plainCredentials. intros H. apply andb_prop in H.
  destruct H as [Hu Hp].
  unfold AuthManager.sanitizeErrorMessage, AuthManager.redacted, RegExp.replaceAll.
  rewrite (RegExp.literal_compiles _ Hu), (RegExp.literal_compiles _ Hp).
  rewrite (RegExp.literal_replace _ "[USERNAME]" _ Hu eq_refl).
  rewrite (RegExp.literal_replace _ "[PASSWORD]" _ Hp eq_refl).
  reflexivity.
Qed.

Lemma plain_wellFormed m :
  AuthManager.plainCredentials m = true -> AuthManager.wellFormedCredentials m = true.
Proof.
  unfold AuthManager.plainCredentials, AuthManager.wellFormedCredentials. intros H.
  apply andb_prop in H. destruct H as [Hu Hp].
  rewrite (RegExp.literal_compiles _ Hu), (RegExp.literal_compiles _ Hp). reflexivity.
Qed.

(** [sanitizeErrorMessage] throws exactly when the platform refuses the
    user name or the password as a pattern. *)
Lemma sanitizeErrorMessage_throws m message :
  (exists text, AuthManager.sanitizeErrorMessage m message = RegExp.SyntaxError text)
  <-> AuthManager.wellFormedCredentials m = false.
Proof.
  unfold AuthManager.sanitizeErrorMessage, AuthManager.wellFormedCredentials,
    RegExp.replaceAll.
  destruct (RegExp.compiles (username (AuthManager.config m)));
    destruct (RegExp.compiles (app_password (AuthManager.config m))); cbn [andb];
    (split; [intros [text H]|intros H]);
    first [reflexivity | discriminate H | eexists; reflexivity].
Qed.

(** The last statement of [handleResponseError] throws UNKNOWN_ERROR, or
    the [SyntaxError] of a pattern that is not well formed. *)
Lemma fallback_cases c message status :
  (exists text,
     fallback c message status = Rejected (mkAuthError UNKNOWN_ERROR text status)
     /\ AuthManager.sanitizeErrorMessage (authManager c) message = RegExp.Returned text
     /\ AuthManager.wellFormedCredentials (authManager c) = true)
  \/ (exists text,
        fallback c message status = Threw text
        /\ AuthManager.wellFormedCredentials (authManager c) = false).
Proof.
  unfold fallback.
  destruct (AuthManager.sanitizeErrorMessage (authManager c) message) as [text|text] eqn:Hs.
  - left. exists text. split; [reflexivity|]. split; [reflexivity|].
    destruct (AuthManager.wellFormedCredentials (authManager c)) eqn:Hw; [reflexivity|].
    apply (proj2 (sanitizeErrorMessage_throws (authManager c) message)) in Hw.
    destruct Hw as [text' Hw]. congruence.
  - right. exists text. split; [reflexivity|].
    apply (proj1 (sanitizeErrorMessage_throws (authManager c) message)).
    exists text. exact Hs.
Qed.

Lemma rateLimitStep_retryCount now c : retryCount (snd (rateLimitStep now c)) = retryCount c.
Proof.
  unfold rateLimitStep. destruct (rateLimiter c) as [rl|]; [|reflexivity].
  destruct (RateLimiter.checkLimit now rl) as [r rl']. reflexivity.
Qed.

Lemma authorize_retryCount now c : retryCount (snd (authorize now c)) = retryCount c.
Proof.
  unfold authorize.
  destruct (negb (AuthManager.isAuthenticated now (authManager c))); simpl.
  - reflexivity.
  - reflexivity.
Qed.

Lemma requestInterceptor_retryCount now c :
  retryCount (snd (requestInterceptor now c)) = retryCount c.
Proof.
  unfold requestInterceptor.
  pose proof (rateLimitStep_retryCount now c) as H.
  destruct (rateLimitStep now c) as [[[]|e] c1]; simpl in H; [|exact H].
  rewrite authorize_retryCount. exact H.
Qed.

(** [handleResponseError] either resubmits the request, which it does
    for a 401 when the counter is below 1, or rejects with an error of one of
    the surfaced categories, or, in its last statement, with the
    [SyntaxError] of a pattern that is not well formed; in the last two cases
    it leaves the counter and the world as they are. *)
Lemma handleResponseError_cases resubmit error c w :
  (option_map AxiosResponse.status (AxiosError.response error) = Some 401
   /\ retryCount c < 1
   /\ handleResponseError resubmit error c w
      = resubmit (retrying (clock w) c) (record Retried w))
  \/ (exists e c',
        handleResponseError resubmit error c w = (Rejected e, c', w)
        /\ In (type e) surfaced
        /\ retryCount c' = retryCount c
        /\ rateLimiter c' = rateLimiter c
        /\ (option_map AxiosResponse.status (AxiosError.response error) = Some 401 ->
            1 <= retryCount c /\ type e = UNAUTHORIZED)
        /\ (c' = c
            \/ c' = withAuthManager (AuthManager.invalidateAuth (authManager c)) c))
  \/ (exists text,
        handleResponseError resubmit error c w = (Threw text, c, w)
        /\ AuthManager.wellFormedCredentials (authManager c) = false).
Proof.
  unfold handleResponseError.
  set (status := option_map AxiosResponse.status (AxiosError.response error)).
  destruct (statusIs 401 status) eqn:H401.
  - assert (Hst : status = Some 401).
    { destruct status as [st|]; simpl in H401; [|discriminate].
      apply Z.eqb_eq in H401. congruence. }
    cbn [withAuthManager retryCount].
    destruct (Z.ltb_spec (retryCount c) 1) as [Hlt|Hge].
    + left. split; [exact Hst|]. split; [exact Hlt|]. reflexivity.
    + right. left. eexists. eexists. split; [reflexivity|].
      simpl. repeat split; auto 10.
  - assert (Hne : status <> Some 401).
    { intros Heq. rewrite Heq in H401. discriminate. }
    right.
    repeat match goal with
           | |- context [if ?b then _ else _] => destruct b
           | |- context [match ?x with Some _ => _ | None => _ end] => destruct x
           end;
      try match goal with
          | |- context [fallback ?cl ?m ?st] =>
              destruct (fallback_cases cl m st) as [(text & -> & _ & _)|(text & -> & Hw)];
                [|right; exists text; split; [reflexivity|exact Hw]]
          end;
      left; eexists; eexists; (split; [reflexivity|]);
      simpl; (repeat split); auto 10; intros; contradiction.
Qed.

Lemma retriesSinceSuccess_nonneg tr : 0 <= retriesSinceSuccess tr.
Proof. induction tr as [|[h| |] tr IH]; cbn [retriesSinceSuccess]; lia. Qed.

Lemma atMostOne_bound tr :
  atMostOneRetryPerSuccess tr = true -> retriesSinceSuccess tr <= 1.
Proof.
  destruct tr as [|ev tr]; [cbn [retriesSinceSuccess]; lia|].
  intros H. change (atMostOneRetryPerSuccess (ev :: tr))
    with ((retriesSinceSuccess (ev :: tr) <=? 1) && atMostOneRetryPerSuccess tr) in H.
  apply andb_prop in H. destruct H as [H _]. apply Z.leb_le. exact H.
Qed.

Lemma atMostOne_cons ev tr :
  atMostOneRetryPerSuccess tr = true ->
  retriesSinceSuccess (ev :: tr) <= 1 ->
  atMostOneRetryPerSuccess (ev :: tr) = true.
Proof.
  intros Htr Hev.
  change (atMostOneRetryPerSuccess (ev :: tr))
    with ((retriesSinceSuccess (ev :: tr) <=? 1) && atMostOneRetryPerSuccess tr).
  rewrite Htr, andb_true_r. apply Z.leb_le. exact Hev.
Qed.

Lemma counterInvariant_bounds c w :
  counterInvariant c w -> 0 <= retryCount c <= 1.
Proof.
  intros [Hc Ht]. rewrite Hc. split.
  - apply retriesSinceSuccess_nonneg.
  - apply atMostOne_bound. exact Ht.
Qed.

Lemma counterInvariant_dispatched c w h ms later :
  counterInvariant c w ->
  counterInvariant c {| clock := ms; wire := later; trace := Dispatched h :: trace w |}.
Proof.
  intros [Hc Ht]. split; simpl trace.
  - exact Hc.
  - apply atMostOne_cons; [exact Ht|]. cbn [retriesSinceSuccess].
    apply atMostOne_bound. exact Ht.
Qed.

Lemma counterInvariant_succeeded c w :
  counterInvariant c w ->
  counterInvariant (withRetryCount 0 c) (record Succeeded w).
Proof.
  intros [Hc Ht]. split; simpl.
  - reflexivity.
  - exact Ht.
Qed.

Lemma counterInvariant_retrying c w :
  counterInvariant c w -> retryCount c < 1 ->
  counterInvariant (retrying (clock w) c) (record Retried w).
Proof.
  intros [Hc Ht] Hlt. split.
  - cbn [retrying withAuthManager withRetryCount retryCount record trace
         retriesSinceSuccess]. rewrite Hc. lia.
  - cbn [record trace]. apply atMostOne_cons; [exact Ht|].
    cbn [retriesSinceSuccess]. rewrite <- Hc. lia.
Qed.

Lemma counterInvariant_same_counter c c' w :
  retryCount c' = retryCount c -> counterInvariant c w -> counterInvariant c' w.
Proof. intros Heq [Hc Ht]. split; [congruence|exact Ht]. Qed.

(** A call keeps the counter in step with the trace. *)
Lemma request_counterInvariant : forall fuel c w,
  counterInvariant c w ->
  counterInvariant (snd (fst (request fuel c w))) (snd (request fuel c w)).
Proof.
  induction fuel as [|fuel IH]; intros c w Hinv; [exact Hinv|].
  simpl request.
  pose proof (requestInterceptor_retryCount (clock w) c) as Hrc.
  destruct (requestInterceptor (clock w) c) as [[h|e0] c1]; simpl in Hrc.
  - assert (Hinv1 : counterInvariant c1 w)
      by (apply (counterInvariant_same_counter c); assumption).
    destruct (wire w) as [|ex later]; [exact Hinv1|].
    destruct (settle (reply ex)) as [resp|err].
    + apply counterInvariant_succeeded.
      apply counterInvariant_dispatched. exact Hinv1.
    + match goal with
      | |- context [handleResponseError ?k ?er ?cl ?wl] =>
          destruct (handleResponseError_cases k er cl wl)
            as [(_ & Hlt & ->)|[(e & c' & -> & _ & Hc' & _)|(text & -> & _)]]
      end.
      * apply IH. apply counterInvariant_retrying; [|exact Hlt].
        apply counterInvariant_dispatched. exact Hinv1.
      * simpl. apply (counterInvariant_same_counter c1); [exact Hc'|].
        apply counterInvariant_dispatched. exact Hinv1.
      * simpl. apply counterInvariant_dispatched. exact Hinv1.
  - assert (Hinv1 : counterInvariant c1 w)
      by (apply (counterInvariant_same_counter c); assumption).
    destruct (handleResponseError_cases (request fuel) (AxiosError.ofThrown e0) c1 w)
      as [(H401 & _)|[(e & c' & -> & _ & Hc' & _)|(text & -> & _)]];
      [discriminate H401| |exact Hinv1].
    simpl. apply (counterInvariant_same_counter c1); [exact Hc'|exact Hinv1].
Qed.

Lemma session_counterInvariant fuel : forall idle c w,
  counterInvariant c w ->
  counterInvariant (snd (fst (session fuel idle c w))) (snd (session fuel idle c w)).
Proof.
  induction idle as [|ms idle IH]; intros c w Hinv; [exact Hinv|].
  simpl session.
  pose proof (request_counterInvariant fuel c (advance ms w) Hinv) as H1.
  destruct (request fuel c (advance ms w)) as [[o c1] w1]. simpl in H1.
  specialize (IH c1 w1 H1).
  destruct (session fuel idle c1 w1) as [[os c2] w2]. exact IH.
Qed.

(** Every error a call ends with has one of the surfaced categories. *)
Lemma request_classified : forall fuel c w e,
  fst (fst (request fuel c w)) = Rejected e -> In (type e) surfaced.
Proof.
  induction fuel as [|fuel IH]; intros c w e; [discriminate|].
  simpl request.
  destruct (requestInterceptor (clock w) c) as [[h|e0] c1].
  - destruct (wire w) as [|ex later]; [discriminate|].
    destruct (settle (reply ex)) as [resp|err]; [discriminate|].
    match goal with
    | |- context [handleResponseError ?k ?er ?cl ?wl] =>
        destruct (handleResponseError_cases k er cl wl)
          as [(_ & _ & ->)|[(e1 & c' & -> & Hin & _)|(text & -> & _)]]
    end.
    + apply IH.
    + simpl. intros [= <-]. exact Hin.
    + discriminate.
  - destruct (handleResponseError_cases (request fuel) (AxiosError.ofThrown e0) c1 w)
      as [(H401 & _)|[(e1 & c' & -> & Hin & _)|(text & -> & _)]];
      [discriminate H401| |discriminate].
    simpl. intros [= <-]. exact Hin.
Qed.

(** Two units of fuel are enough once the counter is not negative: the
    resubmitted request finds the counter at 1 or more and cannot resubmit. *)
Lemma request_no_resubmit fuel c w :
  1 <= retryCount c -> isOutOfFuel (fst (fst (request (S fuel) c w))) = false.
Proof.
  intros Hge. simpl request.
  pose proof (requestInterceptor_retryCount (clock w) c) as Hrc.
  destruct (requestInterceptor (clock w) c) as [[h|e0] c1]; simpl in Hrc.
  - destruct (wire w) as [|ex later]; [reflexivity|].
    destruct (settle (reply ex)) as [resp|err]; [reflexivity|].
    match goal with
    | |- context [handleResponseError ?k ?er ?cl ?wl] =>
        destruct (handleResponseError_cases k er cl wl)
          as [(_ & Hlt & _)|[(e1 & c' & -> & _)|(text & -> & _)]]
    end; [lia|reflexivity|reflexivity].
  - destruct (handleResponseError_cases (request fuel) (AxiosError.ofThrown e0) c1 w)
      as [(H401 & _)|[(e1 & c' & -> & _)|(text & -> & _)]];
      [discriminate H401|reflexivity|reflexivity].
Qed.

Lemma request_fuel_enough fuel c w :
  0 <= retryCount c -> isOutOfFuel (fst (fst (request (S (S fuel)) c w))) = false.
Proof.
  intros Hge. change (request (S (S fuel)) c w) with
    (match requestInterceptor (clock w) c with
     | (Throw e, c) =>
         handleResponseError (request (S fuel)) (AxiosError.ofThrown e) c w
     | (Ok authorization, c) =>
         match wire w with
         | [] => (Pending, c, w)
         | exchange :: later =>
             let w := {| clock := clock w + latency exchange;
                         wire := later;
                         trace := Dispatched authorization :: trace w |} in
             match settle (reply exchange) with
             | inl response =>
                 (Fulfilled response, withRetryCount 0 c, record Succeeded w)
             | inr error => handleResponseError (request (S fuel)) error c w
             end
         end
     end).
  pose proof (requestInterceptor_retryCount (clock w) c) as Hrc.
  destruct (requestInterceptor (clock w) c) as [[h|e0] c1]; simpl in Hrc.
  - destruct (wire w) as [|ex later]; [reflexivity|].
    destruct (settle (reply ex)) as [resp|err]; [reflexivity|].
    cbv zeta.
    match goal with
    | |- context [handleResponseError ?k ?er ?cl ?wl] =>
        destruct (handleResponseError_cases k er cl wl)
          as [(_ & Hlt & ->)|[(e1 & c' & -> & _)|(text & -> & _)]]
    end; [|reflexivity|reflexivity].
    apply request_no_resubmit. simpl. lia.
  - destruct (handleResponseError_cases (request (S fuel)) (AxiosError.ofThrown e0) c1 w)
      as [(H401 & _)|[(e1 & c' & -> & _)|(text & -> & _)]];
      [discriminate H401|reflexivity|reflexivity].
Qed.

Lemma rateLimitStep_authManager now c :
  authManager (snd (rateLimitStep now c)) = authManager c.
Proof.
  unfold rateLimitStep. destruct (rateLimiter c) as [rl|]; [|reflexivity].
  destruct (RateLimiter.checkLimit now rl) as [r rl']. reflexivity.
Qed.

Lemma authorize_consistent now c :
  AuthManager.consistent (authManager c) ->
  AuthManager.consistent (authManager (snd (authorize now c))).
Proof.
  intros Hcons. unfold authorize.
  destruct (AuthManager.isAuthenticated now (authManager c)); cbn [negb].
  - destruct (AuthManager.getAuthorizationHeader (authManager c)); exact Hcons.
  - cbn [AuthManager.authenticate snd withAuthManager authManager].
    intros _. discriminate.
Qed.

Lemma requestInterceptor_consistent now c :
  AuthManager.consistent (authManager c) ->
  AuthManager.consistent (authManager (snd (requestInterceptor now c))).
Proof.
  intros Hcons. unfold requestInterceptor.
  pose proof (rateLimitStep_authManager now c) as Ham.
  destruct (rateLimitStep now c) as [[[]|e] c1]; cbn [snd] in *.
  - apply authorize_consistent. rewrite Ham. exact Hcons.
  - rewrite Ham. exact Hcons.
Qed.

(** Calls keep the credentials of the manager consistent with its flag. *)
Lemma request_consistent : forall fuel c w,
  AuthManager.consistent (authManager c) ->
  AuthManager.consistent (authManager (snd (fst (request fuel c w)))).
Proof.
  assert (Hcase : forall c c',
            AuthManager.consistent (authManager c) ->
            c' = c \/ c' = withAuthManager (AuthManager.invalidateAuth (authManager c)) c ->
            AuthManager.consistent (authManager c')).
  { intros c c' Hc [->| ->]; [exact Hc|]. intros H. discriminate H. }
  assert (Hretry : forall now c, AuthManager.consistent (authManager (retrying now c))).
  { intros now c H. discriminate. }
  induction fuel as [|fuel IH]; intros c w Hcons; [exact Hcons|].
  cbn [request].
  pose proof (requestInterceptor_consistent (clock w) c Hcons) as H1.
  destruct (requestInterceptor (clock w) c) as [[h|e0] c1]; cbn [snd] in H1.
  - destruct (wire w) as [|ex later]; [exact H1|].
    destruct (settle (reply ex)) as [resp|err]; [exact H1|].
    match goal with
    | |- context [handleResponseError ?k ?er ?cl ?wl] =>
        destruct (handleResponseError_cases k er cl wl)
          as [(_ & _ & ->)|[(e & c' & -> & _ & _ & _ & _ & Hc')|(text & -> & _)]]
    end.
    + apply IH. apply Hretry.
    + exact (Hcase c1 c' H1 Hc').
    + exact H1.
  - destruct (handleResponseError_cases (request fuel) (AxiosError.ofThrown e0) c1 w)
      as [(H401 & _)|[(e & c' & -> & _ & _ & _ & _ & Hc')|(text & -> & _)]];
      [discriminate H401| |exact H1].
    exact (Hcase c1 c' H1 Hc').
Qed.

Lemma session_consistent fuel : forall idle c w,
  AuthManager.consistent (authManager c) ->
  AuthManager.consistent (authManager (snd (fst (session fuel idle c w)))).
Proof.
  induction idle as [|ms idle IH]; intros c w Hcons; [exact Hcons|].
  cbn [session].
  pose proof (request_consistent fuel c (advance ms w) Hcons) as H1.
  destruct (request fuel c (advance ms w)) as [[o c1] w1]. cbn [fst snd] in H1.
  specialize (IH c1 w1 H1).
  destruct (session fuel idle c1 w1) as [[os c2] w2]. exact IH.
Qed.

Lemma session_fuel_enough fuel : forall idle c w,
  counterInvariant c w ->
  Forall (fun o => isOutOfFuel o = false) (fst (fst (session (S (S fuel)) idle c w))).
Proof.
  induction idle as [|ms idle IH]; intros c w Hinv; [constructor|].
  cbn [session].
  pose proof (request_counterInvariant (S (S fuel)) c (advance ms w) Hinv) as H1.
  pose proof (request_fuel_enough fuel c (advance ms w)
                (proj1 (counterInvariant_bounds c w Hinv))) as H2.
  destruct (request (S (S fuel)) c (advance ms w)) as [[o c1] w1].
  cbn [fst snd] in H1, H2.
  specialize (IH c1 w1 H1).
  destruct (session (S (S fuel)) idle c1 w1) as [[os c2] w2].
  constructor; assumption.
Qed.

(** One unfolding of [request] for a request that gets on the wire. *)
Lemma request_dispatch fuel c w h c1 ex later :
  requestInterceptor (clock w) c = (Ok h, c1) ->
  wire w = ex :: later ->
  request (S fuel) c w =
    let w1 := {| clock := clock w + latency ex; wire := later;
                 trace := Dispatched h :: trace w |} in
    match settle (reply ex) with
    | inl response => (Fulfilled response, withRetryCount 0 c1, record Succeeded w1)
    | inr error => handleResponseError (request fuel) error c1 w1
    end.
Proof. intros H1 H2. cbn [request]. rewrite H1, H2. reflexivity. Qed.

Lemma settle_401 d : settle (Response 401 d) = inr (error401 d).
Proof. reflexivity. Qed.

Lemma handleResponseError_401_first resubmit d c w :
  retryCount c < 1 ->
  handleResponseError resubmit (error401 d) c w
  = resubmit (retrying (clock w) c) (record Retried w).
Proof.
  intros Hlt. unfold handleResponseError, error401.
  cbn [AxiosError.response option_map AxiosResponse.status statusIs
       withAuthManager retryCount].
  rewrite Z.eqb_refl.
  destruct (Z.ltb_spec (retryCount c) 1); [reflexivity|lia].
Qed.

Lemma handleResponseError_401_again resubmit d c w :
  1 <= retryCount c ->
  handleResponseError resubmit (error401 d) c w
  = (Rejected (mkAuthError UNAUTHORIZED
                 "Invalid credentials or expired authentication" (Some 401)),
     withAuthManager (AuthManager.invalidateAuth (authManager c)) c, w).
Proof.
  intros Hge. unfold handleResponseError, error401.
  cbn [AxiosError.response option_map AxiosResponse.status statusIs
       withAuthManager retryCount].
  rewrite Z.eqb_refl.
  destruct (Z.ltb_spec (retryCount c) 1); [lia|reflexivity].
Qed.

(** A request that the interceptor lets through gets a header, and the
    counter is not touched. *)
Lemma letsThrough_header now c :
  letsThrough now c = true ->
  exists h c1,
    requestInterceptor now c = (Ok h, c1) /\ retryCount c1 = retryCount c.
Proof.
  unfold letsThrough. intros H.
  pose proof (requestInterceptor_retryCount now c) as Hrc.
  destruct (requestInterceptor now c) as [[h|e] c1]; [|discriminate H].
  exists h, c1. split; [reflexivity|exact Hrc].
Qed.

(** On a manager that holds credentials and whose flag is set, the
    interceptor reads the header and leaves the manager as it is. *)
Lemma requestInterceptor_authenticated now c h c1 :
  AuthState.isAuthenticated (AuthManager.authState (authManager c)) = true ->
  requestInterceptor now c = (Ok h, c1) ->
  authManager c1 = authManager c
  /\ AuthManager.getAuthorizationHeader (authManager c) = Ok h.
Proof.
  intros Hflag. unfold requestInterceptor.
  pose proof (rateLimitStep_authManager now c) as Ham.
  destruct (rateLimitStep now c) as [[[]|e] c0]; cbn [snd] in Ham;
    [|intros H; discriminate H].
  unfold authorize. rewrite isAuthenticated_flag, Ham, Hflag. cbn [negb].
  intros H. injection H as Hheader <-. split; [reflexivity|exact Hheader].
Qed.

End HttpClientFacts.

(** ** Calls that overlap *)

Section ConcurrentFacts.
Import Net HttpClient Concurrent.

Context {engine : RegExp.Engine}.

Lemma Moved_same c w c0 c' w' :
  retryCount c0 = retryCount c -> Moved c0 w c' w' -> Moved c w c' w'.
Proof.
  intros Heq [H1 H2|h H1 H2|H1 H2|H0 H1 H2].
  - apply MovedQuietly; congruence.
  - apply (MovedDispatched _ _ _ _ h); congruence.
  - apply MovedSucceeded; congruence.
  - apply MovedRetried; congruence.
Qed.

Lemma Moved_later c w ms c' w' :
  Moved c (advance ms w) c' w' -> Moved c w c' w'.
Proof.
  intros [H1 H2|h H1 H2|H1 H2|H0 H1 H2]; cbn [advance trace] in H2.
  - apply MovedQuietly; assumption.
  - apply (MovedDispatched _ _ _ _ h); assumption.
  - apply MovedSucceeded; assumption.
  - apply MovedRetried; assumption.
Qed.

(** The rejection handler suspends for a 401 met with the counter below 1,
    and settles the call in every other case. *)
Lemma rejected_cases error c w :
  (option_map AxiosResponse.status (AxiosError.response error) = Some 401
   /\ retryCount c < 1
   /\ rejected error c w = (Reauthenticating, retrying (clock w) c, record Retried w))
  \/ (exists outcome c',
        rejected error c w = (Settled outcome, c', w)
        /\ retryCount c' = retryCount c
        /\ (forall e, outcome = Rejected e -> In (type e) surfaced)
        /\ (forall text, outcome = Threw text ->
              AuthManager.wellFormedCredentials (authManager c) = false)
        /\ outcome <> Pending /\ outcome <> OutOfFuel
        /\ (forall response, outcome <> Fulfilled response)).
Proof.
  unfold rejected.
  destruct (handleResponseError_cases suspended error c w)
    as [(H401 & Hlt & ->)|[(e & c' & -> & Hin & Hrc & _)|(text & -> & Hw)]].
  - left. split; [exact H401|]. split; [exact Hlt|]. reflexivity.
  - right. exists (Rejected e), c'. split; [reflexivity|]. split; [exact Hrc|].
    split; [intros e0 [= <-]; exact Hin|].
    repeat split; intros; discriminate.
  - right. exists (Threw text), c. split; [reflexivity|]. split; [reflexivity|].
    split; [intros e0 H; discriminate H|].
    split; [intros text0 _; exact Hw|].
    repeat split; intros; discriminate.
Qed.

Lemma rejected_Moved error c w :
  Moved c w (snd (fst (rejected error c w))) (snd (rejected error c w)).
Proof.
  destruct (rejected_cases error c w)
    as [(_ & Hlt & ->)|(outcome & c' & -> & Hrc & _)]; cbn [fst snd].
  - apply MovedRetried; [exact Hlt| |reflexivity].
    cbn [retrying withAuthManager withRetryCount retryCount]. reflexivity.
  - apply MovedQuietly; [exact Hrc|reflexivity].
Qed.

Lemma attachHeader_Moved c w :
  Moved c w (snd (fst (attachHeader c w))) (snd (attachHeader c w)).
Proof.
  unfold attachHeader.
  destruct (AuthManager.getAuthorizationHeader (authManager c)) as [h|e].
  - apply MovedQuietly; reflexivity.
  - apply rejected_Moved.
Qed.

Lemma authenticateIfNeeded_Moved c w :
  Moved c w (snd (fst (authenticateIfNeeded c w))) (snd (authenticateIfNeeded c w)).
Proof.
  unfold authenticateIfNeeded.
  destruct (negb (AuthManager.isAuthenticated (clock w) (authManager c)));
    [|apply attachHeader_Moved].
  cbn [AuthManager.authenticate fst snd]. apply MovedQuietly; reflexivity.
Qed.

Lemma intercept_Moved c w :
  Moved c w (snd (fst (intercept c w))) (snd (intercept c w)).
Proof.
  unfold intercept. destruct (rateLimiter c) as [rl|]; [|apply authenticateIfNeeded_Moved].
  pose proof (rateLimitStep_retryCount (clock w) c) as Hrc.
  destruct (rateLimitStep (clock w) c) as [[[]|e] c1]; cbn [snd] in Hrc.
  - apply MovedQuietly; [exact Hrc|reflexivity].
  - apply (Moved_same c w c1); [exact Hrc|]. apply rejected_Moved.
Qed.

Lemma resume_Moved phase c w :
  Moved c w (snd (fst (resume phase c w))) (snd (resume phase c w)).
Proof.
  destruct phase as [| | |h|reply| |outcome]; cbn [resume].
  - apply intercept_Moved.
  - apply authenticateIfNeeded_Moved.
  - apply attachHeader_Moved.
  - unfold dispatch. destruct (wire w) as [|exchange later]; cbn [fst snd].
    + apply MovedQuietly; reflexivity.
    + apply (MovedDispatched _ _ _ _ h); reflexivity.
  - unfold receive. destruct (settle reply) as [response|error]; cbn [fst snd].
    + apply MovedSucceeded; reflexivity.
    + apply rejected_Moved.
  - apply MovedQuietly; reflexivity.
  - apply MovedQuietly; reflexivity.
Qed.

(** Every step of a schedule moves the counter and the trace in one of the
    four ways. *)
Lemma step_Moved choice s :
  Moved (client s) (world s) (client (step choice s)) (world (step choice s)).
Proof.
  destruct choice as [|i ms]; cbn [step client world].
  - apply MovedQuietly; reflexivity.
  - destruct (nth_error (calls s) i) as [phase|]; [|apply MovedQuietly; reflexivity].
    pose proof (resume_Moved phase (client s) (advance (Z.of_N ms) (world s))) as H.
    destruct (resume phase (client s) (advance (Z.of_N ms) (world s))) as [[phase' c'] w'].
    cbn [fst snd client world] in H |- *. exact (Moved_later _ _ _ _ _ H).
Qed.

Lemma Moved_counterInvariant c w c' w' :
  Moved c w c' w' -> counterInvariant c w -> counterInvariant c' w'.
Proof.
  intros [H1 H2|h H1 H2|H1 H2|H0 H1 H2] [Hc Ht]; unfold counterInvariant; rewrite H2.
  - split; [congruence|exact Ht].
  - split; [cbn [retriesSinceSuccess]; congruence|].
    apply atMostOne_cons; [exact Ht|]. cbn [retriesSinceSuccess].
    apply atMostOne_bound. exact Ht.
  - split; [exact H1|]. apply atMostOne_cons; [exact Ht|].
    cbn [retriesSinceSuccess]. lia.
  - split; [cbn [retriesSinceSuccess]; lia|].
    apply atMostOne_cons; [exact Ht|]. cbn [retriesSinceSuccess]. lia.
Qed.

(** Whatever the schedule, the counter stays in step with the trace. *)
Lemma run_counterInvariant schedule : forall s,
  counterInvariant (client s) (world s) ->
  counterInvariant (client (run schedule s)) (world (run schedule s)).
Proof.
  induction schedule as [|choice schedule IH]; intros s Hinv; [exact Hinv|].
  cbn [run fold_left]. apply IH.
  exact (Moved_counterInvariant _ _ _ _ (step_Moved choice s) Hinv).
Qed.

Lemma nth_error_update {A : Type} (x : A) : forall (l : list A) (i : nat) (y : A),
  nth_error l i = Some y -> nth_error (update i x l) i = Some x.
Proof.
  induction l as [|z l IH]; intros [|i] y H; cbn [update nth_error] in *;
    try discriminate H; [reflexivity|exact (IH i y H)].
Qed.

(** A 401 that arrives while the counter is 1 or more settles the call at
    once: UNAUTHORIZED, nothing sent, no retry recorded. *)
Lemma step_401_refused s i ms d :
  nth_error (calls s) i = Some (OnWire (Response 401 d)) ->
  1 <= retryCount (client s) ->
  let s' := step (Run i ms) s in
  nth_error (calls s') i
  = Some (Settled (Rejected (mkAuthError UNAUTHORIZED
                               "Invalid credentials or expired authentication"
                               (Some 401))))
  /\ retryCount (client s') = retryCount (client s)
  /\ trace (world s') = trace (world s)
  /\ wire (world s') = wire (world s).
Proof.
  intros Hcall Hrc. cbn [step]. rewrite Hcall. cbn [resume].
  unfold receive. rewrite settle_401. unfold rejected.
  rewrite handleResponseError_401_again by exact Hrc.
  cbn [calls client world withAuthManager retryCount advance trace wire].
  split; [exact (nth_error_update _ _ _ _ Hcall)|]. repeat split.
Qed.

(** *** A call that runs alone *)

Lemma advance_0 w : advance 0 w = w.
Proof. destruct w as [clock0 wire0 trace0]. unfold advance. cbn. f_equal. lia. Qed.

Lemma withAuthManager_same c : withAuthManager (authManager c) c = c.
Proof. destruct c. reflexivity. Qed.

Lemma run_app s1 s2 s : run (s1 ++ s2)%list s = run s2 (run s1 s).
Proof. unfold run. apply fold_left_app. Qed.

Lemma step_alone ms phase c w :
  step (Run 0 ms) (alone phase c w)
  = let '(phase', c', w') := resume phase c (advance (Z.of_N ms) w) in
    alone phase' c' w'.
Proof.
  unfold alone. cbn [step calls nth_error client world].
  destruct (resume phase c (advance (Z.of_N ms) w)) as [[phase' c'] w']. reflexivity.
Qed.

Lemma step_alone_0 phase c w :
  step (Run 0 0) (alone phase c w)
  = let '(phase', c', w') := resume phase c w in alone phase' c' w'.
Proof. rewrite step_alone. cbn [Z.of_N]. rewrite advance_0. reflexivity. Qed.

(** [handleResponseError] calls its continuation for a 401 met with the
    counter below 1 only, and does the same whatever the continuation in
    every other case. *)
Lemma handleResponseError_resubmits resubmit error c w :
  handleResponseError resubmit error c w
  = if statusIs 401 (option_map AxiosResponse.status (AxiosError.response error))
       && (retryCount c <? 1)
    then resubmit (retrying (clock w) c) (record Retried w)
    else handleResponseError suspended error c w.
Proof.
  unfold handleResponseError.
  destruct (statusIs 401 (option_map AxiosResponse.status (AxiosError.response error)));
    [|reflexivity].
  cbn [withAuthManager retryCount andb].
  destruct (retryCount c <? 1); reflexivity.
Qed.

(** The rejection handler of the interleaved call and [handleResponseError]
    with a continuation agree: where the first suspends, the second goes on
    with the continuation; where the first settles, the second returns the
    same. *)
Lemma handleResponseError_rejected resubmit error c w :
  (rejected error c w = (Reauthenticating, retrying (clock w) c, record Retried w)
   /\ handleResponseError resubmit error c w
      = resubmit (retrying (clock w) c) (record Retried w))
  \/ (exists outcome c',
        rejected error c w = (Settled outcome, c', w)
        /\ handleResponseError resubmit error c w = (outcome, c', w)).
Proof.
  rewrite (handleResponseError_resubmits resubmit).
  destruct (rejected_cases error c w)
    as [(H401 & Hlt & Hr)|(outcome & c' & Hr & _ & _ & _ & Hpending & _)].
  - left. rewrite H401. cbn [statusIs]. rewrite Z.eqb_refl.
    destruct (Z.ltb_spec (retryCount c) 1) as [_|Hge]; [|lia].
    cbn [andb]. split; [exact Hr|reflexivity].
  - right. exists outcome, c'. split; [exact Hr|].
    assert (Hs : handleResponseError suspended error c w = (outcome, c', w)).
    { unfold rejected in Hr.
      destruct (handleResponseError suspended error c w) as [[o c0] w0].
      destruct o; try discriminate Hr; injection Hr as <- <- <-; reflexivity. }
    rewrite (handleResponseError_resubmits suspended) in Hs.
    destruct (statusIs 401 (option_map AxiosResponse.status (AxiosError.response error))
              && (retryCount c <? 1)).
    + unfold suspended in Hs. injection Hs as <- _ _. contradiction Hpending.
      reflexivity.
    + exact Hs.
Qed.

(** Run alone, the request interceptor of the interleaved call does what
    [requestInterceptor] does. *)
Lemma requestInterceptor_alone c w :
  exists n,
    run (runs 0 n) (alone Queued c w)
    = match requestInterceptor (clock w) c with
      | (Ok authorization, c1) => alone (Ready authorization) c1 w
      | (Throw e, c1) =>
          let '(phase, c2, w2) := rejected (AxiosError.ofThrown e) c1 w in
          alone phase c2 w2
      end.
Proof.
  assert (Hauth : forall c0,
    exists n,
      run (runs 0 n)
        (let '(phase, c1, w1) := authenticateIfNeeded c0 w in alone phase c1 w1)
      = match authorize (clock w) c0 with
        | (Ok authorization, c1) => alone (Ready authorization) c1 w
        | (Throw e, c1) =>
            let '(phase, c2, w2) := rejected (AxiosError.ofThrown e) c1 w in
            alone phase c2 w2
        end).
  { intros c0. unfold authenticateIfNeeded, authorize.
    destruct (negb (AuthManager.isAuthenticated (clock w) (authManager c0))).
    - destruct (AuthManager.authenticate (clock w) (authManager c0)) as [[[]|e] am] eqn:Hau;
        [|unfold AuthManager.authenticate in Hau; discriminate Hau].
      exists 1%nat. cbn [runs repeat run fold_left]. rewrite step_alone_0.
      cbn [resume]. unfold attachHeader. cbn [withAuthManager authManager].
      destruct (AuthManager.getAuthorizationHeader am) as [h|e]; reflexivity.
    - exists 0%nat. cbn [runs repeat run fold_left]. unfold attachHeader.
      rewrite withAuthManager_same.
      destruct (AuthManager.getAuthorizationHeader (authManager c0)) as [h|e];
        reflexivity. }
  unfold requestInterceptor, rateLimitStep.
  destruct (rateLimiter c) as [rl|] eqn:Hrl.
  - destruct (RateLimiter.checkLimit (clock w) rl) as [[[]|e] rl'] eqn:Hcheck.
    + destruct (Hauth (withRateLimiter rl' c)) as [n Hn].
      exists (S (S n)). cbn [runs repeat run fold_left]. rewrite step_alone_0.
      cbn [resume]. unfold intercept, rateLimitStep. rewrite Hrl, Hcheck.
      rewrite step_alone_0. cbn [resume]. exact Hn.
    + exists 1%nat. cbn [runs repeat run fold_left]. rewrite step_alone_0.
      cbn [resume]. unfold intercept, rateLimitStep. rewrite Hrl, Hcheck.
      reflexivity.
  - destruct (Hauth c) as [n Hn].
    exists (S n). cbn [runs repeat run fold_left]. rewrite step_alone_0.
    cbn [resume]. unfold intercept. rewrite Hrl. exact Hn.
Qed.

Lemma runs_runsFirst n : forallb runsFirst (runs 0 n) = true.
Proof. induction n as [|n IH]; [reflexivity|exact IH]. Qed.

(** [request] is the call that runs alone: when it ends, a schedule that
    runs the one call from suspension to suspension, and lets the latency of
    each reply pass before the reply is received, ends in the same outcome,
    the same client and the same environment. *)
Lemma request_runs_alone : forall fuel c w outcome c' w',
  Forall (fun exchange => 0 <= latency exchange) (wire w) ->
  request fuel c w = (outcome, c', w') ->
  outcome <> OutOfFuel ->
  exists schedule,
    forallb runsFirst schedule = true
    /\ run schedule (alone Queued c w) = alone (Settled outcome) c' w'.
Proof.
  induction fuel as [|fuel IH]; intros c w outcome c' w' Hwire Hreq Hfuel.
  { cbn [request] in Hreq. injection Hreq as <- _ _. contradiction Hfuel.
    reflexivity. }
  assert (Hrejected : forall error c1 w1,
    Forall (fun exchange => 0 <= latency exchange) (wire w1) ->
    handleResponseError (request fuel) error c1 w1 = (outcome, c', w') ->
    exists schedule,
      forallb runsFirst schedule = true
      /\ run schedule (let '(phase, c2, w2) := rejected error c1 w1 in alone phase c2 w2)
         = alone (Settled outcome) c' w').
  { intros error c1 w1 Hwire1 Hh.
    destruct (handleResponseError_rejected (request fuel) error c1 w1)
      as [(-> & Hgo)|(o & c2 & -> & Hstop)].
    - rewrite Hgo in Hh.
      destruct (IH (retrying (clock w1) c1) (record Retried w1) _ _ _ Hwire1 Hh Hfuel)
        as (schedule & Hfirst & Hrun).
      exists (Run 0 0 :: schedule). split; [exact Hfirst|].
      cbn [run fold_left]. rewrite step_alone_0. cbn [resume]. exact Hrun.
    - rewrite Hstop in Hh. injection Hh as <- <- <-.
      exists []. split; reflexivity. }
  cbn [request] in Hreq.
  destruct (requestInterceptor_alone c w) as [n Hn].
  destruct (requestInterceptor (clock w) c) as [[h|e] c1].
  - destruct (wire w) as [|exchange later] eqn:Hw.
    + injection Hreq as <- <- <-.
      exists (runs 0 n ++ [Run 0 0])%list. split.
      * rewrite forallb_app, runs_runsFirst. reflexivity.
      * rewrite run_app, Hn. cbn [run fold_left]. rewrite step_alone_0.
        cbn [resume]. unfold dispatch. rewrite Hw. reflexivity.
    + inversion Hwire as [|? ? Hlatency Hlater]; subst.
      set (w1 := {| clock := clock w + latency exchange; wire := later;
                    trace := Dispatched h :: trace w |}) in *.
      assert (Hsent :
        run (runs 0 n ++ [Run 0 0; Run 0 (Z.to_N (latency exchange))])%list
          (alone Queued c w)
        = let '(phase, c2, w2) := receive (reply exchange) c1 w1 in alone phase c2 w2).
      { rewrite run_app, Hn. cbn [run fold_left]. rewrite step_alone_0.
        cbn [resume]. unfold dispatch. rewrite Hw. rewrite step_alone.
        cbn [resume]. unfold advance. cbn [clock wire trace].
        rewrite Z2N.id by exact Hlatency. reflexivity. }
      unfold receive in Hsent.
      destruct (settle (reply exchange)) as [response|error].
      * injection Hreq as <- <- <-.
        exists (runs 0 n ++ [Run 0 0; Run 0 (Z.to_N (latency exchange))])%list.
        split; [|exact Hsent].
        rewrite forallb_app, runs_runsFirst. reflexivity.
      * destruct (Hrejected error c1 w1 Hlater Hreq) as (schedule & Hfirst & Hrun).
        exists ((runs 0 n ++ [Run 0 0; Run 0 (Z.to_N (latency exchange))])
                  ++ schedule)%list.
        split.
        -- rewrite !forallb_app, runs_runsFirst, Hfirst. reflexivity.
        -- rewrite run_app, Hsent. exact Hrun.
  - destruct (Hrejected (AxiosError.ofThrown e) c1 w Hwire Hreq)
      as (schedule & Hfirst & Hrun).
    exists (runs 0 n ++ schedule)%list. split.
    + rewrite forallb_app, runs_runsFirst, Hfirst. reflexivity.
    + rewrite run_app, Hn. exact Hrun.
Qed.

End ConcurrentFacts.

Section RetryClaims.
Import Net HttpClient.

Context {engine : RegExp.Engine}.

Lemma retrying_facts now c :
  retryCount (retrying now c) = retryCount c + 1
  /\ rateLimiter (retrying now c) = rateLimiter c
  /\ AuthManager.consistent (authManager (retrying now c)).
Proof.
  unfold retrying. cbn [withAuthManager withRetryCount retryCount rateLimiter authManager].
  repeat split. intros _. discriminate.
Qed.

(** A 401 for a call made with the counter at 1 or more: the request is
    sent once and the call ends with UNAUTHORIZED. *)
Lemma request_401_no_retry fuel c w first later d :
  1 <= retryCount c -> letsThrough (clock w) c = true ->
  wire w = first :: later -> reply first = Response 401 d ->
  exists h c1,
    request (S fuel) c w
    = (Rejected (mkAuthError UNAUTHORIZED
                   "Invalid credentials or expired authentication" (Some 401)),
       c1,
       {| clock := clock w + latency first; wire := later;
          trace := Dispatched h :: trace w |})
    /\ retryCount c1 = retryCount c.
Proof.
  intros Hrc Hpass Hwire Hreply.
  destruct (letsThrough_header (clock w) c Hpass) as (h & c0 & Hint & Hrc0).
  rewrite (request_dispatch fuel c w h c0 first later Hint Hwire).
  cbv zeta. rewrite Hreply, settle_401.
  rewrite handleResponseError_401_again by lia.
  exists h. eexists. split; [reflexivity|]. exact Hrc0.
Qed.

(** C2 (as amended).  A call made alone, while the retry counter is zero
    (as it is for a new client and after every success), gets a 401.  If the
    request interceptor lets both attempts through, the client invalidates
    its access, authenticates again at the time of the 401 and resubmits the
    request with the header of the new credentials, once.  A 200 for the
    resubmitted request gives the caller that response, with exactly one
    retry and two requests sent; another 401 gives UNAUTHORIZED, with exactly
    one retry, two requests sent, the access invalidated again and nothing
    more taken from the network. *)
Theorem C2_one_retry_when_counter_is_zero :
  forall (fuel : nat) (c : HttpClient.t) (w : World)
         (first second : Exchange) (later : list Exchange) (d1 d2 : option string),
    retryCount c = 0 ->
    wire w = first :: second :: later ->
    reply first = Response 401 d1 ->
    let t401 := clock w + latency first in
    let c1 := snd (requestInterceptor (clock w) c) in
    let reauthenticated :=
      snd (AuthManager.authenticate t401
             (AuthManager.invalidateAuth (authManager c1))) in
    letsThrough (clock w) c = true ->
    letsThrough t401 (retrying t401 c1) = true ->
    let r := request (S (S fuel)) c w in
    exists h1 h2,
      fst (requestInterceptor (clock w) c) = Ok h1
      /\ authManager (retrying t401 c1) = reauthenticated
      /\ AuthManager.getAuthorizationHeader reauthenticated = Ok h2
      /\ (reply second = Response 200 d2 ->
          fst (fst r) = Fulfilled (AxiosResponse.mk 200 d2)
          /\ retryCount (snd (fst r)) = 0
          /\ authManager (snd (fst r)) = reauthenticated
          /\ wire (snd r) = later
          /\ retries (trace (snd r)) = S (retries (trace w))
          /\ trace (snd r)
             = Succeeded :: Dispatched h2 :: Retried :: Dispatched h1 :: trace w)
      /\ (reply second = Response 401 d2 ->
          fst (fst r) = Rejected (mkAuthError UNAUTHORIZED
                                    "Invalid credentials or expired authentication"
                                    (Some 401))
          /\ retryCount (snd (fst r)) = 1
          /\ authManager (snd (fst r)) = AuthManager.invalidateAuth reauthenticated
          /\ wire (snd r) = later
          /\ retries (trace (snd r)) = S (retries (trace w))
          /\ trace (snd r) = Dispatched h2 :: Retried :: Dispatched h1 :: trace w).
Proof.
  intros fuel c w first second later d1 d2 Hrc Hwire Hfirst t401 c1 reauthenticated
         Hpass1 Hpass2 r.
  destruct (letsThrough_header (clock w) c Hpass1) as (h1 & c1' & Hint1 & Hrc1).
  assert (Hc1 : c1 = c1') by (unfold c1; rewrite Hint1; reflexivity).
  rewrite <- Hc1 in Hrc1, Hint1.
  destruct (letsThrough_header t401 (retrying t401 c1) Hpass2) as (h2 & c2 & Hint2 & Hrc2).
  assert (Hmanager : authManager (retrying t401 c1) = reauthenticated) by reflexivity.
  destruct (requestInterceptor_authenticated t401 (retrying t401 c1) h2 c2 eq_refl Hint2)
    as [Ham2 Hheader].
  rewrite Hmanager in Ham2, Hheader.
  destruct (retrying_facts t401 c1) as (Hcount & _).
  assert (Hstep : r = request (S fuel) (retrying t401 c1)
                        {| clock := t401; wire := second :: later;
                           trace := Retried :: Dispatched h1 :: trace w |}).
  { unfold r. rewrite (request_dispatch (S fuel) c w h1 c1 first (second :: later)
                         Hint1 Hwire).
    cbv zeta. rewrite Hfirst, settle_401.
    rewrite handleResponseError_401_first by lia. reflexivity. }
  exists h1, h2. split; [rewrite Hint1; reflexivity|].
  split; [exact Hmanager|]. split; [exact Hheader|].
  rewrite Hstep. clear Hstep.
  rewrite (request_dispatch fuel (retrying t401 c1)
             {| clock := t401; wire := second :: later;
                trace := Retried :: Dispatched h1 :: trace w |}
             h2 c2 second later Hint2 eq_refl).
  cbv zeta.
  split; intros Hsecond; rewrite Hsecond.
  - cbn [settle Z.leb Z.ltb Z.compare Pos.compare Pos.compare_cont andb fst snd].
    cbn [withRetryCount retryCount authManager record wire trace]. repeat split.
    exact Ham2.
  - rewrite settle_401, handleResponseError_401_again by lia.
    cbn [fst snd withAuthManager retryCount authManager wire trace clock].
    repeat split; [lia|rewrite Ham2; reflexivity].
Qed.

End RetryClaims.

Section RetryExamples.
Import Net HttpClient.

Lemma C2_witness :
  let config :=
    mkConfig "https://example.com" "admin" "abcd efgh ijkl mnop qrst uvwx" true 30000
      (Some (Policy.mk 2 10)) in
  let manager := AuthManager.mk AuthState.empty config None in
  let earlier := request 2 (new manager) (Example.world [Response 200 None]) in
  let c := snd (fst earlier) in
  let w := {| clock := 70000;
              wire := [mkExchange 100 (Response 401 None);
                       mkExchange 100 (Response 200 (Some "ok"))];
              trace := trace (snd earlier) |} in
  AuthManager.new Url.parse config = Ok manager
  /\ option_map RateLimiter.requests (rateLimiter c) = Some [0]
  /\ retryCount c = 0
  /\ letsThrough 70000 c = true
  /\ Example.outcome (request 2 c w) = Fulfilled (AxiosResponse.mk 200 (Some "ok"))
  /\ retries (trace (snd (request 2 c w))) = 1%nat.
Proof.
  intros config manager earlier c w.
  split; [reflexivity|]. split; [reflexivity|]. split; [reflexivity|].
  split; [reflexivity|].
  destruct (C2_one_retry_when_counter_is_zero 0 c w
              (mkExchange 100 (Response 401 None))
              (mkExchange 100 (Response 200 (Some "ok")))
              [] None (Some "ok") eq_refl eq_refl eq_refl eq_refl eq_refl)
    as (h1 & h2 & _ & _ & _ & Hok & _).
  destruct (Hok eq_refl) as (Houtcome & _ & _ & _ & Hretries & _).
  split; [exact Houtcome|exact Hretries].
Defined.

(** C2, as first stated, fails, in two ways.  The counter is reset by a
    success only: a first call gets two 401s and ends with UNAUTHORIZED,
    leaving the counter at 1; the next call gets a 401 while a 200 is ready
    for a resubmitted request, and ends with UNAUTHORIZED at once, no retry
    is made and the 200 is never fetched.  And the counter is shared by the
    calls of a client: of two calls made side by side on a new client, both
    answered with a 401, the first is retried and the second, made while the
    counter was zero, ends with UNAUTHORIZED without a retry. *)
Lemma C2_counterexample :
  let w0 := Example.world [Response 401 None; Response 401 None;
                           Response 401 None; Response 200 (Some "ok")] in
  let first := request 2 (new Example.manager) w0 in
  let second := request 2 (snd (fst first)) (snd first) in
  let unauthorized :=
    Rejected (mkAuthError UNAUTHORIZED
                "Invalid credentials or expired authentication" (Some 401)) in
  let sideBySide :=
    Concurrent.run
      ([Concurrent.Call; Concurrent.Call]
         ++ Concurrent.runs 0 4 ++ Concurrent.runs 1 3
         ++ [Concurrent.Run 0 100; Concurrent.Run 1 0])%list
      (Concurrent.start (new Example.manager) 0
         (map (mkExchange 100) [Response 401 None; Response 401 None;
                                Response 200 (Some "ok")])) in
  (Example.outcome first = unauthorized
   /\ retryCount (snd (fst first)) = 1
   /\ wire (snd first)
      = [mkExchange 100 (Response 401 None); mkExchange 100 (Response 200 (Some "ok"))]
   /\ Example.outcome second = unauthorized
   /\ retries (trace (snd second)) = retries (trace (snd first))
   /\ wire (snd second) = [mkExchange 100 (Response 200 (Some "ok"))])
  /\ (Concurrent.calls sideBySide
      = [Concurrent.Reauthenticating; Concurrent.Settled unauthorized]
      /\ retries (trace (Concurrent.world sideBySide)) = 1%nat
      /\ dispatches (trace (Concurrent.world sideBySide)) = 2%nat
      /\ wire (Concurrent.world sideBySide)
         = [mkExchange 100 (Response 200 (Some "ok"))]).
Proof. vm_compute. repeat split. Qed.

End RetryExamples.

Section CounterClaims.
Import Net HttpClient.

Context {engine : RegExp.Engine}.

Lemma atMostOne_suffix newer : forall older,
  atMostOneRetryPerSuccess (newer ++ older)%list = true ->
  atMostOneRetryPerSuccess older = true.
Proof.
  induction newer as [|ev newer IH]; intros older H; [exact H|].
  apply IH.
  change (atMostOneRetryPerSuccess ((ev :: newer) ++ older)%list)
    with ((retriesSinceSuccess ((ev :: newer) ++ older)%list <=? 1)
          && atMostOneRetryPerSuccess (newer ++ older)%list) in H.
  apply andb_prop in H. tauto.
Qed.

Lemma retriesSinceSuccess_stretch stretch older :
  ~ In Succeeded stretch ->
  retriesSinceSuccess (stretch ++ older)%list
  = Z.of_nat (retries stretch) + retriesSinceSuccess older.
Proof.
  induction stretch as [|ev stretch IH]; intros Hno; [reflexivity|].
  assert (Hrest : ~ In Succeeded stretch) by (intros Hin; apply Hno; right; exact Hin).
  specialize (IH Hrest). unfold retries in *.
  destruct ev as [h| |].
  - cbn [app retriesSinceSuccess filter isRetried]. exact IH.
  - cbn [app retriesSinceSuccess filter isRetried List.length]. rewrite IH. lia.
  - exfalso. apply Hno. left. reflexivity.
Qed.

(** A trace that passes [atMostOneRetryPerSuccess] has at most one retry in
    every stretch without a success. *)
Lemma atMostOne_stretch tr newer stretch older :
  atMostOneRetryPerSuccess tr = true ->
  tr = (newer ++ stretch ++ older)%list ->
  ~ In Succeeded stretch ->
  (retries stretch <= 1)%nat.
Proof.
  intros Htr -> Hno.
  apply atMostOne_suffix in Htr. apply atMostOne_bound in Htr.
  rewrite (retriesSinceSuccess_stretch _ _ Hno) in Htr.
  pose proof (retriesSinceSuccess_nonneg older). lia.
Qed.

(** C9.  The calls of a client may overlap: a schedule says which call
    runs next, from one suspension to the next.  Every step of a schedule
    leaves the counter alone, or is a success, which resets it, or is a retry,
    which is made with the counter below 1 and increments it.  So, whatever
    the schedule of the calls made on a new client, the counter equals the
    number of retries made since the latest success and is 0 or 1, and every
    stretch of the trace without a success contains at most one retry; the
    same holds for calls made one after the other, none of which runs out of
    fuel.  And a 401 that arrives while the counter is 1 or more ends its
    call at once with UNAUTHORIZED: nothing is sent, no retry is made, the
    counter stays. *)
Theorem C9_one_retry_between_successes :
  forall (am : AuthManager.t) (clock0 : Z) (wire0 : list Exchange)
         (schedule : list Concurrent.Choice) (fuel : nat) (idle : list Z)
         (s : Concurrent.System) (choice : Concurrent.Choice)
         (i : nat) (ms : N) (d : option string)
         (c : HttpClient.t) (w : World) (first : Exchange) (later : list Exchange),
    Concurrent.Moved (Concurrent.client s) (Concurrent.world s)
      (Concurrent.client (Concurrent.step choice s))
      (Concurrent.world (Concurrent.step choice s))
    /\ (let s' := Concurrent.run schedule (Concurrent.start (new am) clock0 wire0) in
        retryCount (Concurrent.client s')
        = retriesSinceSuccess (trace (Concurrent.world s'))
        /\ 0 <= retryCount (Concurrent.client s') <= 1
        /\ (forall newer stretch older,
              trace (Concurrent.world s') = (newer ++ stretch ++ older)%list ->
              ~ In Succeeded stretch ->
              (retries stretch <= 1)%nat))
    /\ (let r := session (S (S fuel)) idle (new am) (mkWorld clock0 wire0 []) in
        retryCount (snd (fst r)) = retriesSinceSuccess (trace (snd r))
        /\ 0 <= retryCount (snd (fst r)) <= 1
        /\ Forall (fun o => isOutOfFuel o = false) (fst (fst r))
        /\ (forall newer stretch older,
              trace (snd r) = (newer ++ stretch ++ older)%list ->
              ~ In Succeeded stretch ->
              (retries stretch <= 1)%nat))
    /\ (nth_error (Concurrent.calls s) i = Some (Concurrent.OnWire (Response 401 d)) ->
        1 <= retryCount (Concurrent.client s) ->
        let s' := Concurrent.step (Concurrent.Run i ms) s in
        nth_error (Concurrent.calls s') i
        = Some (Concurrent.Settled
                  (Rejected (mkAuthError UNAUTHORIZED
                               "Invalid credentials or expired authentication"
                               (Some 401))))
        /\ retryCount (Concurrent.client s') = retryCount (Concurrent.client s)
        /\ trace (Concurrent.world s') = trace (Concurrent.world s)
        /\ wire (Concurrent.world s') = wire (Concurrent.world s))
    /\ (1 <= retryCount c ->
        letsThrough (clock w) c = true ->
        wire w = first :: later ->
        reply first = Response 401 d ->
        let r := request (S fuel) c w in
        fst (fst r) = Rejected (mkAuthError UNAUTHORIZED
                                  "Invalid credentials or expired authentication"
                                  (Some 401))
        /\ retryCount (snd (fst r)) = retryCount c
        /\ retries (trace (snd r)) = retries (trace w)
        /\ wire (snd r) = later).
Proof.
  intros am clock0 wire0 schedule fuel idle s choice i ms d c w first later.
  split; [apply step_Moved|]. split; [|split; [|split]].
  - intros s'.
    assert (Hinv : counterInvariant (Concurrent.client s') (Concurrent.world s')).
    { apply run_counterInvariant. split; reflexivity. }
    split; [exact (proj1 Hinv)|]. split; [exact (counterInvariant_bounds _ _ Hinv)|].
    intros newer stretch older Htr Hno.
    exact (atMostOne_stretch _ _ _ _ (proj2 Hinv) Htr Hno).
  - intros r.
    assert (Hinv : counterInvariant (snd (fst r)) (snd r)).
    { apply session_counterInvariant. split; reflexivity. }
    split; [exact (proj1 Hinv)|]. split; [exact (counterInvariant_bounds _ _ Hinv)|].
    split; [apply session_fuel_enough; split; reflexivity|].
    intros newer stretch older Htr Hno.
    exact (atMostOne_stretch _ _ _ _ (proj2 Hinv) Htr Hno).
  - intros Hcall Hrc. exact (step_401_refused s i ms d Hcall Hrc).
  - intros Hrc Hpass Hwire Hreply r.
    destruct (request_401_no_retry fuel c w first later d Hrc Hpass Hwire Hreply)
      as (h & c1 & Hreq & Hrc1).
    unfold r. rewrite Hreq. cbn [fst snd wire trace]. repeat split. exact Hrc1.
Qed.

End CounterClaims.

Section CounterExamples.
Import Net HttpClient.

Lemma C9_witness :
  let config :=
    mkConfig "https://example.com" "admin" "abcd efgh ijkl mnop qrst uvwx" true 30000
      (Some (Policy.mk 2 10)) in
  let manager := AuthManager.mk AuthState.empty config None in
  let first := request 2 (new manager)
                 (Example.world [Response 401 None; Response 401 None;
                                 Response 401 None]) in
  let c := snd (fst first) in
  let w := advance 1000000 (snd first) in
  let busy :=
    Concurrent.run
      ([Concurrent.Call; Concurrent.Call]
         ++ Concurrent.runs 0 4 ++ Concurrent.runs 1 3
         ++ [Concurrent.Run 0 100])%list
      (Concurrent.start (new Example.manager) 0
         (map (mkExchange 100) [Response 401 None; Response 401 None])) in
  let unauthorized :=
    Rejected (mkAuthError UNAUTHORIZED
                "Invalid credentials or expired authentication" (Some 401)) in
  (option_map RateLimiter.requests (rateLimiter c) = Some [0; 100]
   /\ 1 <= retryCount c
   /\ letsThrough (clock w) c = true
   /\ Example.outcome (request 2 c w) = unauthorized)
  /\ (nth_error (Concurrent.calls busy) 1 = Some (Concurrent.OnWire (Response 401 None))
      /\ 1 <= retryCount (Concurrent.client busy)
      /\ nth_error (Concurrent.calls (Concurrent.step (Concurrent.Run 1 0) busy)) 1
         = Some (Concurrent.Settled unauthorized)).
Proof.
  intros config manager first c w busy unauthorized.
  assert (Hrc : 1 <= retryCount c) by (vm_compute; discriminate).
  assert (Hpass : letsThrough (clock w) c = true) by reflexivity.
  assert (Hcall : nth_error (Concurrent.calls busy) 1
                  = Some (Concurrent.OnWire (Response 401 None))) by reflexivity.
  assert (Hbusy : 1 <= retryCount (Concurrent.client busy)) by (vm_compute; discriminate).
  pose proof (C9_one_retry_between_successes Example.manager 0 [] [] 0 []
                busy Concurrent.Call 1%nat 0%N None c w
                (mkExchange 100 (Response 401 None)) []) as (_ & _ & _ & Hstep & Hsolo).
  split.
  - split; [reflexivity|]. split; [exact Hrc|]. split; [exact Hpass|].
    exact (proj1 (Hsolo Hrc Hpass eq_refl eq_refl)).
  - split; [exact Hcall|]. split; [exact Hbusy|].
    exact (proj1 (Hstep Hcall Hbusy)).
Defined.

End CounterExamples.

Section ClassificationClaims.
Import Net HttpClient.

Context {engine : RegExp.Engine}.

Lemma settle_error status d error :
  settle (Response status d) = inr error ->
  AxiosError.response error = Some (AxiosResponse.mk status d)
  /\ (AxiosError.code error = Some "ERR_BAD_REQUEST"
      \/ AxiosError.code error = Some "ERR_BAD_RESPONSE"
      \/ AxiosError.code error = None).
Proof.
  unfold settle. destruct ((200 <=? status) && (status <? 300)); [discriminate|].
  intros [= <-]. cbn [AxiosError.response AxiosError.code]. split; [reflexivity|].
  destruct ((400 <=? status) && (status <? 500)); [auto|].
  destruct ((500 <=? status) && (status <? 600)); auto.
Qed.

(** What [handleResponseError] does with the error of a response whose
    status is not 401: one of five branches, chosen by the status. *)
Lemma handleResponseError_response resubmit status d error c w :
  settle (Response status d) = inr error ->
  status <> 401 ->
  handleResponseError resubmit error c w =
    (if status =? 403 then
       Rejected (mkAuthError FORBIDDEN
                   (Js.or_else d "Access forbidden. Check user permissions.") (Some 403))
     else if status =? 429 then
       Rejected (mkAuthError RATE_LIMITED
                   "Rate limit exceeded by WordPress server" (Some 429))
     else if 500 <=? status then
       Rejected (mkAuthError NETWORK_ERROR
                   ("WordPress server error (" ++ Js.show status ++ "): "
                      ++ Js.or_else d "Internal server error") (Some status))
     else if 400 <=? status then
       Rejected (mkAuthError UNKNOWN_ERROR
                   ("WordPress API error (" ++ Js.show status ++ "): "
                      ++ Js.or_else d "Bad request") (Some status))
     else fallback c (AxiosError.message error) (Some status),
     c, w).
Proof.
  intros Hsettle Hne.
  destruct (settle_error status d error Hsettle) as [Hresp Hcode].
  unfold handleResponseError. rewrite Hresp.
  cbn [option_map AxiosResponse.status AxiosResponse.dataMessage statusIs].
  destruct (Z.eqb_spec status 401) as [|_]; [contradiction|].
  destruct (status =? 403); [reflexivity|].
  destruct (status =? 429); [reflexivity|].
  assert (Hno : (codeIs "ECONNABORTED" (AxiosError.code error)
                 || codeIs "ETIMEDOUT" (AxiosError.code error) = false)
                /\ (codeIs "CERT_HAS_EXPIRED" (AxiosError.code error)
                    || codeIs "UNABLE_TO_VERIFY_LEAF_SIGNATURE" (AxiosError.code error)
                    = false)).
  { destruct Hcode as [ -> | [ -> | -> ] ]; split; reflexivity. }
  destruct Hno as [-> ->].
  destruct (500 <=? status); [reflexivity|].
  destruct (400 <=? status); reflexivity.
Qed.

Lemma requestInterceptor_config now c :
  AuthManager.config (authManager (snd (requestInterceptor now c)))
  = AuthManager.config (authManager c).
Proof.
  unfold requestInterceptor.
  pose proof (rateLimitStep_authManager now c) as Ham.
  destruct (rateLimitStep now c) as [[[]|e] c1]; cbn [snd] in Ham |- *;
    [|rewrite Ham; reflexivity].
  unfold authorize.
  destruct (negb (AuthManager.isAuthenticated now (authManager c1)));
    cbn [AuthManager.authenticate fst snd].
  - cbn [withAuthManager authManager AuthManager.config]. rewrite Ham. reflexivity.
  - destruct (AuthManager.getAuthorizationHeader (authManager c1));
      cbn [snd withAuthManager authManager]; rewrite Ham; reflexivity.
Qed.

Lemma wellFormedCredentials_config m1 m2 :
  AuthManager.config m1 = AuthManager.config m2 ->
  AuthManager.wellFormedCredentials m1 = AuthManager.wellFormedCredentials m2.
Proof. unfold AuthManager.wellFormedCredentials. intros ->. reflexivity. Qed.

(** A call ends with a [SyntaxError] only for a client whose user name or
    password the platform refuses as a pattern. *)
Lemma request_threw : forall fuel c w text,
  fst (fst (request fuel c w)) = Threw text ->
  AuthManager.wellFormedCredentials (authManager c) = false.
Proof.
  induction fuel as [|fuel IH]; intros c w text; [discriminate|].
  cbn [request].
  pose proof (requestInterceptor_config (clock w) c) as Hcfg.
  destruct (requestInterceptor (clock w) c) as [[h|e0] c1]; cbn [snd] in Hcfg.
  - destruct (wire w) as [|ex later]; [discriminate|].
    destruct (settle (reply ex)) as [resp|err]; [discriminate|].
    match goal with
    | |- context [handleResponseError ?k ?er ?cl ?wl] =>
        destruct (handleResponseError_cases k er cl wl)
          as [(_ & _ & ->)|[(e1 & c' & -> & _)|(text' & -> & Hw)]]
    end.
    + intros H. apply IH in H.
      rewrite <- H. apply wellFormedCredentials_config. rewrite <- Hcfg. reflexivity.
    + discriminate.
    + intros _. rewrite <- Hw. apply wellFormedCredentials_config.
      symmetry. exact Hcfg.
  - destruct (handleResponseError_cases (request fuel) (AxiosError.ofThrown e0) c1 w)
      as [(H401 & _)|[(e1 & c' & -> & _)|(text' & -> & Hw)]];
      [discriminate H401|discriminate|].
    intros _. rewrite <- Hw. apply wellFormedCredentials_config.
    symmetry. exact Hcfg.
Qed.

(** C3 (as amended).  Every [WordPressAuthError] a call ends with belongs
    to one of the categories INVALID_CREDENTIALS, UNAUTHORIZED, FORBIDDEN,
    TIMEOUT, NETWORK_ERROR, SSL_ERROR, RATE_LIMITED, UNKNOWN_ERROR; the
    taxonomy has no category for "not found".  A call ends with another
    error, the [SyntaxError] of [sanitizeErrorMessage], only for a client
    whose user name or password is not a well-formed pattern; for every other
    client each failure is classified.  A 404 is rejected as UNKNOWN_ERROR
    with status 404, like any 4xx other than 401, 403 and 429, with the
    message of the response body after the prefix "WordPress API error
    (status): "; a 403 as FORBIDDEN; a 429 as RATE_LIMITED without
    resubmission; a status of 500 or more as NETWORK_ERROR with that status.
    None of these touches the client or the world, so nothing is sent
    again. *)
Theorem C3_error_classification :
  forall (fuel : nat) (c : HttpClient.t) (w : World) (e : WordPressAuthError)
         (resubmit : HttpClient.t -> World -> Outcome * HttpClient.t * World)
         (status : Z) (d : option string) (error : AxiosError.t),
    (fst (fst (request fuel c w)) = Rejected e -> In (type e) surfaced)
    /\ (forall text,
          fst (fst (request fuel c w)) = Threw text ->
          AuthManager.wellFormedCredentials (authManager c) = false)
    /\ (settle (Response status d) = inr error ->
        (status = 404 ->
           handleResponseError resubmit error c w
           = (Rejected (mkAuthError UNKNOWN_ERROR
                          ("WordPress API error (404): " ++ Js.or_else d "Bad request")
                          (Some 404)), c, w))
        /\ (status = 403 ->
              handleResponseError resubmit error c w
              = (Rejected (mkAuthError FORBIDDEN
                             (Js.or_else d "Access forbidden. Check user permissions.")
                             (Some 403)), c, w))
        /\ (status = 429 ->
              handleResponseError resubmit error c w
              = (Rejected (mkAuthError RATE_LIMITED
                             "Rate limit exceeded by WordPress server" (Some 429)), c, w))
        /\ (500 <= status ->
              handleResponseError resubmit error c w
              = (Rejected (mkAuthError NETWORK_ERROR
                             ("WordPress server error (" ++ Js.show status ++ "): "
                                ++ Js.or_else d "Internal server error")
                             (Some status)), c, w))
        /\ (400 <= status < 500 -> status <> 401 -> status <> 403 -> status <> 429 ->
              handleResponseError resubmit error c w
              = (Rejected (mkAuthError UNKNOWN_ERROR
                             ("WordPress API error (" ++ Js.show status ++ "): "
                                ++ Js.or_else d "Bad request")
                             (Some status)), c, w))).
Proof.
  intros fuel c w e resubmit status d error. split; [|split].
  - apply request_classified.
  - intros text. apply request_threw.
  - intros Hsettle.
    pose proof (handleResponseError_response resubmit status d error c w Hsettle) as H.
    repeat split.
    + intros ->. rewrite H by lia. reflexivity.
    + intros ->. rewrite H by lia. reflexivity.
    + intros ->. rewrite H by lia. reflexivity.
    + intros Hge. rewrite H by lia.
      destruct (Z.eqb_spec status 403); [lia|].
      destruct (Z.eqb_spec status 429); [lia|].
      destruct (Z.leb_spec 500 status); [reflexivity|lia].
    + intros Hrange H401 H403 H429. rewrite H by exact H401.
      destruct (Z.eqb_spec status 403); [contradiction|].
      destruct (Z.eqb_spec status 429); [contradiction|].
      destruct (Z.leb_spec 500 status); [lia|].
      destruct (Z.leb_spec 400 status); [reflexivity|lia].
Qed.

(** C1 fails on the code.  The message of a 403, of a 4xx and of a 5xx
    response is copied from the response body without passing through
    [sanitizeErrorMessage]: a body that quotes the password and a Basic token is
    handed to the caller as it is.  The same text, when it is the message of a
    transport failure, reaches the branch that does sanitize. *)
Theorem C1_response_body_not_sanitized :
  let client := new Example.manager in
  let password := app_password Example.config in
  let message_of r :=
    match Example.outcome r with Rejected e => message e | _ => EmptyString end in
  let forbidden :=
    message_of (request 2 client (Example.world [Response 403 (Some Example.leak)])) in
  let conflict :=
    message_of (request 2 client (Example.world [Response 409 (Some Example.leak)])) in
  let unavailable :=
    message_of (request 2 client (Example.world [Response 503 (Some Example.leak)])) in
  let transport :=
    message_of (request 2 client (Example.world [Failure "ERR_NETWORK" Example.leak])) in
  forbidden = Example.leak
  /\ Js.includes password forbidden = true
  /\ Str.test Str.matchBasicToken forbidden = true
  /\ AuthManager.sanitizeErrorMessage Example.manager forbidden
     = RegExp.Returned
         "Sorry [USERNAME], the password [PASSWORD] sent as Basic [CREDENTIALS] was refused"
  /\ conflict = "WordPress API error (409): " ++ Example.leak
  /\ Js.includes password conflict = true
  /\ unavailable = "WordPress server error (503): " ++ Example.leak
  /\ Js.includes password unavailable = true
  /\ transport
     = "Sorry [USERNAME], the password [PASSWORD] sent as Basic [CREDENTIALS] was refused"
  /\ Js.includes password transport = false
  /\ Str.test Str.matchBasicToken transport = false.
Proof.
  intros client password message_of forbidden conflict unavailable transport.
  assert (Hforbidden : forbidden = Example.leak) by (vm_compute; reflexivity).
  assert (Hconflict : conflict = "WordPress API error (409): " ++ Example.leak)
    by (vm_compute; reflexivity).
  assert (Hunavailable : unavailable = "WordPress server error (503): " ++ Example.leak)
    by (vm_compute; reflexivity).
  assert (Hsanitized :
            forall m, AuthManager.config m = Example.config ->
              AuthManager.sanitizeErrorMessage m Example.leak
              = RegExp.Returned
                  "Sorry [USERNAME], the password [PASSWORD] sent as Basic [CREDENTIALS] was refused").
  { intros m Hm. rewrite sanitizeErrorMessage_plain.
    - unfold AuthManager.redacted. rewrite Hm. vm_compute. reflexivity.
    - unfold AuthManager.plainCredentials. rewrite Hm. reflexivity. }
  assert (Htransport :
            transport
            = "Sorry [USERNAME], the password [PASSWORD] sent as Basic [CREDENTIALS] was refused").
  { unfold transport, message_of, Example.outcome.
    cbv -[AuthManager.sanitizeErrorMessage Example.leak].
    rewrite Hsanitized by reflexivity. reflexivity. }
  rewrite Hforbidden, Hconflict, Hunavailable, Htransport.
  repeat split; try (vm_compute; reflexivity).
  apply Hsanitized. reflexivity.
Qed.

End ClassificationClaims.

Section ClassificationExamples.
Import Net HttpClient.

Lemma C3_witness :
  Example.outcome
    (request 2 (new Example.manager) (Example.world [Response 502 None]))
  = Rejected (mkAuthError NETWORK_ERROR
                "WordPress server error (502): Internal server error" (Some 502))
  /\ In NETWORK_ERROR surfaced.
Proof.
  assert (H : Example.outcome
                (request 2 (new Example.manager) (Example.world [Response 502 None]))
              = Rejected (mkAuthError NETWORK_ERROR
                            "WordPress server error (502): Internal server error"
                            (Some 502)))
    by reflexivity.
  split; [exact H|].
  exact (proj1 (C3_error_classification 2 (new Example.manager)
                  (Example.world [Response 502 None]) _
                  (request 1) 502 None (error401 None)) H).
Defined.

(** C3, as first stated, fails, in two ways.  The taxonomy has nine
    categories, none of them for "not found", and a 404 is rejected as
    UNKNOWN_ERROR, the category of a 418 as well.  And a client whose user
    name is not a well-formed pattern, which the constructor of the manager
    accepts, ends a call that meets a transport failure with a [SyntaxError],
    an error of no category. *)
Lemma C3_counterexample :
  let config :=
    mkConfig "https://example.com" "admin(" "abcd efgh ijkl mnop qrst uvwx" true 30000
      None in
  let manager := AuthManager.mk AuthState.empty config None in
  (forall t : AuthErrorType,
     In t [INVALID_CREDENTIALS; UNAUTHORIZED; FORBIDDEN; NETWORK_ERROR; TIMEOUT;
           INVALID_URL; SSL_ERROR; RATE_LIMITED; UNKNOWN_ERROR])
  /\ Example.outcome
       (request 2 (new Example.manager)
          (Example.world [Response 404 (Some "No route was found matching the URL")]))
     = Rejected (mkAuthError UNKNOWN_ERROR
                   "WordPress API error (404): No route was found matching the URL"
                   (Some 404))
  /\ Example.outcome
       (request 2 (new Example.manager)
          (Example.world [Response 418 (Some "I am a teapot")]))
     = Rejected (mkAuthError UNKNOWN_ERROR
                   "WordPress API error (418): I am a teapot" (Some 418))
  /\ AuthManager.new Url.parse config = Ok manager
  /\ RegExp.compiles "admin(" = false
  /\ exists text,
       Example.outcome
         (request 2 (new manager)
            (Example.world [Failure "ECONNRESET" "socket hang up"]))
       = Threw text.
Proof.
  intros config manager.
  split; [|split; [reflexivity|split; [reflexivity|split; [reflexivity|split]]]].
  - intros []; simpl; auto 10.
  - reflexivity.
  - eexists. reflexivity.
Qed.

End ClassificationExamples.

(* ================================================================= *)
(** * Part III: further properties of the code *)
(* ================================================================= *)

(** ** Rate limiter of the HTTP client, continued *)

Section RateLimiterWindow.
Import RateLimiter.

Lemma last_cons {A} (l : list A) : forall a d, last (a :: l) d = last l a.
Proof.
  induction l as [|b l IH]; intros a d; [reflexivity|].
  change (last (a :: b :: l) d) with (last (b :: l) d).
  rewrite (IH b d), (IH b a). reflexivity.
Qed.

(** Under a clock that does not go back, what is stored after a run of
    checks is the part of the let-through times that lies in the window of
    the latest check, and it never holds more entries than the limit. *)
Lemma checkAll_window_invariant cfg :
  0 < window_ms cfg ->
  forall ts prev hist rl,
    config rl = cfg ->
    Sorted Z.le (prev :: ts) ->
    requests rl = filter (fun t => prev - window_ms cfg <? t) hist ->
    Z.of_nat (List.length (requests rl)) <= Z.max 0 (requests_per_minute cfg) ->
    let r := checkAll ts rl in
    requests (snd r)
    = filter (fun t => last ts prev - window_ms cfg <? t) (hist ++ passed ts (fst r))%list
    /\ Z.of_nat (List.length (requests (snd r))) <= Z.max 0 (requests_per_minute cfg)
    /\ config (snd r) = cfg.
Proof.
  intros Hw. induction ts as [|now ts IH]; intros prev hist rl Hcfg Hsorted Hreq Hlen.
  - cbn [checkAll fst snd passed last]. rewrite app_nil_r. auto.
  - apply Sorted_inv in Hsorted. destruct Hsorted as [Hsorted Hhd].
    apply HdRel_inv in Hhd.
    assert (Hpruned : filter (fun time => now - window_ms cfg <? time) (requests rl)
                      = filter (fun t => now - window_ms cfg <? t) hist).
    { rewrite Hreq. apply filter_window_idem. exact Hhd. }
    pose proof (filter_length_le (fun time => now - window_ms cfg <? time) (requests rl))
      as Hshrink.
    cbn [checkAll]. unfold checkLimit. rewrite Hcfg, Hpruned.
    rewrite Hpruned in Hshrink.
    destruct (Z.leb_spec (requests_per_minute cfg)
                (Z.of_nat (List.length
                   (filter (fun t => now - window_ms cfg <? t) hist)))) as [Hfull|Hfree].
    + specialize (IH now hist
                    (mk (filter (fun t => now - window_ms cfg <? t) hist) cfg)
                    eq_refl Hsorted eq_refl ltac:(cbn [requests]; lia)).
      cbv zeta in IH.
      destruct (checkAll ts (mk (filter (fun t => now - window_ms cfg <? t) hist) cfg))
        as [rs rl2].
      cbn [fst snd passed] in *.
      rewrite last_cons.
      exact IH.
    + assert (Hnew : (filter (fun t => now - window_ms cfg <? t) hist ++ [now])%list
                     = filter (fun t => now - window_ms cfg <? t) (hist ++ [now])%list).
      { rewrite filter_app. cbn [filter].
        destruct (Z.ltb_spec (now - window_ms cfg) now); [reflexivity|lia]. }
      specialize (IH now (hist ++ [now])%list
                    (mk (filter (fun t => now - window_ms cfg <? t) hist ++ [now])%list cfg)
                    eq_refl Hsorted Hnew
                    ltac:(cbn [requests]; rewrite length_app; cbn [List.length]; lia)).
      cbv zeta in IH.
      destruct (checkAll ts
                  (mk (filter (fun t => now - window_ms cfg <? t) hist ++ [now])%list cfg))
        as [rs rl2].
      cbn [fst snd passed] in *.
      rewrite last_cons.
      rewrite <- app_assoc in IH. exact IH.
Qed.

(** X1.  The sliding-window guarantee.  On a new limiter, under a clock that
    does not go back and with a positive window, after every check the number
    of checks that were let through in the window ending at that check is at
    most the limit (none at all when the limit is not positive). *)
Theorem X1_sliding_window_bound :
  forall (cfg : RateLimitConfig) (times : list Z),
    0 < window_ms cfg ->
    Sorted Z.le times ->
    let results := fst (checkAll times (new cfg)) in
    let now := last times 0 in
    Z.of_nat (List.length
                (filter (fun t => now - window_ms cfg <? t) (passed times results)))
    <= Z.max 0 (requests_per_minute cfg).
Proof.
  intros cfg times Hw Hsorted results now.
  destruct times as [|t0 ts]; [cbn; lia|].
  assert (Hs : Sorted Z.le (t0 :: t0 :: ts)).
  { constructor; [exact Hsorted|]. constructor. lia. }
  destruct (checkAll_window_invariant cfg Hw (t0 :: ts) t0 [] (new cfg)
              eq_refl Hs eq_refl ltac:(cbn; lia)) as (Hreq & Hlen & _).
  cbn [app] in Hreq. fold results in Hreq.
  rewrite (last_cons ts t0 t0), <- (last_cons ts t0 0) in Hreq.
  fold now in Hreq. rewrite <- Hreq. exact Hlen.
Qed.

Lemma X1_witness :
  Z.of_nat (List.length
              (filter (fun t => 61000 - 60000 <? t)
                 (passed [0; 1000; 2000; 61000]
                    (fst (checkAll [0; 1000; 2000; 61000]
                            (new (mkRateLimitConfig 2 10 60000)))))))
  <= 2.
Proof.
  apply (X1_sliding_window_bound (mkRateLimitConfig 2 10 60000) [0; 1000; 2000; 61000]).
  - reflexivity.
  - repeat constructor; lia.
Defined.

(** X2.  The wait that a rejection announces is long enough.  For a limiter
    that holds no more entries than its limit, which is at least 1: a
    rejected check names a number of seconds, at least 1, and any check made
    that many seconds later, or later still, is let through. *)
Theorem X2_announced_wait_suffices :
  forall (now : Z) (rl rl' : t) (e : WordPressAuthError),
    1 <= requests_per_minute (config rl) ->
    Z.of_nat (List.length (requests rl)) <= requests_per_minute (config rl) ->
    checkLimit now rl = (Throw e, rl') ->
    exists seconds,
      message e = "Rate limit exceeded. Please wait " ++ Js.show seconds ++ " seconds."
      /\ 1 <= seconds
      /\ forall later, now + 1000 * seconds <= later ->
           fst (checkLimit later rl') = Ok tt.
Proof.
  intros now rl rl' e Hn Hlen H. unfold checkLimit in H.
  set (pruned := filter (fun time => now - window_ms (config rl) <? time) (requests rl)) in *.
  pose proof (filter_length_le (fun time => now - window_ms (config rl) <? time)
                (requests rl)) as Hshrink. fold pruned in Hshrink.
  destruct (Z.leb_spec (requests_per_minute (config rl)) (Z.of_nat (List.length pruned)))
    as [Hfull|]; [|discriminate].
  injection H as <- <-.
  destruct pruned as [|oldest rest] eqn:Hpruned; [cbn [List.length] in Hfull; lia|].
  assert (Hin : In oldest (oldest :: rest)) by (left; reflexivity).
  rewrite <- Hpruned in Hin. unfold pruned in Hin.
  apply filter_In in Hin. destruct Hin as [_ Hfresh]. apply Z.ltb_lt in Hfresh.
  exists (Js.ceil_div (window_ms (config rl) - (now - oldest)) 1000).
  pose proof (ceil_div_spec (window_ms (config rl) - (now - oldest)) 1000 ltac:(lia))
    as Hceil.
  split; [reflexivity|]. split; [lia|].
  intros later Hlater. unfold checkLimit. cbn [requests config filter].
  destruct (Z.ltb_spec (later - window_ms (config rl)) oldest) as [Hkeep|Hdrop]; [lia|].
  pose proof (filter_length_le (fun time => later - window_ms (config rl) <? time) rest)
    as Hrest.
  cbn [List.length] in Hshrink.
  destruct (Z.leb_spec (requests_per_minute (config rl))
              (Z.of_nat (List.length
                 (filter (fun time => later - window_ms (config rl) <? time) rest))));
    [lia|reflexivity].
Qed.

Lemma X2_witness :
  exists seconds,
    1 <= seconds
    /\ forall later, 3000 + 1000 * seconds <= later ->
         fst (checkLimit later (mk [1000; 2000] (mkRateLimitConfig 2 10 60000))) = Ok tt.
Proof.
  destruct (X2_announced_wait_suffices 3000
              (mk [1000; 2000] (mkRateLimitConfig 2 10 60000))
              (mk [1000; 2000] (mkRateLimitConfig 2 10 60000))
              (mkAuthError RATE_LIMITED "Rate limit exceeded. Please wait 58 seconds." None)
              ltac:(cbn; lia) ltac:(cbn; lia) eq_refl)
    as (seconds & _ & Hpos & Hlater).
  exists seconds. split; assumption.
Defined.

End RateLimiterWindow.

(** ** Authentication manager, continued *)

Section AuthManagerMore.
Import AuthManager.

Lemma replaceFirst_Basic (token : string) :
  Str.replaceFirst "Basic " "" ("Basic " ++ token) = token.
Proof. destruct token; reflexivity. Qed.

Lemma authenticate_header now m :
  getAuthorizationHeader (snd (authenticate now m)) = Ok (generateAuthHeader m).
Proof.
  cbn [authenticate snd getAuthorizationHeader authState AuthState.credentials
       Credentials.password].
  unfold generateAuthHeader. rewrite replaceFirst_Basic. reflexivity.
Qed.

(** X3.  The header round trip.  Right after [authenticate()],
    [getAuthorizationHeader()] returns the text of [generateAuthHeader()],
    that is "Basic " followed by the Base64 form of username:password; on a
    manager that was just constructed, and after [invalidateAuth()], it throws
    UNAUTHORIZED. *)
Theorem X3_authorization_header_round_trip :
  forall (parseURL : string -> Url.parsed) (cfg : WordPressConfig)
         (m m0 : AuthManager.t) (now : Z),
    (getAuthorizationHeader (snd (authenticate now m)) = Ok (generateAuthHeader m)
     /\ generateAuthHeader m
        = "Basic " ++ Str.base64 (Str.utf8 (username (config m) ++ ":"
                                             ++ app_password (config m))))
    /\ (exists e, getAuthorizationHeader (invalidateAuth m) = Throw e
                  /\ type e = UNAUTHORIZED)
    /\ (AuthManager.new parseURL cfg = Ok m0 ->
        exists e, getAuthorizationHeader m0 = Throw e /\ type e = UNAUTHORIZED).
Proof.
  intros parseURL cfg m m0 now.
  split; [split; [apply authenticate_header|reflexivity]|]. split.
  - eexists. split; reflexivity.
  - unfold AuthManager.new.
    destruct (validateConfiguration parseURL cfg); [|discriminate].
    intros [= <-]. eexists. split; reflexivity.
Qed.

Lemma X3_witness :
  getAuthorizationHeader (snd (authenticate 0 Example.manager))
  = Ok "Basic YWRtaW46YWJjZCBlZmdoIGlqa2wgbW5vcCBxcnN0IHV2d3g="
  /\ exists e, getAuthorizationHeader Example.manager = Throw e /\ type e = UNAUTHORIZED.
Proof.
  destruct (X3_authorization_header_round_trip Url.parse Example.config
              Example.manager Example.manager 0) as ((H1 & _) & _ & H3).
  split; [exact H1|]. apply H3. reflexivity.
Defined.

(** X4.  [needsReAuth()] and [isAuthenticated()] part ways once the cache
    has run out.  Whenever [needsReAuth()] says no, [isAuthenticated()] says
    yes; after [authenticate()] at time [t0], [needsReAuth()] says yes exactly
    when more than five minutes have passed, while [isAuthenticated()] goes on
    saying yes. *)
Theorem X4_needsReAuth_after_five_minutes :
  forall (m : AuthManager.t) (t0 now : Z),
    (needsReAuth now m = false -> isAuthenticated now m = true)
    /\ needsReAuth now (snd (authenticate t0 m)) = (300000 <? now - t0)
    /\ (300000 < now - t0 ->
        needsReAuth now (snd (authenticate t0 m)) = true
        /\ isAuthenticated now (snd (authenticate t0 m)) = true)
    /\ needsReAuth now (invalidateAuth m) = true.
Proof.
  intros m t0 now. split; [|split; [reflexivity|split; [|reflexivity]]].
  - rewrite isAuthenticated_flag. unfold needsReAuth.
    destruct (AuthState.isAuthenticated (authState m)); [reflexivity|discriminate].
  - intros Hlate. split; [|rewrite isAuthenticated_flag; reflexivity].
    cbn [needsReAuth authenticate snd authState AuthState.isAuthenticated negb
         lastAuthCheck]. unfold AUTH_CACHE_DURATION.
    apply Z.ltb_lt. exact Hlate.
Qed.

Lemma X4_witness :
  needsReAuth 400000 (snd (authenticate 0 Example.manager)) = true
  /\ isAuthenticated 400000 (snd (authenticate 0 Example.manager)) = true.
Proof.
  apply (X4_needsReAuth_after_five_minutes Example.manager 0 400000). lia.
Defined.

(** X5.  [updateConfig()] replaces the configuration before it validates
    it.  When the new configuration is refused, the call throws and the
    manager keeps the refused configuration together with the old
    authentication state, so it still hands out the header of the old
    credentials.  When it is accepted, the manager is authenticated and hands
    out the header of the new configuration. *)
Theorem X5_updateConfig_replaces_before_validating :
  forall (parseURL : string -> Url.parsed) (now : Z)
         (newConfig : WordPressConfig) (m : AuthManager.t),
    let r := updateConfig parseURL now newConfig m in
    config (snd r) = newConfig
    /\ (forall e, validateConfiguration parseURL newConfig = Throw e ->
          fst r = Throw e
          /\ authState (snd r) = authState m
          /\ getAuthorizationHeader (snd r) = getAuthorizationHeader m
          /\ isAuthenticated now (snd r) = isAuthenticated now m)
    /\ (validateConfiguration parseURL newConfig = Ok tt ->
          fst r = Ok tt
          /\ isAuthenticated now (snd r) = true
          /\ getAuthorizationHeader (snd r)
             = Ok ("Basic " ++ Str.base64 (Str.utf8 (username newConfig ++ ":"
                                                      ++ app_password newConfig)))).
Proof.
  intros parseURL now newConfig m r. unfold r, updateConfig.
  destruct (validateConfiguration parseURL newConfig) as [[]|e0].
  - split; [reflexivity|]. split; [discriminate|]. intros _.
    split; [reflexivity|]. split; [rewrite isAuthenticated_flag; reflexivity|].
    rewrite authenticate_header. reflexivity.
  - split; [reflexivity|]. split; [|discriminate].
    intros e [= <-]. repeat split.
Qed.

Lemma X5_witness :
  let stale := mkConfig "http://example.com" "root" "short" true 30000 None in
  let m := snd (authenticate 0 Example.manager) in
  let r := updateConfig Url.parse 10 stale m in
  config (snd r) = stale
  /\ getAuthorizationHeader (snd r)
     = Ok "Basic YWRtaW46YWJjZCBlZmdoIGlqa2wgbW5vcCBxcnN0IHV2d3g=".
Proof.
  cbv zeta.
  destruct (X5_updateConfig_replaces_before_validating Url.parse 10
              (mkConfig "http://example.com" "root" "short" true 30000 None)
              (snd (authenticate 0 Example.manager))) as (Hcfg & Hbad & _).
  split; [exact Hcfg|].
  destruct (Hbad _ eq_refl) as (_ & _ & Hheader & _).
  rewrite Hheader. reflexivity.
Defined.

(** A global replacement changes nothing when the expression matches
    nowhere. *)
Lemma replaceAll_no_match matchAt repl : forall s,
  Str.test matchAt s = false -> Str.replaceAll matchAt repl O s = s.
Proof.
  induction s as [|c s IH]; cbn [Str.test Str.replaceAll].
  - destruct (matchAt EmptyString); [discriminate|reflexivity].
  - destruct (matchAt (String c s)); [discriminate|].
    intros H. rewrite (IH H). reflexivity.
Qed.

(** X6.  For a user name and a password that are plain-text patterns
    (none of their characters has a meaning of its own in a regular
    expression), [sanitizeErrorMessage] returns a message as it is when the
    message contains, up to case, neither the user name nor the password and
    has no Basic token. *)
Theorem X6_sanitize_keeps_clean_messages {engine : RegExp.Engine} :
  forall (m : AuthManager.t) (msg : string),
    plainCredentials m = true ->
    Str.test (Str.matchLiteralCI (username (config m))) msg = false ->
    Str.test (Str.matchLiteralCI (app_password (config m))) msg = false ->
    Str.test Str.matchBasicToken msg = false ->
    sanitizeErrorMessage m msg = RegExp.Returned msg.
Proof.
  intros m msg Hplain Hu Hp Hb. rewrite (sanitizeErrorMessage_plain m msg Hplain).
  unfold redacted.
  rewrite (replaceAll_no_match _ _ _ Hu).
  rewrite (replaceAll_no_match _ _ _ Hp).
  rewrite (replaceAll_no_match _ _ _ Hb). reflexivity.
Qed.

Lemma X6_witness :
  plainCredentials Example.manager = true
  /\ sanitizeErrorMessage Example.manager "Request failed with status code 304"
     = RegExp.Returned "Request failed with status code 304".
Proof.
  split; [reflexivity|].
  apply (X6_sanitize_keeps_clean_messages Example.manager); reflexivity.
Defined.

(** X8.  Whether the constructor accepts a configuration depends on the site
    URL and the password only: the user name, the SSL flag, the timeout and
    the rate limit policy never make it throw, and warnings never block. *)
Theorem X8_construction_depends_on_url_and_password :
  forall (parseURL : string -> Url.parsed) (cfg1 cfg2 : WordPressConfig),
    site_url cfg1 = site_url cfg2 ->
    app_password cfg1 = app_password cfg2 ->
    (validateConfiguration parseURL cfg1 = validateConfiguration parseURL cfg2)
    /\ ((exists m1, AuthManager.new parseURL cfg1 = Ok m1)
        <-> (exists m2, AuthManager.new parseURL cfg2 = Ok m2))
    /\ isSecure (validateSecurity parseURL cfg1) = isSecure (validateSecurity parseURL cfg2)
    /\ issues (validateSecurity parseURL cfg1) = issues (validateSecurity parseURL cfg2).
Proof.
  intros parseURL cfg1 cfg2 Hurl Hpw.
  assert (Hissues : issues (validateSecurity parseURL cfg1)
                    = issues (validateSecurity parseURL cfg2)).
  { unfold validateSecurity. rewrite Hurl.
    destruct (parseURL (site_url cfg2)) as [url|msg]; reflexivity. }
  assert (Hval : validateConfiguration parseURL cfg1 = validateConfiguration parseURL cfg2).
  { rewrite !validateConfiguration_cases, Hurl, Hpw, Hissues. reflexivity. }
  split; [exact Hval|]. split; [|split; [|exact Hissues]].
  - unfold AuthManager.new. rewrite Hval.
    destruct (validateConfiguration parseURL cfg2); cbn [bind].
    + split; intros _; eexists; reflexivity.
    + split; intros [x Hx]; discriminate Hx.
  - rewrite !validateSecurity_isSecure, Hurl. reflexivity.
Qed.

Lemma X8_witness :
  exists m,
    AuthManager.new Url.parse
      (mkConfig "https://example.com" "" "abcd efgh ijkl mnop qrst uvwx" false (-5) None)
    = Ok m.
Proof.
  apply (proj1 (proj1 (proj2 (X8_construction_depends_on_url_and_password Url.parse
                                Example.config
                                (mkConfig "https://example.com" ""
                                   "abcd efgh ijkl mnop qrst uvwx" false (-5) None)
                                eq_refl eq_refl)))).
  exists Example.manager. reflexivity.
Defined.

Lemma dropTrailingSlash_app_slash s : Str.dropTrailingSlash (s ++ "/") = s.
Proof.
  induction s as [|c s IH]; [reflexivity|].
  cbn [append Str.dropTrailingSlash]. rewrite IH.
  destruct s; reflexivity.
Qed.

Lemma dropTrailingSlash_none s :
  Str.endsWithSlash s = false -> Str.dropTrailingSlash s = s.
Proof.
  induction s as [|c s IH]; [reflexivity|].
  cbn [Str.endsWithSlash Str.dropTrailingSlash].
  destruct s as [|c' s'].
  - intros ->. reflexivity.
  - intros H. rewrite (IH H). reflexivity.
Qed.

(** X9.  [getApiBaseUrl()] removes one slash from the end of the site URL
    before it adds the REST prefix: a site URL gives the same base URL with and
    without a final slash, and only one slash is removed. *)
Theorem X9_api_base_url_trailing_slash :
  forall (m : AuthManager.t) (s : string),
    (site_url (config m) = s ++ "/" -> getApiBaseUrl m = s ++ "/wp-json/wp/v2")
    /\ (site_url (config m) = s -> Str.endsWithSlash s = false ->
        getApiBaseUrl m = s ++ "/wp-json/wp/v2").
Proof.
  intros m s. unfold getApiBaseUrl. split.
  - intros ->. rewrite dropTrailingSlash_app_slash. reflexivity.
  - intros -> H. rewrite (dropTrailingSlash_none _ H). reflexivity.
Qed.

Lemma X9_witness :
  getApiBaseUrl (AuthManager.mk AuthState.empty
                   (mkConfig "https://example.com/" "admin" "x" true 30000 None) None)
  = getApiBaseUrl Example.manager.
Proof.
  rewrite (proj1 (X9_api_base_url_trailing_slash
                    (AuthManager.mk AuthState.empty
                       (mkConfig "https://example.com/" "admin" "x" true 30000 None) None)
                    "https://example.com") eq_refl).
  reflexivity.
Defined.

End AuthManagerMore.

(** ** The Basic token of the manager and the expression that redacts it *)

Section HeaderRedaction.
Import AuthManager.

Lemma base64Digit_isBase64 n : Chars.isBase64 (Str.base64Digit n) = true.
Proof.
  unfold Str.base64Digit. generalize (N.to_nat n). intros k.
  do 64 (destruct k as [|k]; [reflexivity|]). reflexivity.
Qed.

Lemma base64_isBase64_bounded : forall (n : nat) (bytes : list N),
  (List.length bytes <= n)%nat -> Str.forallb Chars.isBase64 (Str.base64 bytes) = true.
Proof.
  induction n as [|n IH]; intros bytes Hlen.
  - destruct bytes; [reflexivity|cbn in Hlen; lia].
  - destruct bytes as [|a [|b [|c rest]]]; cbn [Str.base64 Str.forallb];
      rewrite ?base64Digit_isBase64; try reflexivity.
    apply IH. cbn [List.length] in Hlen. lia.
Qed.

Lemma base64_isBase64 bytes : Str.forallb Chars.isBase64 (Str.base64 bytes) = true.
Proof. apply (base64_isBase64_bounded (List.length bytes)). lia. Qed.

Lemma base64_nonempty bytes :
  bytes <> [] -> exists c rest, Str.base64 bytes = String c rest.
Proof.
  destruct bytes as [|a [|b [|c rest]]]; [congruence| | |];
    intros _; cbn [Str.base64]; eexists; eexists; reflexivity.
Qed.

Lemma utf8_app s1 s2 : Str.utf8 (s1 ++ s2) = (Str.utf8 s1 ++ Str.utf8 s2)%list.
Proof.
  induction s1 as [|c s1 IH]; [reflexivity|].
  cbn [append Str.utf8]. rewrite IH.
  destruct (Chars.code c <? 128)%N; reflexivity.
Qed.

Lemma isBase64_not_space c : Chars.isBase64 c = true -> Chars.isSpace c = false.
Proof.
  destruct c as [[] [] [] [] [] [] [] []]; vm_compute; congruence.
Qed.

Lemma span_all p s : Str.forallb p s = true -> Str.span p s = String.length s.
Proof.
  induction s as [|c s IH]; [reflexivity|].
  cbn [Str.forallb Str.span String.length]. intros H.
  apply andb_prop in H. destruct H as [-> H]. rewrite (IH H). reflexivity.
Qed.

Lemma replaceAll_skip matchAt repl : forall s,
  matchAt EmptyString = None ->
  Str.replaceAll matchAt repl (String.length s) s = EmptyString.
Proof.
  intros s Hend. induction s as [|c s IH].
  - cbn [String.length Str.replaceAll]. rewrite Hend. reflexivity.
  - cbn [String.length Str.replaceAll]. exact IH.
Qed.

Lemma append_empty_r s : s ++ EmptyString = s.
Proof. induction s as [|c s IH]; [reflexivity|]. cbn [append]. rewrite IH. reflexivity. Qed.

(** A match that covers the whole text is replaced by the replacement
    alone. *)
Lemma replaceAll_whole matchAt repl c s :
  matchAt (String c s) = Some (S (String.length s)) ->
  matchAt EmptyString = None ->
  Str.replaceAll matchAt repl O (String c s) = repl.
Proof.
  intros Hmatch Hend. cbn [Str.replaceAll]. rewrite Hmatch.
  rewrite (replaceAll_skip matchAt repl s Hend). apply append_empty_r.
Qed.

(** The expression for Basic tokens matches a header made of the word
    Basic, a space and Base64 digits, and it matches all of it. *)
Lemma matchBasicToken_header c token :
  Str.forallb Chars.isBase64 (String c token) = true ->
  Str.matchBasicToken ("Basic " ++ String c token)
  = Some (6 + String.length (String c token))%nat.
Proof.
  intros Hall.
  assert (Hc : Chars.isBase64 c = true).
  { cbn [Str.forallb] in Hall. apply andb_prop in Hall. tauto. }
  unfold Str.matchBasicToken.
  change (Str.prefixCI "Basic" ("Basic " ++ String c token)) with true.
  cbv iota.
  change (Str.drop 5 ("Basic " ++ String c token)) with (String " " (String c token)).
  cbv zeta.
  replace (Str.span Chars.isSpace (String " " (String c token))) with 1%nat
    by (cbn [Str.span]; change (Chars.isSpace " ") with true; cbv iota;
        rewrite (isBase64_not_space c Hc); reflexivity).
  change (Str.drop 1 (String " " (String c token))) with (String c token).
  rewrite (span_all _ _ Hall). reflexivity.
Qed.

(** With plain-text patterns, the header of the manager goes through
    [sanitizeErrorMessage] as a whole when neither the user name nor the
    password occurs in its text. *)
Lemma sanitizeErrorMessage_own_header {engine : RegExp.Engine} :
  forall (m : AuthManager.t),
    plainCredentials m = true ->
    Str.test (Str.matchLiteralCI (username (config m))) (generateAuthHeader m) = false ->
    Str.test (Str.matchLiteralCI (app_password (config m))) (generateAuthHeader m) = false ->
    sanitizeErrorMessage m (generateAuthHeader m) = RegExp.Returned "Basic [CREDENTIALS]".
Proof.
  intros m Hplain Hu Hp. rewrite (sanitizeErrorMessage_plain m _ Hplain). f_equal.
  unfold redacted.
  rewrite (replaceAll_no_match _ _ _ Hu), (replaceAll_no_match _ _ _ Hp).
  unfold generateAuthHeader.
  destruct (base64_nonempty
              (Str.utf8 (username (config m) ++ ":" ++ app_password (config m))))
    as (c & token & Htoken).
  { rewrite utf8_app. intros H. apply app_eq_nil in H. destruct H as [_ H].
    rewrite utf8_app in H. apply app_eq_nil in H. destruct H as [H _].
    discriminate H. }
  pose proof (base64_isBase64
                (Str.utf8 (username (config m) ++ ":" ++ app_password (config m))))
    as Hall.
  rewrite Htoken in *.
  pose proof (matchBasicToken_header c token Hall) as Hmatch.
  apply (replaceAll_whole Str.matchBasicToken "Basic [CREDENTIALS]"
           "B" ("asic " ++ String c token)); [exact Hmatch|reflexivity].
Qed.

(** X7.  The manager's own header is redacted as a whole.  For a user name
    and a password that are plain-text patterns and that do not occur, up to
    case, in the text of the header, [sanitizeErrorMessage] turns the header
    that [generateAuthHeader()] produces into "Basic [CREDENTIALS]": nothing
    of the Base64 token is left. *)
Theorem X7_own_header_is_redacted {engine : RegExp.Engine} :
  forall (m : AuthManager.t),
    plainCredentials m = true ->
    Str.test (Str.matchLiteralCI (username (config m))) (generateAuthHeader m) = false ->
    Str.test (Str.matchLiteralCI (app_password (config m))) (generateAuthHeader m) = false ->
    sanitizeErrorMessage m (generateAuthHeader m) = RegExp.Returned "Basic [CREDENTIALS]".
Proof. exact sanitizeErrorMessage_own_header. Qed.

Lemma X7_witness :
  plainCredentials Example.manager = true
  /\ sanitizeErrorMessage Example.manager
       "Basic YWRtaW46YWJjZCBlZmdoIGlqa2wgbW5vcCBxcnN0IHV2d3g="
     = RegExp.Returned "Basic [CREDENTIALS]".
Proof.
  split; [reflexivity|].
  apply (X7_own_header_is_redacted Example.manager); reflexivity.
Defined.

End HeaderRedaction.

(** ** HTTP client, continued *)

Section HttpClientMore.
Import Net HttpClient.

(** X10.  A rejection by the local rate limiter does not reach the caller as
    RATE_LIMITED.  The error thrown in the request interceptor goes, by the
    promise chain of the HTTP library, to [handleResponseError], which finds
    neither a status nor a code on it and hands its message to
    [sanitizeErrorMessage]: the call ends with UNKNOWN_ERROR and the sanitized
    message of the limiter, or, when the user name or the password is not a
    well-formed pattern, with the [SyntaxError] of [sanitizeErrorMessage].
    Nothing is sent and the retry counter is left alone.  For a user name and
    a password that are plain-text patterns the first case applies. *)
Theorem X10_local_rejection_surfaces_as_unknown {engine : RegExp.Engine} :
  forall (fuel : nat) (c : HttpClient.t) (w : World)
         (rl rl' : RateLimiter.t) (e : WordPressAuthError),
    rateLimiter c = Some rl ->
    RateLimiter.checkLimit (clock w) rl = (Throw e, rl') ->
    type e = RATE_LIMITED
    /\ request (S fuel) c w
       = (match AuthManager.sanitizeErrorMessage (authManager c) (message e) with
          | RegExp.Returned text => Rejected (mkAuthError UNKNOWN_ERROR text None)
          | RegExp.SyntaxError text => Threw text
          end,
          withRateLimiter rl' c, w)
    /\ (AuthManager.plainCredentials (authManager c) = true ->
        request (S fuel) c w
        = (Rejected (mkAuthError UNKNOWN_ERROR
                       (AuthManager.redacted (authManager c) (message e)) None),
           withRateLimiter rl' c, w)).
Proof.
  intros fuel c w rl rl' e Hrl Hcheck.
  assert (Hrequest :
            request (S fuel) c w
            = (match AuthManager.sanitizeErrorMessage (authManager c) (message e) with
               | RegExp.Returned text => Rejected (mkAuthError UNKNOWN_ERROR text None)
               | RegExp.SyntaxError text => Threw text
               end,
               withRateLimiter rl' c, w)).
  { cbn [request]. unfold requestInterceptor, rateLimitStep.
    rewrite Hrl, Hcheck. reflexivity. }
  split; [|split; [exact Hrequest|]].
  - unfold RateLimiter.checkLimit in Hcheck.
    destruct (_ <=? _) in Hcheck; [|discriminate].
    injection Hcheck as <- _. reflexivity.
  - intros Hplain. rewrite Hrequest, (sanitizeErrorMessage_plain _ _ Hplain). reflexivity.
Qed.

Lemma X10_witness :
  let c := withRateLimiter
             (RateLimiter.mk [0; 10] (mkRateLimitConfig 2 10 60000))
             (new Example.manager) in
  Example.outcome
    (request 2 c (mkWorld 20 [mkExchange 100 (Response 200 None)] []))
  = Rejected (mkAuthError UNKNOWN_ERROR
                "Rate limit exceeded. Please wait 60 seconds." None).
Proof.
  cbv zeta.
  rewrite (proj1 (proj2 (X10_local_rejection_surfaces_as_unknown 1
                    (withRateLimiter
                       (RateLimiter.mk [0; 10] (mkRateLimitConfig 2 10 60000))
                       (new Example.manager))
                    (mkWorld 20 [mkExchange 100 (Response 200 None)] [])
                    (RateLimiter.mk [0; 10] (mkRateLimitConfig 2 10 60000))
                    (RateLimiter.mk [0; 10] (mkRateLimitConfig 2 10 60000))
                    (mkAuthError RATE_LIMITED
                       "Rate limit exceeded. Please wait 60 seconds." None)
                    eq_refl eq_refl))).
  reflexivity.
Defined.

Lemma generateAuthHeader_config m1 m2 :
  AuthManager.config m1 = AuthManager.config m2 ->
  AuthManager.generateAuthHeader m1 = AuthManager.generateAuthHeader m2.
Proof. unfold AuthManager.generateAuthHeader. intros ->. reflexivity. Qed.

Lemma authenticate_credentials now m credentials :
  AuthState.credentials (AuthManager.authState (snd (AuthManager.authenticate now m)))
  = Some credentials ->
  "Basic " ++ Credentials.password credentials
  = AuthManager.generateAuthHeader (snd (AuthManager.authenticate now m)).
Proof.
  intros H. pose proof (authenticate_header now m) as Hheader.
  unfold AuthManager.getAuthorizationHeader in Hheader. rewrite H in Hheader.
  injection Hheader as ->. reflexivity.
Qed.

Lemma holdsHeaderOf_retrying cfg now c :
  AuthManager.config (authManager c) = cfg -> holdsHeaderOf cfg (retrying now c).
Proof.
  intros Hcfg. unfold holdsHeaderOf, retrying.
  cbn [withAuthManager withRetryCount authManager].
  split; [exact Hcfg|]. split; [intros _; discriminate|].
  apply authenticate_credentials.
Qed.

Lemma holdsHeaderOf_invalidated cfg c :
  holdsHeaderOf cfg c ->
  holdsHeaderOf cfg (withAuthManager (AuthManager.invalidateAuth (authManager c)) c).
Proof.
  intros (Hcfg & _ & _). unfold holdsHeaderOf.
  cbn [withAuthManager authManager AuthManager.invalidateAuth AuthManager.config
       AuthManager.authState AuthState.empty AuthState.credentials].
  split; [exact Hcfg|]. split; [intros H; discriminate H|]. intros cr H. discriminate H.
Qed.

(** The request interceptor attaches the header of the configuration. *)
Lemma requestInterceptor_header cfg now c :
  holdsHeaderOf cfg c ->
  holdsHeaderOf cfg (snd (requestInterceptor now c))
  /\ forall h, fst (requestInterceptor now c) = Ok h ->
       h = "Basic " ++ Str.base64 (Str.utf8 (username cfg ++ ":" ++ app_password cfg)).
Proof.
  intros (Hcfg & Hcons & Hcred). unfold requestInterceptor.
  pose proof (rateLimitStep_authManager now c) as Ham.
  destruct (rateLimitStep now c) as [[[]|e] c1]; cbn [snd] in Ham.
  - unfold authorize. rewrite Ham.
    destruct (AuthManager.isAuthenticated now (authManager c)) eqn:Hflag; cbn [negb].
    + rewrite isAuthenticated_flag in Hflag.
      unfold AuthManager.getAuthorizationHeader.
      destruct (AuthState.credentials (AuthManager.authState (authManager c)))
        as [cr|] eqn:Hcr; [|exfalso; exact (Hcons Hflag Hcr)].
      cbn [fst snd]. split.
      * unfold holdsHeaderOf. cbn [withAuthManager authManager].
        split; [exact Hcfg|]. split; [exact Hcons|]. rewrite Hcr. exact Hcred.
      * intros h Hh.
        assert (Heq : h = AuthManager.generateAuthHeader (authManager c))
          by (rewrite <- (Hcred cr eq_refl); congruence).
        rewrite Heq. unfold AuthManager.generateAuthHeader. rewrite Hcfg. reflexivity.
    + pose proof (authenticate_header now (authManager c)) as Hheader.
      pose proof (authenticate_credentials now (authManager c)) as Hfresh.
      assert (Hr : fst (AuthManager.authenticate now (authManager c)) = Ok tt)
        by reflexivity.
      assert (Hsame : AuthManager.config (snd (AuthManager.authenticate now (authManager c)))
                      = AuthManager.config (authManager c)) by reflexivity.
      assert (Hheld : AuthManager.consistent
                        (snd (AuthManager.authenticate now (authManager c))))
        by (intros _; discriminate).
      destruct (AuthManager.authenticate now (authManager c)) as [r am'].
      cbn [fst snd] in *. subst r. split.
      * unfold holdsHeaderOf. cbn [snd withAuthManager authManager].
        split; [congruence|]. split; [exact Hheld|exact Hfresh].
      * cbn [fst]. intros h Hh. rewrite Hheader in Hh.
        assert (Heq : h = AuthManager.generateAuthHeader (authManager c)) by congruence.
        rewrite Heq. unfold AuthManager.generateAuthHeader. rewrite Hcfg. reflexivity.
  - cbn [fst snd]. split; [|discriminate].
    unfold holdsHeaderOf. rewrite Ham. auto.
Qed.

Lemma request_header {engine : RegExp.Engine} cfg : forall fuel c w,
  holdsHeaderOf cfg c ->
  (forall h, In (Dispatched h) (trace w) ->
     h = "Basic " ++ Str.base64 (Str.utf8 (username cfg ++ ":" ++ app_password cfg))) ->
  holdsHeaderOf cfg (snd (fst (request fuel c w)))
  /\ (forall h, In (Dispatched h) (trace (snd (request fuel c w))) ->
        h = "Basic " ++ Str.base64 (Str.utf8 (username cfg ++ ":" ++ app_password cfg))).
Proof.
  induction fuel as [|fuel IH]; intros c w Hc Hw; [split; assumption|].
  cbn [request].
  destruct (requestInterceptor_header cfg (clock w) c Hc) as [Hc1 Hh].
  destruct (requestInterceptor (clock w) c) as [[h0|e0] c1]; cbn [fst snd] in Hc1, Hh.
  - destruct (wire w) as [|ex later]; [split; assumption|].
    assert (Hw1 : forall h, In (Dispatched h) (Dispatched h0 :: trace w) ->
              h = "Basic " ++ Str.base64 (Str.utf8 (username cfg ++ ":"
                                                     ++ app_password cfg))).
    { intros h [[= <-]|Hin]; [apply Hh; reflexivity|apply Hw; exact Hin]. }
    destruct (settle (reply ex)) as [resp|err].
    + cbn [fst snd record trace]. split.
      * destruct Hc1 as (H1 & H2 & H3). unfold holdsHeaderOf. auto.
      * intros h [Hev|Hin]; [discriminate Hev|apply Hw1; exact Hin].
    + match goal with
      | |- context [handleResponseError ?k ?er ?cl ?wl] =>
          destruct (handleResponseError_cases k er cl wl)
            as [(_ & _ & ->)|[(e & c' & -> & _ & _ & _ & _ & Hc')|(text & -> & _)]]
      end.
      * apply IH.
        -- apply holdsHeaderOf_retrying. exact (proj1 Hc1).
        -- cbn [record trace]. intros h [Hev|Hin]; [discriminate Hev|apply Hw1; exact Hin].
      * cbn [fst snd trace]. split; [|exact Hw1].
        destruct Hc' as [->| ->]; [exact Hc1|apply holdsHeaderOf_invalidated; exact Hc1].
      * cbn [fst snd trace]. split; [exact Hc1|exact Hw1].
  - destruct (handleResponseError_cases (request fuel) (AxiosError.ofThrown e0) c1 w)
      as [(H401 & _)|[(e & c' & -> & _ & _ & _ & _ & Hc')|(text & -> & _)]];
      [discriminate H401| |cbn [fst snd]; split; [exact Hc1|exact Hw]].
    cbn [fst snd]. split; [|exact Hw].
    destruct Hc' as [->| ->]; [exact Hc1|apply holdsHeaderOf_invalidated; exact Hc1].
Qed.

Lemma session_header {engine : RegExp.Engine} cfg fuel : forall idle c w,
  holdsHeaderOf cfg c ->
  (forall h, In (Dispatched h) (trace w) ->
     h = "Basic " ++ Str.base64 (Str.utf8 (username cfg ++ ":" ++ app_password cfg))) ->
  forall h, In (Dispatched h) (trace (snd (session fuel idle c w))) ->
    h = "Basic " ++ Str.base64 (Str.utf8 (username cfg ++ ":" ++ app_password cfg)).
Proof.
  induction idle as [|ms idle IH]; intros c w Hc Hw; [exact Hw|].
  cbn [session].
  destruct (request_header cfg fuel c (advance ms w) Hc Hw) as [Hc1 Hw1].
  destruct (request fuel c (advance ms w)) as [[o c1] w1]. cbn [fst snd] in Hc1, Hw1.
  specialize (IH c1 w1 Hc1 Hw1).
  destruct (session fuel idle c1 w1) as [[os c2] w2]. exact IH.
Qed.

(** X11.  Every request that a client built on a newly constructed manager
    puts on the wire, first attempts and retries alike, carries the header
    "Basic " followed by the Base64 form of username:password of the
    configuration. *)
Theorem X11_every_request_carries_the_header {engine : RegExp.Engine} :
  forall (parseURL : string -> Url.parsed) (cfg : WordPressConfig) (am : AuthManager.t)
         (fuel : nat) (idle : list Z) (clock0 : Z) (wire0 : list Exchange) (h : string),
    AuthManager.new parseURL cfg = Ok am ->
    In (Dispatched h)
       (trace (snd (session fuel idle (new am) (mkWorld clock0 wire0 [])))) ->
    h = "Basic " ++ Str.base64 (Str.utf8 (username cfg ++ ":" ++ app_password cfg)).
Proof.
  intros parseURL cfg am fuel idle clock0 wire0 h Hnew.
  apply (session_header cfg fuel idle (new am) (mkWorld clock0 wire0 [])).
  - unfold AuthManager.new in Hnew.
    destruct (AuthManager.validateConfiguration parseURL cfg); [|discriminate].
    injection Hnew as <-. unfold holdsHeaderOf.
    cbn [new authManager AuthManager.config AuthManager.authState AuthState.empty
         AuthState.credentials].
    split; [reflexivity|]. split; [intros H; discriminate H|]. intros cr H. discriminate H.
  - intros h0 [].
Qed.

Lemma X11_witness :
  let header := "Basic YWRtaW46YWJjZCBlZmdoIGlqa2wgbW5vcCBxcnN0IHV2d3g=" in
  let after :=
    trace (snd (session 2 [0; 0] (new Example.manager)
                  (Example.world [Response 401 None; Response 200 None;
                                  Response 200 None]))) in
  after = [Succeeded; Dispatched header; Succeeded; Dispatched header; Retried;
           Dispatched header]
  /\ header
     = "Basic " ++ Str.base64 (Str.utf8 (username Example.config ++ ":"
                                          ++ app_password Example.config)).
Proof.
  intros header after.
  assert (Hafter : after = [Succeeded; Dispatched header; Succeeded; Dispatched header;
                            Retried; Dispatched header]) by reflexivity.
  split; [exact Hafter|].
  apply (X11_every_request_carries_the_header Url.parse Example.config Example.manager
           2 [0; 0] 0
           (map (mkExchange 100) [Response 401 None; Response 200 None; Response 200 None])
           header eq_refl).
  change (In (Dispatched header) after). rewrite Hafter. right. left. reflexivity.
Defined.

End HttpClientMore.

Section HttpClientCalls.
Import Net HttpClient.

(** What [handleResponseError] does with a failure without response: one
    of three branches, chosen by the code. *)
Lemma handleResponseError_failure {engine : RegExp.Engine} resubmit code msg error c w :
  settle (Failure code msg) = inr error ->
  handleResponseError resubmit error c w
  = (if String.eqb code "ECONNABORTED" || String.eqb code "ETIMEDOUT" then
       Rejected (mkAuthError TIMEOUT "Request timed out" None)
     else if String.eqb code "CERT_HAS_EXPIRED"
             || String.eqb code "UNABLE_TO_VERIFY_LEAF_SIGNATURE" then
       Rejected (mkAuthError SSL_ERROR
                   "SSL certificate error. Check your WordPress site's SSL configuration."
                   None)
     else fallback c msg None,
     c, w).
Proof.
  intros [= <-]. unfold handleResponseError.
  cbn [AxiosError.response AxiosError.code AxiosError.message option_map statusIs codeIs].
  destruct (String.eqb code "ECONNABORTED" || String.eqb code "ETIMEDOUT");
    [reflexivity|].
  destruct (String.eqb code "CERT_HAS_EXPIRED"
            || String.eqb code "UNABLE_TO_VERIFY_LEAF_SIGNATURE"); reflexivity.
Qed.

(** X12.  Transport failures are classified by their code alone.  The codes
    ECONNABORTED and ETIMEDOUT give TIMEOUT; CERT_HAS_EXPIRED and
    UNABLE_TO_VERIFY_LEAF_SIGNATURE give SSL_ERROR; every other code,
    ENOTFOUND and ECONNREFUSED among them, reaches the last statement of
    [handleResponseError], which gives UNKNOWN_ERROR with the sanitized
    message of the failure, or the [SyntaxError] of [sanitizeErrorMessage]
    when the user name or the password is not a well-formed pattern.  None
    carries a status, none is retried, and the client and the world stay as
    they are.  For a user name and a password that are plain-text patterns
    every transport failure is rejected with an error of the client. *)
Theorem X12_transport_failures {engine : RegExp.Engine} :
  forall (resubmit : HttpClient.t -> World -> Outcome * HttpClient.t * World)
         (code msg : string) (error : AxiosError.t) (c : HttpClient.t) (w : World),
    settle (Failure code msg) = inr error ->
    handleResponseError resubmit error c w
    = (if String.eqb code "ECONNABORTED" || String.eqb code "ETIMEDOUT" then
         Rejected (mkAuthError TIMEOUT "Request timed out" None)
       else if String.eqb code "CERT_HAS_EXPIRED"
               || String.eqb code "UNABLE_TO_VERIFY_LEAF_SIGNATURE" then
         Rejected (mkAuthError SSL_ERROR
                     "SSL certificate error. Check your WordPress site's SSL configuration."
                     None)
       else
         match AuthManager.sanitizeErrorMessage (authManager c) msg with
         | RegExp.Returned text => Rejected (mkAuthError UNKNOWN_ERROR text None)
         | RegExp.SyntaxError text => Threw text
         end,
       c, w)
    /\ (AuthManager.plainCredentials (authManager c) = true ->
        handleResponseError resubmit error c w
        = (Rejected
             (if String.eqb code "ECONNABORTED" || String.eqb code "ETIMEDOUT" then
                mkAuthError TIMEOUT "Request timed out" None
              else if String.eqb code "CERT_HAS_EXPIRED"
                      || String.eqb code "UNABLE_TO_VERIFY_LEAF_SIGNATURE" then
                mkAuthError SSL_ERROR
                  "SSL certificate error. Check your WordPress site's SSL configuration."
                  None
              else
                mkAuthError UNKNOWN_ERROR (AuthManager.redacted (authManager c) msg) None),
           c, w)).
Proof.
  intros resubmit code msg error c w Hsettle.
  rewrite (handleResponseError_failure resubmit code msg error c w Hsettle).
  unfold fallback. split; [reflexivity|].
  intros Hplain. rewrite (sanitizeErrorMessage_plain _ msg Hplain).
  destruct (String.eqb code "ECONNABORTED" || String.eqb code "ETIMEDOUT");
    [reflexivity|].
  destruct (String.eqb code "CERT_HAS_EXPIRED"
            || String.eqb code "UNABLE_TO_VERIFY_LEAF_SIGNATURE"); reflexivity.
Qed.

Lemma X12_witness :
  Example.outcome
    (request 2 (new Example.manager)
       (Example.world [Failure "ENOTFOUND" "getaddrinfo ENOTFOUND example.com"]))
  = Rejected (mkAuthError UNKNOWN_ERROR "getaddrinfo ENOTFOUND example.com" None).
Proof.
  change (Example.outcome
            (request 2 (new Example.manager)
               (Example.world [Failure "ENOTFOUND" "getaddrinfo ENOTFOUND example.com"])))
    with (fst (fst (handleResponseError (request 1)
                      {| AxiosError.response := None;
                         AxiosError.code := Some "ENOTFOUND";
                         AxiosError.message := "getaddrinfo ENOTFOUND example.com" |}
                      (snd (requestInterceptor 0 (new Example.manager)))
                      {| clock := 100; wire := [];
                         trace := [Dispatched
                                     "Basic YWRtaW46YWJjZCBlZmdoIGlqa2wgbW5vcCBxcnN0IHV2d3g="] |}))).
  rewrite (proj1 (X12_transport_failures (request 1) "ENOTFOUND"
                    "getaddrinfo ENOTFOUND example.com" _ _ _ eq_refl)).
  reflexivity.
Defined.

Lemma dispatches_cons ev tr :
  dispatches (ev :: tr) = ((if isDispatched ev then 1 else 0) + dispatches tr)%nat.
Proof. unfold dispatches. cbn [filter]. destruct (isDispatched ev); reflexivity. Qed.

Lemma retries_cons ev tr :
  retries (ev :: tr) = ((if isRetried ev then 1 else 0) + retries tr)%nat.
Proof. unfold retries. cbn [filter]. destruct (isRetried ev); reflexivity. Qed.

(** A call made with the counter at 1 or more sends at most one request and
    makes no retry. *)
Lemma request_counts_no_retry {engine : RegExp.Engine} fuel c w :
  1 <= retryCount c ->
  (dispatches (trace (snd (request fuel c w))) <= dispatches (trace w) + 1)%nat
  /\ retries (trace (snd (request fuel c w))) = retries (trace w).
Proof.
  intros Hrc. destruct fuel as [|fuel]; [cbn [request snd]; lia|].
  cbn [request].
  pose proof (requestInterceptor_retryCount (clock w) c) as Hsame.
  destruct (requestInterceptor (clock w) c) as [[h|e0] c1]; cbn [snd] in Hsame.
  - destruct (wire w) as [|ex later]; [cbn [snd]; lia|].
    destruct (settle (reply ex)) as [resp|err].
    + cbn [snd record trace]. rewrite ?dispatches_cons, ?retries_cons.
      cbn [isDispatched isRetried]. lia.
    + match goal with
      | |- context [handleResponseError ?k ?er ?cl ?wl] =>
          destruct (handleResponseError_cases k er cl wl)
            as [(_ & Hlt & _)|[(e & c' & -> & _)|(text & -> & _)]]
      end; [lia| |];
      cbn [snd trace]; rewrite ?dispatches_cons, ?retries_cons;
      cbn [isDispatched isRetried]; lia.
  - destruct (handleResponseError_cases (request fuel) (AxiosError.ofThrown e0) c1 w)
      as [(H401 & _)|[(e & c' & -> & _)|(text & -> & _)]];
      [discriminate H401| |]; cbn [snd]; lia.
Qed.

(** X13.  No retry storm for a call that runs alone, that is, with no other
    call of the client running between its start and its end, which is what
    [request] models.  Whatever the network answers, such a call, made with a
    counter that is not negative, puts at most two requests on the wire and
    makes at most one retry; with the counter at 1 or more it puts at most one
    request on the wire and makes no retry.  (For calls that overlap, the
    counter is shared and X29 gives the bound.) *)
Theorem X13_at_most_two_requests_per_call {engine : RegExp.Engine} :
  forall (fuel : nat) (c : HttpClient.t) (w : World),
    0 <= retryCount c ->
    let after := trace (snd (request fuel c w)) in
    (dispatches after <= dispatches (trace w) + 2)%nat
    /\ (retries after <= retries (trace w) + 1)%nat
    /\ (1 <= retryCount c ->
        (dispatches after <= dispatches (trace w) + 1)%nat
        /\ retries after = retries (trace w)).
Proof.
  intros fuel c w Hrc after. unfold after. clear after.
  assert (Hboth : (dispatches (trace (snd (request fuel c w))) <= dispatches (trace w) + 2)%nat
                  /\ (retries (trace (snd (request fuel c w))) <= retries (trace w) + 1)%nat).
  { destruct fuel as [|fuel]; [cbn [request snd]; lia|].
    cbn [request].
    pose proof (requestInterceptor_retryCount (clock w) c) as Hsame.
    destruct (requestInterceptor (clock w) c) as [[h|e0] c1]; cbn [snd] in Hsame.
    - destruct (wire w) as [|ex later]; [cbn [snd]; lia|].
      destruct (settle (reply ex)) as [resp|err].
      + cbn [snd record trace]. rewrite ?dispatches_cons, ?retries_cons.
        cbn [isDispatched isRetried]. lia.
      + match goal with
        | |- context [handleResponseError ?k ?er ?cl ?wl] =>
            destruct (handleResponseError_cases k er cl wl)
              as [(_ & Hlt & ->)|[(e & c' & -> & _)|(text & -> & _)]]
        end.
        * destruct (retrying_facts (clock w + latency ex) c1) as (Hrt & _).
          match goal with
          | |- context [request fuel ?cl ?wl] =>
              destruct (request_counts_no_retry fuel cl wl) as [Hd Hr]
          end.
          { cbn [clock]. lia. }
          cbn [record trace] in Hd, Hr.
          rewrite !dispatches_cons in Hd. rewrite !retries_cons in Hr.
          cbn [isDispatched isRetried] in Hd, Hr. lia.
        * cbn [snd trace]. rewrite ?dispatches_cons, ?retries_cons.
          cbn [isDispatched isRetried]. lia.
        * cbn [snd trace]. rewrite ?dispatches_cons, ?retries_cons.
          cbn [isDispatched isRetried]. lia.
    - destruct (handleResponseError_cases (request fuel) (AxiosError.ofThrown e0) c1 w)
        as [(H401 & _)|[(e & c' & -> & _)|(text & -> & _)]];
        [discriminate H401| |]; cbn [snd]; lia. }
  split; [exact (proj1 Hboth)|]. split; [exact (proj2 Hboth)|].
  apply request_counts_no_retry.
Qed.

Lemma X13_witness :
  (dispatches
     (trace (snd (request 5 (new Example.manager)
                    (Example.world [Response 401 None; Response 401 None;
                                    Response 401 None; Response 401 None]))))
   <= 0 + 2)%nat.
Proof.
  apply (X13_at_most_two_requests_per_call 5 (new Example.manager)
           (Example.world [Response 401 None; Response 401 None;
                           Response 401 None; Response 401 None])).
  cbn. lia.
Defined.

End HttpClientCalls.

(** ** Retries of calls that overlap *)

Section OverlappingCalls.
Import Net HttpClient Concurrent.

Context {engine : RegExp.Engine}.

Lemma successes_cons ev tr :
  successes (ev :: tr) = ((if isSucceeded ev then 1 else 0) + successes tr)%nat.
Proof. unfold successes. cbn [filter]. destruct (isSucceeded ev); reflexivity. Qed.

(** In a trace with at most one retry per stretch without success, the
    retries are no more than the successes and the retries made since the
    latest success. *)
Lemma retries_le_successes tr :
  atMostOneRetryPerSuccess tr = true ->
  Z.of_nat (retries tr) <= Z.of_nat (successes tr) + retriesSinceSuccess tr.
Proof.
  induction tr as [|ev tr IH]; [intros _; cbn; lia|].
  intros H.
  change (atMostOneRetryPerSuccess (ev :: tr))
    with ((retriesSinceSuccess (ev :: tr) <=? 1) && atMostOneRetryPerSuccess tr) in H.
  apply andb_prop in H. destruct H as [_ Htr].
  specialize (IH Htr). pose proof (atMostOne_bound tr Htr) as Hbound.
  pose proof (retriesSinceSuccess_nonneg tr) as Hnonneg.
  rewrite retries_cons, successes_cons.
  destruct ev as [h| |]; cbn [isRetried isSucceeded retriesSinceSuccess]; lia.
Qed.

(** X29.  Calls of one client, made from its construction on and
    interleaved in any way: the retries made are no more than the responses
    received with success plus the counter, which is 0 or 1; so there is at
    most one retry more than there are successes. *)
Theorem X29_retries_bounded_by_successes
    (am : AuthManager.t) (clock0 : Z) (wire0 : list Exchange) (schedule : list Choice) :
  let s := run schedule (start (new am) clock0 wire0) in
  Z.of_nat (retries (trace (world s)))
    <= Z.of_nat (successes (trace (world s))) + retryCount (client s)
  /\ 0 <= retryCount (client s) <= 1
  /\ (retries (trace (world s)) <= successes (trace (world s)) + 1)%nat.
Proof.
  intros s.
  assert (Hinv : counterInvariant (client s) (world s)).
  { apply run_counterInvariant. split; reflexivity. }
  pose proof (counterInvariant_bounds _ _ Hinv) as Hbounds.
  destruct Hinv as [Hc Ht].
  pose proof (retries_le_successes _ Ht) as Hle. rewrite <- Hc in Hle.
  split; [exact Hle|]. split; [exact Hbounds|]. lia.
Qed.

End OverlappingCalls.

(** ** Error handler *)

Section ErrorHandlerFacts.
Import Net HttpClient ErrorHandler.

(** X14.  The text for the user is made from the category of the error and
    the context only: it is the base message of the category, then an advice
    that depends on the category alone, then the context information.  The
    message and the status that the error carries never appear in it, so two
    errors of one category give the same text. *)
Theorem X14_user_text_depends_on_category_only :
  forall (category : AuthErrorType),
    exists advice : string,
      forall (e : WordPressAuthError) (context : option ErrorContext.t),
        type e = category ->
        createUserFriendlyMessage e context
        = getBaseErrorMessage category ++ advice
            ++ match context with
               | Some context => formatContextInfo context
               | None => EmptyString
               end.
Proof.
  intros category.
  destruct category;
    eexists; intros e context He; unfold createUserFriendlyMessage; rewrite He;
    cbv zeta iota.
  1-8: reflexivity.
  instantiate (1 := EmptyString). reflexivity.
Qed.

Lemma X14_witness :
  createUserFriendlyMessage
    (mkAuthError FORBIDDEN Example.leak (Some 403)) None
  = createUserFriendlyMessage
      (mkAuthError FORBIDDEN "Access forbidden. Check user permissions." (Some 403)) None.
Proof.
  destruct (X14_user_text_depends_on_category_only FORBIDDEN) as [advice H].
  rewrite (H (mkAuthError FORBIDDEN Example.leak (Some 403)) None eq_refl).
  rewrite (H (mkAuthError FORBIDDEN "Access forbidden. Check user permissions."
                (Some 403)) None eq_refl).
  reflexivity.
Defined.

(** X15.  Which failures of a call the handler takes as recoverable.  For a
    response whose status is not 401: the error of the client is recoverable
    exactly when the status is 429 or at least 500.  For a transport failure:
    exactly when its code is ECONNABORTED or ETIMEDOUT; a failed name lookup
    or a refused connection is classified UNKNOWN_ERROR and taken as not
    recoverable.  The UNAUTHORIZED of a 401 that is not retried is
    recoverable. *)
Theorem X15_recoverable_failures {engine : RegExp.Engine} :
  forall (resubmit : HttpClient.t -> World -> Outcome * HttpClient.t * World)
         (c : HttpClient.t) (w : World) (error : AxiosError.t)
         (e : WordPressAuthError) (c' : HttpClient.t) (w' : World),
    handleResponseError resubmit error c w = (Rejected e, c', w') ->
    (forall status d,
       settle (Response status d) = inr error -> status <> 401 ->
       isRecoverableError e = ((status =? 429) || (500 <=? status)))
    /\ (forall code msg,
          settle (Failure code msg) = inr error ->
          isRecoverableError e
          = (String.eqb code "ECONNABORTED" || String.eqb code "ETIMEDOUT"))
    /\ (forall d,
          settle (Response 401 d) = inr error -> 1 <= retryCount c ->
          isRecoverableError e = true).
Proof.
  intros resubmit c w error e c' w' H. split; [|split].
  - intros status d Hsettle Hne.
    rewrite (handleResponseError_response resubmit status d error c w Hsettle Hne) in H.
    destruct (Z.eqb_spec status 403) as [->|_]; [injection H as <- _ _; reflexivity|].
    destruct (status =? 429); [injection H as <- _ _; reflexivity|].
    destruct (500 <=? status); [injection H as <- _ _; reflexivity|].
    destruct (400 <=? status); [injection H as <- _ _; reflexivity|].
    unfold fallback in H.
    destruct (AuthManager.sanitizeErrorMessage (authManager c) (AxiosError.message error));
      [injection H as <- _ _; reflexivity|discriminate H].
  - intros code msg Hsettle.
    rewrite (handleResponseError_failure resubmit code msg error c w Hsettle) in H.
    destruct (String.eqb code "ECONNABORTED" || String.eqb code "ETIMEDOUT");
      [injection H as <- _ _; reflexivity|].
    destruct (String.eqb code "CERT_HAS_EXPIRED"
              || String.eqb code "UNABLE_TO_VERIFY_LEAF_SIGNATURE");
      [injection H as <- _ _; reflexivity|].
    unfold fallback in H.
    destruct (AuthManager.sanitizeErrorMessage (authManager c) msg);
      [injection H as <- _ _; reflexivity|discriminate H].
  - intros d Hsettle Hrc. rewrite settle_401 in Hsettle. injection Hsettle as <-.
    rewrite (handleResponseError_401_again resubmit d c w Hrc) in H.
    injection H as <- _ _. reflexivity.
Qed.

Lemma X15_witness :
  isRecoverableError
    (mkAuthError NETWORK_ERROR "WordPress server error (502): Internal server error"
       (Some 502)) = true.
Proof.
  set (error := {| AxiosError.response := Some (AxiosResponse.mk 502 None);
                   AxiosError.code := Some "ERR_BAD_RESPONSE";
                   AxiosError.message := "Request failed with status code 502" |}).
  assert (Hsettle : settle (Response 502 None) = inr error) by reflexivity.
  assert (H : handleResponseError (request 0) error (new Example.manager)
                (Example.world [])
              = (Rejected (mkAuthError NETWORK_ERROR
                             "WordPress server error (502): Internal server error"
                             (Some 502)),
                 new Example.manager, Example.world [])) by reflexivity.
  exact (proj1 (X15_recoverable_failures _ _ _ _ _ _ _ H)
           502 None Hsettle ltac:(discriminate)).
Defined.

(** X16.  A missing resource gets no specific help.  For a 404, as for every
    4xx other than 401, 403 and 429, the error of the client is in the
    category UNKNOWN_ERROR, for which the handler gives the text "An
    unexpected error occurred." followed by the context only, no recovery
    action, and the log level debug. *)
Theorem X16_client_errors_get_generic_text {engine : RegExp.Engine} :
  forall (resubmit : HttpClient.t -> World -> Outcome * HttpClient.t * World)
         (c : HttpClient.t) (w : World) (status : Z) (d : option string)
         (error : AxiosError.t) (e : WordPressAuthError) (c' : HttpClient.t) (w' : World)
         (context : ErrorContext.t),
    settle (Response status d) = inr error ->
    400 <= status < 500 -> status <> 401 -> status <> 403 -> status <> 429 ->
    handleResponseError resubmit error c w = (Rejected e, c', w') ->
    createUserFriendlyMessage e (Some context)
    = "An unexpected error occurred." ++ formatContextInfo context
    /\ getRecoveryActions e = []
    /\ isRecoverableError e = false
    /\ getLogLevel (type e) = LevelDebug.
Proof.
  intros resubmit c w status d error e c' w' context Hsettle Hrange H401 H403 H429 H.
  rewrite (handleResponseError_response resubmit status d error c w Hsettle H401) in H.
  destruct (Z.eqb_spec status 403); [contradiction|].
  destruct (Z.eqb_spec status 429); [contradiction|].
  destruct (Z.leb_spec 500 status); [lia|].
  destruct (Z.leb_spec 400 status); [|lia].
  injection H as <- _ _. repeat split.
Qed.

Lemma X16_witness :
  getRecoveryActions
    (mkAuthError UNKNOWN_ERROR "WordPress API error (404): No route" (Some 404)) = [].
Proof.
  set (error := {| AxiosError.response := Some (AxiosResponse.mk 404 (Some "No route"));
                   AxiosError.code := Some "ERR_BAD_REQUEST";
                   AxiosError.message := "Request failed with status code 404" |}).
  assert (Hsettle : settle (Response 404 (Some "No route")) = inr error) by reflexivity.
  assert (H : handleResponseError (request 0) error (new Example.manager)
                (Example.world [])
              = (Rejected (mkAuthError UNKNOWN_ERROR
                             "WordPress API error (404): No route" (Some 404)),
                 new Example.manager, Example.world [])) by reflexivity.
  exact (proj1 (proj2 (X16_client_errors_get_generic_text _ _ _ 404 (Some "No route")
                         _ _ _ _ (ErrorContext.mk "read" None None None 0 None)
                         Hsettle ltac:(lia) ltac:(discriminate) ltac:(discriminate)
                         ltac:(discriminate) H))).
Defined.

(** X17.  The context information is empty exactly when the context has no
    operation, no endpoint and no status to show, an empty text and the
    status 0 counting as none; otherwise it begins with a blank line and the
    heading "Technical details:". *)
Theorem X17_context_info_empty_or_headed :
  forall (context : ErrorContext.t),
    let shown :=
      negb (String.eqb (ErrorContext.operation context) EmptyString)
      || match ErrorContext.endpoint context with
         | Some endpoint => negb (String.eqb endpoint EmptyString)
         | None => false
         end
      || match ErrorContext.httpStatus context with
         | Some status => negb (status =? 0)
         | None => false
         end in
    (shown = false -> formatContextInfo context = EmptyString)
    /\ (shown = true ->
        exists parts,
          formatContextInfo context
          = Js.nl ++ Js.nl ++ "Technical details:" ++ Js.nl ++ parts
          /\ parts <> EmptyString).
Proof.
  intros [operation endpoint httpMethod httpStatus timestamp userAgent] shown.
  unfold shown, formatContextInfo.
  cbn [ErrorContext.operation ErrorContext.endpoint ErrorContext.httpStatus].
  destruct operation as [|o operation];
    destruct endpoint as [[|p endpoint]|];
    destruct httpStatus as [status|];
    try destruct (Z.eqb_spec status 0) as [->|Hstatus];
    cbn [String.eqb negb orb app Z.eqb];
    split; intros Hshown; try discriminate Hshown; try reflexivity;
    (eexists; split; [reflexivity|]);
    cbn [Js.join String.concat append]; discriminate.
Qed.

Lemma X17_witness :
  formatContextInfo (ErrorContext.mk "" (Some "") None (Some 0) 1700000000000 None)
  = EmptyString.
Proof.
  apply (X17_context_info_empty_or_headed
           (ErrorContext.mk "" (Some "") None (Some 0) 1700000000000 None)).
  reflexivity.
Defined.

End ErrorHandlerFacts.

(** ** The client of [src/wordpress-client.ts] *)

Section WordPressClientFacts.
Import WordPressClient.

(** Before the window is reset, the checks are let through until the
    counter reaches the limit, and refused from then on. *)
Lemma checkAll_before_reset (cfg : WordPressConfig) (policy : Policy.t) (reset : Z) :
  rate_limit cfg = Some policy ->
  forall (times : list Z) (count : Z) (blocked : bool),
    Forall (fun now => now < reset) times ->
    let start := mk cfg (mkState count reset blocked) in
    let room := Z.to_nat (Policy.requests_per_minute policy - count) in
    let passing := Nat.min (List.length times) room in
    map allowed (fst (checkAll times start))
    = (repeat true passing ++ repeat false (List.length times - passing))%list
    /\ snd (checkAll times start)
       = mk cfg (mkState (count + Z.of_nat passing) reset blocked).
Proof.
  intros Hpolicy. induction times as [|now times IH]; intros count blocked Hbefore.
  - cbn. rewrite Z.add_0_r. split; reflexivity.
  - apply Forall_cons_iff in Hbefore. destruct Hbefore as [Hnow Hbefore].
    cbv zeta. cbn [checkAll]. unfold checkRateLimit.
    cbn [rateLimitState resetTime requests isBlocked config]. rewrite Hpolicy.
    destruct (Z.leb_spec reset now) as [|_]; [lia|].
    cbn [requests resetTime isBlocked].
    destruct (Z.leb_spec (Policy.requests_per_minute policy) count) as [Hfull|Hfree].
    + specialize (IH count blocked Hbefore). cbv zeta in IH.
      destruct (checkAll times (mk cfg (mkState count reset blocked))) as [rs c2].
      cbn [fst snd] in *. destruct IH as [IHr IHc].
      replace (Z.to_nat (Policy.requests_per_minute policy - count)) with O in * by lia.
      rewrite Nat.min_0_r in *. cbn [map allowed repeat app List.length Nat.sub].
      rewrite Nat.sub_0_r in IHr. cbn [repeat app] in IHr.
      rewrite IHr, IHc. split; reflexivity.
    + specialize (IH (count + 1) blocked Hbefore). cbv zeta in IH.
      destruct (checkAll times (mk cfg (mkState (count + 1) reset blocked))) as [rs c2].
      cbn [fst snd] in *. destruct IH as [IHr IHc].
      replace (Z.to_nat (Policy.requests_per_minute policy - count))
        with (S (Z.to_nat (Policy.requests_per_minute policy - (count + 1)))) by lia.
      cbn [List.length Nat.min map allowed repeat app Nat.sub].
      rewrite IHr, IHc. split; [reflexivity|].
      f_equal. f_equal. lia.
Qed.

(** X18.  The fixed window of [checkRateLimit].  For a client created at
    time [t0] with a limit of N per minute, checks made before [t0 + 60000]
    are let through until N of them have been, and every later one in that
    minute is refused; the counter ends at the number let through. *)
Theorem X18_fixed_window_limit :
  forall (cfg : WordPressConfig) (policy : Policy.t) (t0 : Z) (times : list Z),
    rate_limit cfg = Some policy ->
    Forall (fun now => now < t0 + 60000) times ->
    let limit := Z.to_nat (Policy.requests_per_minute policy) in
    let passing := Nat.min (List.length times) limit in
    map allowed (fst (checkAll times (new t0 cfg)))
    = (repeat true passing ++ repeat false (List.length times - passing))%list
    /\ requests (rateLimitState (snd (checkAll times (new t0 cfg)))) = Z.of_nat passing.
Proof.
  intros cfg policy t0 times Hpolicy Hbefore limit passing.
  destruct (checkAll_before_reset cfg policy (t0 + 60000) Hpolicy times 0 false Hbefore)
    as [Hr Hc].
  cbv zeta in Hr, Hc. rewrite Z.sub_0_r in Hr, Hc.
  split; [exact Hr|]. unfold new. rewrite Hc. reflexivity.
Qed.

Lemma X18_witness :
  map allowed
    (fst (checkAll [0; 10; 20; 59999]
            (new 0 (mkConfig "https://example.com" "admin" "x" true 30000
                      (Some (Policy.mk 2 10))))))
  = [true; true; false; false].
Proof.
  apply (X18_fixed_window_limit
           (mkConfig "https://example.com" "admin" "x" true 30000 (Some (Policy.mk 2 10)))
           (Policy.mk 2 10) 0 [0; 10; 20; 59999] eq_refl).
  repeat constructor; lia.
Defined.

Lemma repeat_length_min {A} (x : A) n : Nat.min (List.length (repeat x n)) n = n.
Proof. rewrite repeat_length. apply Nat.min_id. Qed.

(** X19.  The fixed window lets a double burst through.  N checks in the
    last millisecond of a minute and N checks in the first millisecond of the
    next are all let through: 2N requests in two milliseconds, which the
    sliding window of the HTTP client would not allow. *)
Theorem X19_fixed_window_double_burst :
  forall (cfg : WordPressConfig) (policy : Policy.t) (t0 : Z) (n : nat),
    rate_limit cfg = Some policy ->
    Policy.requests_per_minute policy = Z.of_nat n ->
    let reset := t0 + 60000 in
    map allowed (fst (checkAll (repeat (reset - 1) n ++ repeat reset n) (new t0 cfg)))
    = repeat true (n + n).
Proof.
  intros cfg policy t0 n Hpolicy Hlimit reset.
  assert (Happ : forall l1 l2 c,
            fst (checkAll (l1 ++ l2) c)
            = (fst (checkAll l1 c) ++ fst (checkAll l2 (snd (checkAll l1 c))))%list).
  { induction l1 as [|a l1 IH]; intros l2 c; [reflexivity|].
    cbn [app checkAll]. destruct (checkRateLimit a c) as [r c1].
    specialize (IH l2 c1).
    destruct (checkAll (l1 ++ l2) c1) as [rs c2].
    destruct (checkAll l1 c1) as [rs1 c3]. cbn [fst snd] in *.
    rewrite IH. reflexivity. }
  rewrite Happ, map_app.
  destruct (checkAll_before_reset cfg policy reset Hpolicy (repeat (reset - 1) n) 0 false)
    as [Hr1 Hc1].
  { apply Forall_forall. intros x Hx. apply repeat_spec in Hx. lia. }
  cbv zeta in Hr1, Hc1. rewrite Z.sub_0_r, Hlimit, Nat2Z.id, repeat_length_min in Hr1, Hc1.
  rewrite repeat_length, Nat.sub_diag in Hr1. cbn [repeat] in Hr1. rewrite app_nil_r in Hr1.
  unfold new. fold reset. rewrite Hr1, Hc1.
  destruct n as [|n]; [reflexivity|].
  cbn [repeat checkAll]. unfold checkRateLimit at 1.
  cbn [rateLimitState resetTime requests isBlocked config]. rewrite Hpolicy.
  destruct (Z.leb_spec reset reset) as [_|]; [|lia].
  cbn [requests resetTime isBlocked].
  destruct (Z.leb_spec (Policy.requests_per_minute policy) 0) as [|_]; [lia|].
  destruct (checkAll_before_reset cfg policy (reset + 60000) Hpolicy (repeat reset n)
              (0 + 1) false) as [Hr2 _].
  { apply Forall_forall. intros x Hx. apply repeat_spec in Hx. lia. }
  cbv zeta in Hr2.
  replace (Z.to_nat (Policy.requests_per_minute policy - (0 + 1))) with n in Hr2 by lia.
  rewrite repeat_length_min, repeat_length, Nat.sub_diag in Hr2.
  cbn [repeat] in Hr2. rewrite app_nil_r in Hr2.
  destruct (checkAll (repeat reset n)
              (mk cfg (mkState (0 + 1) (reset + 60000) false))) as [rs c2].
  cbn [fst snd] in *. cbn [map allowed]. rewrite Hr2.
  rewrite (repeat_app true (S n) (S n)). reflexivity.
Qed.

Lemma X19_witness :
  map allowed
    (fst (checkAll [59999; 59999; 60000; 60000]
            (new 0 (mkConfig "https://example.com" "admin" "x" true 30000
                      (Some (Policy.mk 2 10))))))
  = [true; true; true; true].
Proof.
  apply (X19_fixed_window_double_burst
           (mkConfig "https://example.com" "admin" "x" true 30000 (Some (Policy.mk 2 10)))
           (Policy.mk 2 10) 0 2 eq_refl eq_refl).
Defined.

(** X20.  What [handleApiError] lets through of the response.  The status of
    the thrown object is the status of the response, and 0 when there is no
    response.  For the statuses 401, 403, 404, 429 and 500 its code and its
    message are fixed texts, whatever the body says; a 404 has the code
    not_found. *)
Theorem X20_api_error_fixed_texts :
  forall (status : Z) (data1 data2 : ErrorData) (sent1 sent2 : bool) (msg1 msg2 : string),
    In status [401; 403; 404; 429; 500] ->
    let e1 := handleApiError (mkApiError (Some (status, data1)) sent1 msg1) in
    let e2 := handleApiError (mkApiError (Some (status, data2)) sent2 msg2) in
    e1 = e2
    /\ dataStatus e1 = status
    /\ (status = 404 -> code e1 = "not_found")
    /\ dataStatus (handleApiError (mkApiError None sent1 msg1)) = 0.
Proof.
  intros status data1 data2 sent1 sent2 msg1 msg2 Hin.
  cbn [In] in Hin.
  destruct Hin as [<-|[<-|[<-|[<-|[<-|[]]]]]]; cbv zeta; repeat split;
    try (intros H; discriminate H); destruct sent1; reflexivity.
Qed.

Lemma X20_witness :
  code (handleApiError
          (mkApiError (Some (404, mkData (Some Example.leak) (Some "rest_no_route")))
             true "Request failed with status code 404"))
  = "not_found".
Proof.
  apply (X20_api_error_fixed_texts 404
           (mkData (Some Example.leak) (Some "rest_no_route")) (mkData None None)
           true true "Request failed with status code 404" "").
  - cbn. auto.
  - reflexivity.
Defined.

End WordPressClientFacts.


(** ** Configuration loader *)

Section ParseIntFacts.
Import ConfigLoader.

Lemma digits_takeWhile d :
  Str.takeWhile Chars.isDigit (NilEmpty.string_of_uint d) = NilEmpty.string_of_uint d.
Proof.
  induction d; cbn [NilEmpty.string_of_uint Str.takeWhile]; [reflexivity|..];
    match goal with
    | |- context [Chars.isDigit ?c] => change (Chars.isDigit c) with true
    end; cbv iota; rewrite IHd; reflexivity.
Qed.

Lemma parseInt_digits d :
  d <> Decimal.Nil ->
  parseInt (NilEmpty.string_of_uint d) = Some (Z.of_uint d)
  /\ parseInt (String "-" (NilEmpty.string_of_uint d)) = Some (- Z.of_uint d).
Proof.
  intros Hd.
  assert (Hparse : forall negative : bool,
            match Str.takeWhile Chars.isDigit (NilEmpty.string_of_uint d) with
            | EmptyString => None
            | String c s =>
                match NilEmpty.uint_of_string (String c s) with
                | Some d0 => Some (if negative then - Z.of_uint d0 else Z.of_uint d0)
                | None => None
                end
            end = Some (if negative then - Z.of_uint d else Z.of_uint d)).
  { intros negative. rewrite digits_takeWhile.
    pose proof (NilEmpty.usu d) as Husu.
    destruct (NilEmpty.string_of_uint d) as [|c s] eqn:Hs.
    - destruct d; cbn in Hs; congruence.
    - rewrite Husu. reflexivity. }
  split.
  - unfold parseInt. rewrite <- (Hparse false).
    destruct d; [congruence|..]; reflexivity.
  - unfold parseInt. rewrite <- (Hparse true). reflexivity.
Qed.

Lemma to_uint_nonnil p : Pos.to_uint p <> Decimal.Nil.
Proof.
  intros Hnil. pose proof (DecimalPos.Unsigned.of_to p) as Hof.
  rewrite Hnil in Hof. discriminate Hof.
Qed.

Lemma string_of_uint_nonnil d :
  d <> Decimal.Nil -> NilZero.string_of_uint d = NilEmpty.string_of_uint d.
Proof. destruct d; [congruence|..]; reflexivity. Qed.

(** X25.  What [parseInt(_, 10)] reads back.  For an integer in the range
    where a number of the source is exact, the decimal text that a template
    literal writes is read back as that integer, so that [parseNumber]
    returns it and not its default. *)
Theorem X25_parseInt_reads_back_decimal :
  forall (n : Z) (defaultValue : option Z),
    Z.abs n <= 2 ^ 53 ->
    parseInt (Js.show n) = Some n
    /\ parseNumber (Some (Js.show n)) defaultValue = Some n.
Proof.
  intros n defaultValue _.
  assert (H : parseInt (Js.show n) = Some n).
  { unfold Js.show. destruct n as [|p|p]; cbn [Z.to_int NilZero.string_of_int].
    - reflexivity.
    - rewrite (string_of_uint_nonnil _ (to_uint_nonnil p)).
      rewrite (proj1 (parseInt_digits _ (to_uint_nonnil p))).
      unfold Z.of_uint. rewrite DecimalPos.Unsigned.of_to. reflexivity.
    - rewrite (string_of_uint_nonnil _ (to_uint_nonnil p)).
      rewrite (proj2 (parseInt_digits _ (to_uint_nonnil p))).
      unfold Z.of_uint. rewrite DecimalPos.Unsigned.of_to. reflexivity. }
  split; [exact H|]. unfold parseNumber. rewrite H. reflexivity.
Qed.

Lemma X25_witness :
  Z.abs (-30000) <= 2 ^ 53
  /\ parseInt (Js.show (-30000)) = Some (-30000)
  /\ parseNumber (Some (Js.show (-30000))) (Some 60) = Some (-30000).
Proof.
  split; [vm_compute; discriminate|].
  apply (X25_parseInt_reads_back_decimal (-30000) (Some 60)).
  vm_compute; discriminate.
Defined.

End ParseIntFacts.

Section TrimFacts.

Lemma trimStart_head s :
  Str.trimStart s = EmptyString
  \/ exists c rest, Str.trimStart s = String c rest /\ Chars.isSpace c = false.
Proof.
  induction s as [|c rest IH]; cbn [Str.trimStart]; [left; reflexivity|].
  destruct (Chars.isSpace c) eqn:Hc; [exact IH|].
  right. exists c, rest. split; [reflexivity | exact Hc].
Qed.

Lemma trimEnd_idempotent s : Str.trimEnd (Str.trimEnd s) = Str.trimEnd s.
Proof.
  induction s as [|c rest IH]; cbn [Str.trimEnd]; [reflexivity|].
  destruct (Str.trimEnd rest) as [|k kept] eqn:Hrest.
  - destruct (Chars.isSpace c) eqn:Hc; cbn [Str.trimEnd]; [reflexivity|].
    rewrite Hc. reflexivity.
  - change (Str.trimEnd (String c (String k kept)))
      with (match Str.trimEnd (String k kept) with
            | EmptyString => if Chars.isSpace c then EmptyString else String c EmptyString
            | String a b => String c (String a b)
            end).
    rewrite IH. reflexivity.
Qed.

Lemma trimEnd_head c rest :
  Chars.isSpace c = false ->
  exists kept, Str.trimEnd (String c rest) = String c kept.
Proof.
  intros Hc. cbn [Str.trimEnd].
  destruct (Str.trimEnd rest) as [|k kept].
  - rewrite Hc. exists EmptyString. reflexivity.
  - exists (String k kept). reflexivity.
Qed.

Lemma trim_idempotent s : Str.trim (Str.trim s) = Str.trim s.
Proof.
  unfold Str.trim.
  destruct (trimStart_head s) as [-> | (c & rest & -> & Hc)]; [reflexivity|].
  destruct (trimEnd_head c rest Hc) as [kept Hkept].
  assert (Hstart : Str.trimStart (Str.trimEnd (String c rest)) = Str.trimEnd (String c rest)).
  { rewrite Hkept. cbn [Str.trimStart]. rewrite Hc. reflexivity. }
  rewrite Hstart. apply trimEnd_idempotent.
Qed.

Lemma trimStart_blank s :
  Str.forallb Chars.isSpace s = true -> Str.trimStart s = EmptyString.
Proof.
  induction s as [|c rest IH]; cbn [Str.forallb Str.trimStart]; [reflexivity|].
  intros H. apply andb_prop in H. destruct H as [Hc Hrest].
  rewrite Hc. exact (IH Hrest).
Qed.

Lemma filter_trimStart s :
  Str.filter (fun c => negb (Chars.isSpace c)) (Str.trimStart s)
  = Str.filter (fun c => negb (Chars.isSpace c)) s.
Proof.
  induction s as [|c rest IH]; cbn [Str.trimStart]; [reflexivity|].
  destruct (Chars.isSpace c) eqn:Hc; [|reflexivity].
  cbn [Str.filter]. rewrite Hc. exact IH.
Qed.

Lemma filter_trimEnd s :
  Str.filter (fun c => negb (Chars.isSpace c)) (Str.trimEnd s)
  = Str.filter (fun c => negb (Chars.isSpace c)) s.
Proof.
  induction s as [|c rest IH]; cbn [Str.trimEnd]; [reflexivity|].
  destruct (Str.trimEnd rest) as [|k kept] eqn:Hrest.
  - cbn [Str.filter] in IH.
    destruct (Chars.isSpace c) eqn:Hc; cbn [Str.filter]; rewrite Hc; cbn [negb];
      rewrite <- IH; reflexivity.
  - cbn [Str.filter] in *. destruct (negb (Chars.isSpace c)); rewrite IH; reflexivity.
Qed.

End TrimFacts.

Section ConfigLoaderFacts.
Import ConfigLoader.

Variable parseURL : string -> Url.parsed.
Variable zodMessage : WordPressConfig -> string.

Lemma missing_or a b : missing (or a b) = missing a && missing b.
Proof. destruct a as [[|? ?]|], b as [[|? ?]|]; reflexivity. Qed.

Lemma environmentConfig_none env :
  environmentConfig env = None
  <-> missing (or (env "WORDPRESS_SITE_URL") (env "WP_SITE_URL"))
      || missing (or (env "WORDPRESS_USERNAME") (env "WP_USERNAME"))
      || missing (or (env "WORDPRESS_APP_PASSWORD") (env "WP_APP_PASSWORD")) = true.
Proof.
  unfold environmentConfig.
  destruct (or (env "WORDPRESS_SITE_URL") (env "WP_SITE_URL")) as [[|? ?]|];
    destruct (or (env "WORDPRESS_USERNAME") (env "WP_USERNAME")) as [[|? ?]|];
    destruct (or (env "WORDPRESS_APP_PASSWORD") (env "WP_APP_PASSWORD")) as [[|? ?]|];
    cbn [missing orb]; split; intros H; try reflexivity; discriminate H.
Qed.

Lemma environmentConfig_fields env raw :
  environmentConfig env = Some raw ->
  or (env "WORDPRESS_SITE_URL") (env "WP_SITE_URL") = Some (site_url raw)
  /\ or (env "WORDPRESS_USERNAME") (env "WP_USERNAME") = Some (username raw)
  /\ or (env "WORDPRESS_APP_PASSWORD") (env "WP_APP_PASSWORD") = Some (app_password raw)
  /\ verify_ssl raw
     = parseBoolean (or (env "WORDPRESS_VERIFY_SSL") (env "WP_VERIFY_SSL")) true
  /\ timeout raw
     = orNumber (parseNumber (or (env "WORDPRESS_TIMEOUT") (env "WP_TIMEOUT")) (Some 30000))
         30000.
Proof.
  unfold environmentConfig.
  destruct (or (env "WORDPRESS_SITE_URL") (env "WP_SITE_URL")) as [[|? ?]|];
    destruct (or (env "WORDPRESS_USERNAME") (env "WP_USERNAME")) as [[|? ?]|];
    destruct (or (env "WORDPRESS_APP_PASSWORD") (env "WP_APP_PASSWORD")) as [[|? ?]|];
    intros H; try discriminate H.
  injection H as <-. cbn [site_url username app_password verify_ssl timeout].
  repeat split; reflexivity.
Qed.

Lemma loadConfig_cases env :
  loadConfig parseURL zodMessage env
  = match environmentConfig env with
    | None => Throw noConfiguration
    | Some raw => validateAndSanitizeConfig parseURL zodMessage raw
    end.
Proof.
  unfold loadConfig, loadFromEnvironment.
  destruct (environmentConfig env) as [raw|]; [|reflexivity].
  unfold validateAndSanitizeConfig. destruct (schemaAccepts parseURL raw); reflexivity.
Qed.

Lemma loadConfig_ok env config :
  loadConfig parseURL zodMessage env = Ok config ->
  exists raw,
    environmentConfig env = Some raw
    /\ schemaAccepts parseURL raw = true
    /\ config = {| site_url := Str.dropTrailingSlash (site_url raw);
                   username := Str.trim (username raw);
                   app_password := Str.trim (app_password raw);
                   verify_ssl := verify_ssl raw;
                   timeout := timeout raw;
                   rate_limit := rate_limit raw |}.
Proof.
  rewrite loadConfig_cases.
  destruct (environmentConfig env) as [raw|]; [|intros H; discriminate H].
  unfold validateAndSanitizeConfig.
  destruct (schemaAccepts parseURL raw) eqn:Hschema; intros H; [|discriminate H].
  injection H as <-. exists raw. split; [reflexivity | split; [exact Hschema | reflexivity]].
Qed.

Lemma schemaAccepts_fields raw :
  schemaAccepts parseURL raw = true ->
  username raw <> EmptyString
  /\ app_password raw <> EmptyString
  /\ 0 < timeout raw
  /\ (forall policy, rate_limit raw = Some policy ->
        0 < Policy.requests_per_minute policy /\ 0 < Policy.burst_limit policy).
Proof.
  unfold schemaAccepts. intros H.
  apply andb_prop in H. destruct H as [H Hrate].
  apply andb_prop in H. destruct H as [H Htimeout].
  apply andb_prop in H. destruct H as [H Hpassword].
  apply andb_prop in H. destruct H as [_ Husername].
  repeat split.
  - intros Heq. rewrite Heq in Husername. discriminate Husername.
  - intros Heq. rewrite Heq in Hpassword. discriminate Hpassword.
  - apply Z.ltb_lt. exact Htimeout.
  - rewrite H in Hrate. apply andb_prop in Hrate. apply Z.ltb_lt. exact (proj1 Hrate).
  - rewrite H in Hrate. apply andb_prop in Hrate. apply Z.ltb_lt. exact (proj2 Hrate).
Qed.


(** X21.  [loadConfig()] reports that no configuration was found exactly
    when one of the three required settings is unset or empty under both of
    its names, [WORDPRESS_*] and [WP_*]. *)
Theorem X21_no_configuration_iff_required_variable_blank :
  forall env,
    loadConfig parseURL zodMessage env = Throw noConfiguration
    <-> (missing (env "WORDPRESS_SITE_URL") && missing (env "WP_SITE_URL"))
        || (missing (env "WORDPRESS_USERNAME") && missing (env "WP_USERNAME"))
        || (missing (env "WORDPRESS_APP_PASSWORD") && missing (env "WP_APP_PASSWORD"))
        = true.
Proof.
  intros env. rewrite loadConfig_cases, <- !missing_or, <- environmentConfig_none.
  destruct (environmentConfig env) as [raw|].
  - split; intros H; [|discriminate H].
    unfold validateAndSanitizeConfig in H.
    destruct (schemaAccepts parseURL raw); [discriminate H|].
    unfold noConfiguration in H. cbn in H. discriminate H.
  - split; reflexivity.
Qed.

(** X22.  What holds of every configuration that [loadConfig()] returns:
    the timeout and both fields of a rate limit are positive, the user name
    and the password have no white space left at either end, and the site
    URL is the one of the environment without one trailing slash. *)
Theorem X22_loaded_configuration_is_sanitized :
  forall env config,
    loadConfig parseURL zodMessage env = Ok config ->
    0 < timeout config
    /\ (forall policy, rate_limit config = Some policy ->
          0 < Policy.requests_per_minute policy /\ 0 < Policy.burst_limit policy)
    /\ Str.trim (username config) = username config
    /\ Str.trim (app_password config) = app_password config
    /\ (forall url, or (env "WORDPRESS_SITE_URL") (env "WP_SITE_URL") = Some url ->
          site_url config = Str.dropTrailingSlash url).
Proof.
  intros env config Hload.
  destruct (loadConfig_ok env config Hload) as (raw & Henv & Hschema & ->).
  destruct (schemaAccepts_fields raw Hschema) as (_ & _ & Htimeout & Hrate).
  destruct (environmentConfig_fields env raw Henv) as (Hurl & _).
  cbn [site_url username app_password timeout rate_limit].
  split; [exact Htimeout|]. split; [exact Hrate|].
  split; [apply trim_idempotent|]. split; [apply trim_idempotent|].
  intros url Hsome. rewrite Hurl in Hsome. injection Hsome as <-. reflexivity.
Qed.

(** X23.  The schema checks the user name before it is trimmed: a user
    name made of white space only passes the check that it is not empty, and
    the configuration that is returned has the empty user name. *)
Theorem X23_blank_username_passes_validation :
  forall env name config,
    or (env "WORDPRESS_USERNAME") (env "WP_USERNAME") = Some name ->
    Str.forallb Chars.isSpace name = true ->
    loadConfig parseURL zodMessage env = Ok config ->
    username config = EmptyString.
Proof.
  intros env name config Hname Hblank Hload.
  destruct (loadConfig_ok env config Hload) as (raw & Henv & _ & ->).
  destruct (environmentConfig_fields env raw Henv) as (_ & Huser & _).
  rewrite Huser in Hname. injection Hname as ->.
  cbn [username]. unfold Str.trim. rewrite (trimStart_blank _ Hblank). reflexivity.
Qed.

(** X24.  The timeout of the environment.  A value from which [parseInt]
    reads no number, or reads 0, gives the default of 30000 ms; a value that
    reads as a negative number makes [loadConfig()] throw; any other value,
    if it is at most 2^53, is the timeout of the configuration that is
    returned.  The bound is the range in which the number that [parseInt]
    returns is the integer that the digits denote; beyond it the number is
    rounded, which changes neither its sign nor whether it is 0. *)
Theorem X24_timeout_setting :
  forall env text,
    or (env "WORDPRESS_TIMEOUT") (env "WP_TIMEOUT") = Some text ->
    match parseInt text with
    | Some n =>
        if n <? 0 then
          exists error,
            loadConfig parseURL zodMessage env = Throw error
            /\ type error = INVALID_CREDENTIALS
        else
          forall config,
            n <= 2 ^ 53 ->
            loadConfig parseURL zodMessage env = Ok config ->
            timeout config = if n =? 0 then 30000 else n
    | None =>
        forall config,
          loadConfig parseURL zodMessage env = Ok config -> timeout config = 30000
    end.
Proof.
  intros env text Htext.
  assert (Hraw : forall raw, environmentConfig env = Some raw ->
                   timeout raw = orNumber (parseNumber (Some text) (Some 30000)) 30000).
  { intros raw Henv.
    destruct (environmentConfig_fields env raw Henv) as (_ & _ & _ & _ & Htimeout).
    rewrite Htimeout, Htext. reflexivity. }
  assert (Hok : forall config, loadConfig parseURL zodMessage env = Ok config ->
                  timeout config = orNumber (parseNumber (Some text) (Some 30000)) 30000).
  { intros config Hload.
    destruct (loadConfig_ok env config Hload) as (raw & Henv & _ & ->).
    cbn [timeout]. exact (Hraw raw Henv). }
  unfold parseNumber in Hok, Hraw.
  destruct (parseInt text) as [n|]; [|exact Hok].
  destruct (n <? 0) eqn:Hneg; [|intros config _; exact (Hok config)].
  rewrite loadConfig_cases.
  destruct (environmentConfig env) as [raw|] eqn:Henv.
  - assert (Hschema : schemaAccepts parseURL raw = false).
    { unfold schemaAccepts. rewrite (Hraw raw eq_refl). unfold orNumber.
      apply Z.ltb_lt in Hneg.
      assert (Hzero : (n =? 0) = false) by (apply Z.eqb_neq; lia).
      assert (Hpos : (0 <? n) = false) by (apply Z.ltb_ge; lia).
      rewrite Hzero, Hpos, andb_false_r. reflexivity. }
    unfold validateAndSanitizeConfig. rewrite Hschema.
    eexists. split; reflexivity.
  - exists noConfiguration. split; reflexivity.
Qed.

Lemma isValidApplicationPassword_trim password :
  AuthManager.isValidApplicationPassword (Str.trim password)
  = AuthManager.isValidApplicationPassword password.
Proof.
  unfold AuthManager.isValidApplicationPassword, Str.trim.
  rewrite filter_trimEnd, filter_trimStart. reflexivity.
Qed.

(** X26.  Trimming does not change what the authentication manager thinks
    of a password: the password of a loaded configuration has the format of
    an application password exactly when the password of the environment
    has it. *)
Theorem X26_trimming_keeps_password_validity :
  forall env password config,
    or (env "WORDPRESS_APP_PASSWORD") (env "WP_APP_PASSWORD") = Some password ->
    loadConfig parseURL zodMessage env = Ok config ->
    AuthManager.isValidApplicationPassword (app_password config)
    = AuthManager.isValidApplicationPassword password.
Proof.
  intros env password config Hpassword Hload.
  destruct (loadConfig_ok env config Hload) as (raw & Henv & _ & ->).
  destruct (environmentConfig_fields env raw Henv) as (_ & _ & Hpass & _).
  rewrite Hpass in Hpassword. injection Hpassword as ->.
  cbn [app_password]. apply isValidApplicationPassword_trim.
Qed.

End ConfigLoaderFacts.

Lemma X21_witness :
  ConfigLoader.loadConfig Url.parse (fun _ => EmptyString)
    (ConfigLoader.envOf
       [("WORDPRESS_SITE_URL", "https://example.com");
        ("WORDPRESS_USERNAME", ""); ("WP_APP_PASSWORD", "abcd efgh ijkl mnop qrst uvwx")])
  = Throw ConfigLoader.noConfiguration.
Proof.
  apply (proj2 (X21_no_configuration_iff_required_variable_blank Url.parse
                  (fun _ => EmptyString) _)).
  reflexivity.
Defined.

Lemma X22_witness :
  let env :=
    ConfigLoader.envOf
      [("WP_SITE_URL", "https://example.com/"); ("WORDPRESS_USERNAME", " admin ");
       ("WORDPRESS_APP_PASSWORD", "abcd efgh ijkl mnop qrst uvwx ");
       ("WORDPRESS_RATE_LIMIT_RPM", "0"); ("WP_TIMEOUT", "5000ms")] in
  let config :=
    mkConfig "https://example.com" "admin" "abcd efgh ijkl mnop qrst uvwx" true 5000
      (Some {| Policy.requests_per_minute := 60; Policy.burst_limit := 10 |}) in
  ConfigLoader.loadConfig Url.parse (fun _ => EmptyString) env = Ok config
  /\ 0 < timeout config
  /\ (forall policy, rate_limit config = Some policy ->
        0 < Policy.requests_per_minute policy /\ 0 < Policy.burst_limit policy)
  /\ Str.trim (username config) = username config
  /\ Str.trim (app_password config) = app_password config
  /\ (forall url,
        ConfigLoader.or (env "WORDPRESS_SITE_URL") (env "WP_SITE_URL") = Some url ->
        site_url config = Str.dropTrailingSlash url).
Proof.
  intros env config. split; [reflexivity|].
  apply (X22_loaded_configuration_is_sanitized Url.parse (fun _ => EmptyString) env config).
  reflexivity.
Defined.

Lemma X23_witness :
  let env :=
    ConfigLoader.envOf
      [("WORDPRESS_SITE_URL", "https://example.com"); ("WORDPRESS_USERNAME", "  ");
       ("WORDPRESS_APP_PASSWORD", "abcd efgh ijkl mnop qrst uvwx")] in
  let config :=
    mkConfig "https://example.com" "" "abcd efgh ijkl mnop qrst uvwx" true 30000 None in
  ConfigLoader.loadConfig Url.parse (fun _ => EmptyString) env = Ok config
  /\ username config = EmptyString.
Proof.
  intros env config. split; [reflexivity|].
  apply (X23_blank_username_passes_validation Url.parse (fun _ => EmptyString)
           env "  " config); reflexivity.
Defined.

Lemma X24_witness :
  let env :=
    ConfigLoader.envOf
      [("WORDPRESS_SITE_URL", "https://example.com"); ("WORDPRESS_USERNAME", "admin");
       ("WORDPRESS_APP_PASSWORD", "abcd efgh ijkl mnop qrst uvwx");
       ("WP_TIMEOUT", " 5000 ms")] in
  let config :=
    mkConfig "https://example.com" "admin" "abcd efgh ijkl mnop qrst uvwx" true 5000 None in
  ConfigLoader.parseInt " 5000 ms" = Some 5000
  /\ 5000 <= 2 ^ 53
  /\ ConfigLoader.loadConfig Url.parse (fun _ => EmptyString) env = Ok config
  /\ timeout config = 5000.
Proof.
  intros env config.
  assert (Hbound : 5000 <= 2 ^ 53) by (vm_compute; discriminate).
  split; [reflexivity|]. split; [exact Hbound|]. split; [reflexivity|].
  exact (X24_timeout_setting Url.parse (fun _ => EmptyString) env " 5000 ms" eq_refl
           config Hbound eq_refl).
Defined.

Lemma X26_witness :
  let env :=
    ConfigLoader.envOf
      [("WORDPRESS_SITE_URL", "https://example.com"); ("WORDPRESS_USERNAME", "admin");
       ("WORDPRESS_APP_PASSWORD", "  abcd efgh ijkl mnop qrst uvwx ")] in
  let config :=
    mkConfig "https://example.com" "admin" "abcd efgh ijkl mnop qrst uvwx" true 30000 None in
  AuthManager.isValidApplicationPassword (app_password config)
  = AuthManager.isValidApplicationPassword "  abcd efgh ijkl mnop qrst uvwx ".
Proof.
  intros env config.
  apply (X26_trimming_keeps_password_validity Url.parse (fun _ => EmptyString)
           env "  abcd efgh ijkl mnop qrst uvwx " config); reflexivity.
Defined.


(** ** Connection test results *)

Section ConnectionTesterFacts.
Import Net HttpClient ConnectionTester.

Context {engine : RegExp.Engine}.
Variable typeErrorText : string.

(** A call leaves the configuration of the manager as it is. *)
Lemma request_config : forall fuel c w,
  AuthManager.config (authManager (snd (fst (request fuel c w))))
  = AuthManager.config (authManager c).
Proof.
  induction fuel as [|fuel IH]; intros c w; [reflexivity|].
  cbn [request].
  pose proof (requestInterceptor_config (clock w) c) as Hcfg.
  destruct (requestInterceptor (clock w) c) as [[h|e0] c1]; cbn [snd] in Hcfg.
  - destruct (wire w) as [|ex later]; [exact Hcfg|].
    destruct (settle (reply ex)) as [resp|err]; [exact Hcfg|].
    match goal with
    | |- context [handleResponseError ?k ?er ?cl ?wl] =>
        destruct (handleResponseError_cases k er cl wl)
          as [(_ & _ & ->)|[(e & c' & -> & _ & _ & _ & _ & Hc')|(text & -> & _)]]
    end.
    + rewrite IH. exact Hcfg.
    + cbn [fst snd]. destruct Hc' as [-> | ->]; exact Hcfg.
    + exact Hcfg.
  - destruct (handleResponseError_cases (request fuel) (AxiosError.ofThrown e0) c1 w)
      as [(H401 & _)|[(e & c' & -> & _ & _ & _ & _ & Hc')|(text & -> & _)]];
      [discriminate H401| |exact Hcfg].
    cbn [fst snd]. destruct Hc' as [-> | ->]; exact Hcfg.
Qed.

(** The result built for an error that has a message, no code and no
    response: the code is UNKNOWN_ERROR and there is no status, unless
    [sanitizeErrorMessage] throws. *)
Lemma createConnectionTestResult_plain_error m success message error text :
  ErrorObject.message error = Some text ->
  ErrorObject.code error = None ->
  ErrorObject.responseStatus error = None ->
  createConnectionTestResult typeErrorText m success message (Some error)
  = match AuthManager.sanitizeErrorMessage m text with
    | RegExp.Returned sanitized =>
        inl {| ConnectionTestResult.success := success;
               ConnectionTestResult.message := message;
               ConnectionTestResult.details_site_url := site_url (AuthManager.config m);
               ConnectionTestResult.error :=
                 Some {| ResultError.code := "UNKNOWN_ERROR";
                         ResultError.message := sanitized;
                         ResultError.http_status := None |} |}
    | RegExp.SyntaxError thrown => inr (ErrorObject.syntaxError thrown)
    end.
Proof.
  intros Hmessage Hcode Hstatus. unfold createConnectionTestResult.
  rewrite Hmessage, Hcode, Hstatus. reflexivity.
Qed.

(** X27.  What a connection test reports of an error of the HTTP client.
    [handleConnectionError] gives a result that says nothing of the category
    and of the HTTP status of a [WordPressAuthError]: the code is always
    UNKNOWN_ERROR and there is no status.  The message of the error is
    sanitized in the [error] field, and copied as it is to the [message]
    field; when the user name or the password is not a well-formed pattern,
    no result is built and the [SyntaxError] of [sanitizeErrorMessage] is
    thrown.  For a user name and a password that are plain-text patterns and
    an error whose message is the manager's own header, the [error] field
    reads "Basic [CREDENTIALS]" and the [message] field is the header. *)
Theorem X27_connection_error_report :
  forall (m : AuthManager.t) (e : WordPressAuthError),
    handleConnectionError typeErrorText m (ErrorObject.AuthError e)
    = match AuthManager.sanitizeErrorMessage m (message e) with
      | RegExp.Returned sanitized =>
          inl {| ConnectionTestResult.success := false;
                 ConnectionTestResult.message := message e;
                 ConnectionTestResult.details_site_url :=
                   site_url (AuthManager.config m);
                 ConnectionTestResult.error :=
                   Some {| ResultError.code := "UNKNOWN_ERROR";
                           ResultError.message := sanitized;
                           ResultError.http_status := None |} |}
      | RegExp.SyntaxError thrown => inr (ErrorObject.syntaxError thrown)
      end
    /\ (AuthManager.plainCredentials m = true ->
        Str.test (Str.matchLiteralCI (username (AuthManager.config m)))
          (AuthManager.generateAuthHeader m) = false ->
        Str.test (Str.matchLiteralCI (app_password (AuthManager.config m)))
          (AuthManager.generateAuthHeader m) = false ->
        message e = AuthManager.generateAuthHeader m ->
        exists result,
          handleConnectionError typeErrorText m (ErrorObject.AuthError e) = inl result
          /\ ConnectionTestResult.message result = AuthManager.generateAuthHeader m
          /\ option_map ResultError.message (ConnectionTestResult.error result)
             = Some "Basic [CREDENTIALS]").
Proof.
  intros m e.
  assert (Hreport :
            handleConnectionError typeErrorText m (ErrorObject.AuthError e)
            = match AuthManager.sanitizeErrorMessage m (message e) with
              | RegExp.Returned sanitized =>
                  inl {| ConnectionTestResult.success := false;
                         ConnectionTestResult.message := message e;
                         ConnectionTestResult.details_site_url :=
                           site_url (AuthManager.config m);
                         ConnectionTestResult.error :=
                           Some {| ResultError.code := "UNKNOWN_ERROR";
                                   ResultError.message := sanitized;
                                   ResultError.http_status := None |} |}
              | RegExp.SyntaxError thrown => inr (ErrorObject.syntaxError thrown)
              end) by reflexivity.
  split; [exact Hreport|].
  intros Hplain Hu Hp Hmessage. rewrite Hreport, Hmessage.
  rewrite (sanitizeErrorMessage_own_header m Hplain Hu Hp).
  eexists. split; [reflexivity|]. split; reflexivity.
Qed.

(** X28.  What [testBasicConnectivity()] can report.  With two units of fuel
    the model of the client does not run out.  The test reports success
    exactly when the request is answered with status 200.  In every other
    case that returns, also for another status from 200 to 299, the message is
    "Failed to connect to WordPress site", the code is UNKNOWN_ERROR and there
    is no HTTP status: building the result for SITE_UNREACHABLE throws a
    [TypeError], because the object given as error has no message, and the
    [catch] block reports that error.  The test throws only when the user
    name or the password is not a well-formed pattern: then the [catch] block
    itself throws the [SyntaxError] of [sanitizeErrorMessage]. *)
Theorem X28_basic_connectivity_report :
  forall (fuel : nat) (c : HttpClient.t) (w : World),
    0 <= retryCount c ->
    let answer := fst (fst (request (S (S fuel)) c w)) in
    let outcome := fst (fst (testBasicConnectivity typeErrorText (S (S fuel)) c w)) in
    (answer = HttpClient.Pending /\ outcome = ConnectionTester.Pending)
    \/ (exists result,
          outcome = Returned result
          /\ ((ConnectionTestResult.success result = true
               /\ ConnectionTestResult.message result = "Basic connectivity test passed"
               /\ ConnectionTestResult.error result = None
               /\ exists response,
                    answer = Fulfilled response /\ AxiosResponse.status response = 200)
              \/ (ConnectionTestResult.success result = false
                  /\ ConnectionTestResult.message result
                     = "Failed to connect to WordPress site"
                  /\ (exists text,
                        ConnectionTestResult.error result
                        = Some {| ResultError.code := "UNKNOWN_ERROR";
                                  ResultError.message := text;
                                  ResultError.http_status := None |})
                  /\ forall response,
                       answer = Fulfilled response ->
                       AxiosResponse.status response <> 200)))
    \/ (exists thrown,
          outcome = ConnectionTester.Threw thrown
          /\ AuthManager.wellFormedCredentials (authManager c) = false).
Proof.
  intros fuel c w Hcount answer outcome. subst answer outcome.
  pose proof (request_fuel_enough fuel c w Hcount) as Hfuel.
  pose proof (request_config (S (S fuel)) c w) as Hcfg.
  unfold testBasicConnectivity.
  destruct (request (S (S fuel)) c w) as [[o c1] w1]. cbn [fst snd] in Hfuel, Hcfg |- *.
  assert (Hhandler :
            forall error text,
              ErrorObject.message error = Some text ->
              ErrorObject.code error = None ->
              ErrorObject.responseStatus error = None ->
              (forall response, o = Fulfilled response ->
                 AxiosResponse.status response <> 200) ->
              let outcome :=
                ofAttempt (createConnectionTestResult typeErrorText (authManager c1) false
                             "Failed to connect to WordPress site" (Some error)) in
              (exists result,
                 outcome = Returned result
                 /\ ConnectionTestResult.success result = false
                 /\ ConnectionTestResult.message result
                    = "Failed to connect to WordPress site"
                 /\ (exists text',
                       ConnectionTestResult.error result
                       = Some {| ResultError.code := "UNKNOWN_ERROR";
                                 ResultError.message := text';
                                 ResultError.http_status := None |})
                 /\ forall response, o = Fulfilled response ->
                      AxiosResponse.status response <> 200)
              \/ (exists thrown,
                    outcome = ConnectionTester.Threw thrown
                    /\ AuthManager.wellFormedCredentials (authManager c) = false)).
  { intros error text Hmessage Hcode Hstatus Hnot200 outcome. unfold outcome.
    rewrite (createConnectionTestResult_plain_error _ _ _ _ text Hmessage Hcode Hstatus).
    destruct (AuthManager.sanitizeErrorMessage (authManager c1) text)
      as [sanitized|thrown] eqn:Hs.
    - left. eexists. split; [reflexivity|]. split; [reflexivity|].
      split; [reflexivity|]. split; [eexists; reflexivity|exact Hnot200].
    - right. eexists. split; [reflexivity|].
      rewrite <- (wellFormedCredentials_config _ _ Hcfg).
      apply (proj1 (sanitizeErrorMessage_throws (authManager c1) text)).
      exists thrown. exact Hs. }
  assert (Hwrap :
            forall outcome,
              ((exists result,
                  outcome = Returned result
                  /\ ConnectionTestResult.success result = false
                  /\ ConnectionTestResult.message result
                     = "Failed to connect to WordPress site"
                  /\ (exists text',
                        ConnectionTestResult.error result
                        = Some {| ResultError.code := "UNKNOWN_ERROR";
                                  ResultError.message := text';
                                  ResultError.http_status := None |})
                  /\ forall response, o = Fulfilled response ->
                       AxiosResponse.status response <> 200)
               \/ (exists thrown,
                     outcome = ConnectionTester.Threw thrown
                     /\ AuthManager.wellFormedCredentials (authManager c) = false)) ->
              (exists result,
                 outcome = Returned result
                 /\ ((ConnectionTestResult.success result = true
                      /\ ConnectionTestResult.message result
                         = "Basic connectivity test passed"
                      /\ ConnectionTestResult.error result = None
                      /\ exists response,
                           o = Fulfilled response /\ AxiosResponse.status response = 200)
                     \/ (ConnectionTestResult.success result = false
                         /\ ConnectionTestResult.message result
                            = "Failed to connect to WordPress site"
                         /\ (exists text,
                               ConnectionTestResult.error result
                               = Some {| ResultError.code := "UNKNOWN_ERROR";
                                         ResultError.message := text;
                                         ResultError.http_status := None |})
                         /\ forall response,
                              o = Fulfilled response ->
                              AxiosResponse.status response <> 200)))
              \/ (exists thrown,
                    outcome = ConnectionTester.Threw thrown
                    /\ AuthManager.wellFormedCredentials (authManager c) = false)).
  { intros outcome [(result & H1 & H2)|H]; [left|right; exact H].
    exists result. split; [exact H1|]. right. exact H2. }
  destruct o as [response|e|thrown| |]; [| | | |discriminate Hfuel].
  - right. destruct (AxiosResponse.status response =? 200) eqn:Hstatus; cbn [negb].
    + left. eexists. split; [reflexivity|]. left.
      repeat split. exists response. split; [reflexivity|].
      apply Z.eqb_eq. exact Hstatus.
    + cbn [createConnectionTestResult ErrorObject.ofResponse ErrorObject.message].
      apply Hwrap.
      apply (Hhandler (ErrorObject.typeError typeErrorText) typeErrorText);
        try reflexivity.
      intros response' Heq. injection Heq as <-. apply Z.eqb_neq. exact Hstatus.
  - right. apply Hwrap.
    apply (Hhandler (ErrorObject.AuthError e) (message e)); try reflexivity.
    intros response Heq. discriminate Heq.
  - right. apply Hwrap.
    apply (Hhandler (ErrorObject.syntaxError thrown) thrown); try reflexivity.
    intros response Heq. discriminate Heq.
  - left. split; reflexivity.
Qed.

End ConnectionTesterFacts.

Section ConnectionTesterExamples.
Import Net HttpClient ConnectionTester.

Lemma X27_witness :
  let header := "Basic YWRtaW46YWJjZCBlZmdoIGlqa2wgbW5vcCBxcnN0IHV2d3g=" in
  let engineText := "Cannot read properties of undefined (reading 'replace')" in
  AuthManager.plainCredentials Example.manager = true
  /\ exists result,
       handleConnectionError engineText Example.manager
         (ErrorObject.AuthError (mkAuthError FORBIDDEN header (Some 403)))
       = inl result
       /\ ConnectionTestResult.message result = header
       /\ option_map ResultError.message (ConnectionTestResult.error result)
          = Some "Basic [CREDENTIALS]".
Proof.
  intros header engineText. split; [reflexivity|].
  apply (proj2 (X27_connection_error_report engineText Example.manager
                  (mkAuthError FORBIDDEN header (Some 403)))); reflexivity.
Defined.

Lemma X28_witness :
  let engineText := "Cannot read properties of undefined (reading 'replace')" in
  let c := ConnectionTester.new Example.manager in
  let w := Example.world [Response 204 None] in
  0 <= retryCount c
  /\ fst (fst (request 2 c w)) = Fulfilled (AxiosResponse.mk 204 None)
  /\ fst (fst (testBasicConnectivity engineText 2 c w))
     = Returned
         {| ConnectionTestResult.success := false;
            ConnectionTestResult.message := "Failed to connect to WordPress site";
            ConnectionTestResult.details_site_url := "https://example.com";
            ConnectionTestResult.error :=
              Some {| ResultError.code := "UNKNOWN_ERROR";
                      ResultError.message := engineText;
                      ResultError.http_status := None |} |}
  /\ ((fst (fst (request 2 c w)) = HttpClient.Pending
       /\ fst (fst (testBasicConnectivity engineText 2 c w)) = ConnectionTester.Pending)
      \/ (exists result,
            fst (fst (testBasicConnectivity engineText 2 c w)) = Returned result
            /\ ((ConnectionTestResult.success result = true
                 /\ ConnectionTestResult.message result = "Basic connectivity test passed"
                 /\ ConnectionTestResult.error result = None
                 /\ exists response,
                      fst (fst (request 2 c w)) = Fulfilled response
                      /\ AxiosResponse.status response = 200)
                \/ (ConnectionTestResult.success result = false
                    /\ ConnectionTestResult.message result
                       = "Failed to connect to WordPress site"
                    /\ (exists text,
                          ConnectionTestResult.error result
                          = Some {| ResultError.code := "UNKNOWN_ERROR";
                                    ResultError.message := text;
                                    ResultError.http_status := None |})
                    /\ forall response,
                         fst (fst (request 2 c w)) = Fulfilled response ->
                         AxiosResponse.status response <> 200)))
      \/ (exists thrown,
            fst (fst (testBasicConnectivity engineText 2 c w))
            = ConnectionTester.Threw thrown
            /\ AuthManager.wellFormedCredentials (authManager c) = false)).
Proof.
  intros engineText c w. split; [discriminate|]. split; [reflexivity|].
  split; [reflexivity|].
  apply (X28_basic_connectivity_report engineText 0 c w). discriminate.
Defined.

End ConnectionTesterExamples.
